(** * LineAccurate drawing engine: document state, viewport and tools

    A shallow embedding of the drawing engine of the editor
    ([context/DrawingContext.tsx], [components/DrawingCanvas.tsx], the tool
    components and [utils/serialization.ts]) together with the properties
    its specification states about it.

    Numbers.  A JavaScript [number] that holds a coordinate, a size or an
    angle and is computed with is read as a real number: arithmetic is
    exact, and [NaN], the infinities and rounding are outside the model.
    In the serialized document, where numbers are carried and tested but
    never computed with, a [number] is the binary64 value it is.  Counters
    are integers: page numbers are [Z], the history cursor (only ever
    stepped by one from [0], its decrement guarded by [> 0]) is a [nat]. *)

From Stdlib Require Import PrimFloat Ascii.
From Stdlib Require DecimalNat DecimalFacts.
From Stdlib Require Import Reals Lra Lia ZArith List String Bool Arith DecimalString.
Import ListNotations.

Open Scope R_scope.

(** ** JavaScript built-ins used by the sources *)

(** [Math.max], [Math.min] on finite numbers are [Rmax] and [Rmin]. *)
Definition Math_max (a b : R) : R := Rmax a b.
Definition Math_min (a b : R) : R := Rmin a b.

(** [Math.round x]: the integer nearest to [x], halves going up, that is
    [floor (x + 1/2)]; [up r] is the integer just above [r]. *)
Definition Math_round (a : R) : R := IZR (up (a + 1 / 2) - 1).

(** Comparisons as the booleans a JavaScript condition tests. *)
Definition Rleb (a b : R) : bool := if Rle_dec a b then true else false.
Definition Rltb (a b : R) : bool := if Rlt_dec a b then true else false.

(** [arr.includes(s)] on an array of strings. *)
Definition includes (arr : list string) (s : string) : bool :=
  existsb (String.eqb s) arr.

(** [arr.slice(0, n)]. *)
Definition slice0 {A} (n : nat) (arr : list A) : list A := firstn n arr.

(** ** Data model ([context/DrawingContext.tsx]) *)

Inductive Tool :=
  tool_select | tool_line | tool_angle | tool_freehand | tool_eraser | tool_text.

Inductive Units := mm | cm | inch | ft.

Definition A4_WIDTH_MM : R := 210.
Definition A4_HEIGHT_MM : R := 297.
Definition MM_TO_PX : R := 3779527559 / 1000000000.
Definition PAGE_MARGIN : R := 20.

Record Point := { x : R; y : R }.

Inductive ElementType := type_line | type_angle | type_freehand | type_text.

Record Style := {
  strokeColor : string;
  strokeWidth : R;
  fillColor : option string }.

Record Measurements := {
  length : option R;
  radius : option R;
  angle : option R }.

Record DrawingElement := {
  id : string;
  type : ElementType;
  points : list Point;
  style : Style;
  layerId : string;
  text : option string;
  fontSize : option R;
  measurements : option Measurements;
  selected : option bool }.

Record Layer := {
  layer_id : string;
  name : string;
  visible : bool;
  locked : bool;
  color : string }.

(** The per-tool settings; [ts_] tells their fields from the element's. *)
Record StrokeSettings := { ts_strokeWidth : R; ts_strokeColor : string }.
Record TextSettings := { ts_fontSize : R; ts_textColor : string }.
Record EraserSettings := { ts_eraserWidth : R }.

Record ToolSettings := {
  ts_line : StrokeSettings;
  ts_angle : StrokeSettings;
  ts_freehand : StrokeSettings;
  ts_text : TextSettings;
  ts_eraser : EraserSettings }.

Record SavedProject := {
  project_id : string;
  project_name : string;
  data : list DrawingElement;
  timestamp : R }.

Record DrawingState := {
  currentTool : Tool;
  elements : list DrawingElement;
  selectedElementIds : list string;
  layers : list Layer;
  currentLayerId : string;
  gridSize : R;
  gridVisible : bool;
  snapToGrid : bool;
  units : Units;
  zoom : R;
  panOffset : Point;
  history : list (list DrawingElement);
  historyIndex : nat;
  toolSettings : ToolSettings;
  isDragging : bool;
  dragStart : option Point;
  editingElement : option string;
  savedProjects : list SavedProject;
  currentProjectName : string;
  snapThreshold : R;
  currentPage : Z;
  totalPages : Z;
  pageWidth : R;
  pageHeight : R;
  minZoom : R }.

(** [Partial<DrawingElement>]: a field is [None] when the object does not
    carry the property.  An optional property can be carried with the value
    [undefined], hence the nested options. *)
Record PartialElement := {
  p_id : option string;
  p_type : option ElementType;
  p_points : option (list Point);
  p_style : option Style;
  p_layerId : option string;
  p_text : option (option string);
  p_fontSize : option (option R);
  p_measurements : option (option Measurements);
  p_selected : option (option bool) }.

Record PartialLayer := {
  p_layer_id : option string;
  p_name : option string;
  p_visible : option bool;
  p_locked : option bool;
  p_color : option string }.

(** The [settings] payload of UPDATE_TOOL_SETTINGS. *)
Record PartialSettings := {
  p_strokeWidth : option R;
  p_strokeColor : option string;
  p_fontSizeSetting : option R }.

Inductive ToolKey := key_line | key_angle | key_freehand | key_text | key_eraser.

Inductive DrawingAction :=
  | SET_TOOL (tool : Tool)
  | ADD_ELEMENT (element : DrawingElement)
  | UPDATE_ELEMENT (id : string) (element : PartialElement)
  | DELETE_ELEMENTS (ids : list string)
  | SELECT_ELEMENTS (ids : list string)
  | REPLACE_ELEMENTS (elements : list DrawingElement)
  | SET_GRID_SIZE (size : R)
  | TOGGLE_GRID (visible : option bool)
  | TOGGLE_SNAP (snap : option bool)
  | SET_UNITS (units : Units)
  | SET_ZOOM (zoom : R)
  | SET_PAN (offset : Point)
  | ADD_LAYER (layer : Layer)
  | UPDATE_LAYER (id : string) (layer : PartialLayer)
  | DELETE_LAYER (id : string)
  | SET_CURRENT_LAYER (id : string)
  | UNDO
  | REDO
  | SAVE_STATE
  | UPDATE_TOOL_SETTINGS (tool : ToolKey) (settings : PartialSettings)
  | SET_DRAGGING (isDragging : bool) (dragStart : option (option Point))
  | SET_EDITING_ELEMENT (id : option string)
  | SAVE_PROJECT (name : string)
  | LOAD_PROJECT (id : string)
  | SET_PROJECT_NAME (name : string)
  | SET_CURRENT_PAGE (page : Z)
  | ADD_PAGE
  | DELETE_PAGE (page : Z)
  | CLEAR_CANVAS
  | SET_MIN_ZOOM (minZoom : R).

Definition initialState : DrawingState :=
  {| currentTool := tool_select;
     elements := [];
     selectedElementIds := [];
     layers :=
       [ {| layer_id := "layer-1"; name := "Layer 1"; visible := true;
            locked := false; color := "#ffffff" |};
         {| layer_id := "layer-2"; name := "Dimensions"; visible := true;
            locked := false; color := "#00ff00" |};
         {| layer_id := "layer-3"; name := "Construction"; visible := true;
            locked := false; color := "#ffff00" |} ];
     currentLayerId := "layer-1";
     gridSize := 10;
     gridVisible := true;
     snapToGrid := true;
     units := mm;
     zoom := 1;
     panOffset := {| x := 0; y := 0 |};
     history := [[]];
     historyIndex := 0;
     toolSettings :=
       {| ts_line := {| ts_strokeWidth := 2; ts_strokeColor := "#ffffff" |};
          ts_angle := {| ts_strokeWidth := 2; ts_strokeColor := "#00ff00" |};
          ts_freehand := {| ts_strokeWidth := 2; ts_strokeColor := "#ffffff" |};
          ts_text := {| ts_fontSize := 14; ts_textColor := "#ffffff" |};
          ts_eraser := {| ts_eraserWidth := 10 |} |};
     isDragging := false;
     dragStart := None;
     editingElement := None;
     savedProjects := [];
     currentProjectName := "Untitled Project";
     snapThreshold := 7;
     currentPage := 1;
     totalPages := 1;
     pageWidth := Math_round (A4_WIDTH_MM * MM_TO_PX);
     pageHeight := Math_round (A4_HEIGHT_MM * MM_TO_PX);
     minZoom := 1 / 2 |}.

(** ** Object spread

    [{ ...state, f: v }] copies the state and replaces the field [f]. *)

Definition set_currentTool (v : Tool) (s : DrawingState) : DrawingState :=
  {| currentTool := v; elements := elements s;
     selectedElementIds := selectedElementIds s; layers := layers s;
     currentLayerId := currentLayerId s; gridSize := gridSize s;
     gridVisible := gridVisible s; snapToGrid := snapToGrid s; units := units s;
     zoom := zoom s; panOffset := panOffset s; history := history s;
     historyIndex := historyIndex s; toolSettings := toolSettings s;
     isDragging := isDragging s; dragStart := dragStart s;
     editingElement := editingElement s; savedProjects := savedProjects s;
     currentProjectName := currentProjectName s; snapThreshold := snapThreshold s;
     currentPage := currentPage s; totalPages := totalPages s;
     pageWidth := pageWidth s; pageHeight := pageHeight s; minZoom := minZoom s |}.

Definition set_elements (v : list DrawingElement) (s : DrawingState) : DrawingState :=
  {| currentTool := currentTool s; elements := v;
     selectedElementIds := selectedElementIds s; layers := layers s;
     currentLayerId := currentLayerId s; gridSize := gridSize s;
     gridVisible := gridVisible s; snapToGrid := snapToGrid s; units := units s;
     zoom := zoom s; panOffset := panOffset s; history := history s;
     historyIndex := historyIndex s; toolSettings := toolSettings s;
     isDragging := isDragging s; dragStart := dragStart s;
     editingElement := editingElement s; savedProjects := savedProjects s;
     currentProjectName := currentProjectName s; snapThreshold := snapThreshold s;
     currentPage := currentPage s; totalPages := totalPages s;
     pageWidth := pageWidth s; pageHeight := pageHeight s; minZoom := minZoom s |}.

Definition set_selectedElementIds (v : list string) (s : DrawingState) : DrawingState :=
  {| currentTool := currentTool s; elements := elements s; selectedElementIds := v;
     layers := layers s; currentLayerId := currentLayerId s; gridSize := gridSize s;
     gridVisible := gridVisible s; snapToGrid := snapToGrid s; units := units s;
     zoom := zoom s; panOffset := panOffset s; history := history s;
     historyIndex := historyIndex s; toolSettings := toolSettings s;
     isDragging := isDragging s; dragStart := dragStart s;
     editingElement := editingElement s; savedProjects := savedProjects s;
     currentProjectName := currentProjectName s; snapThreshold := snapThreshold s;
     currentPage := currentPage s; totalPages := totalPages s;
     pageWidth := pageWidth s; pageHeight := pageHeight s; minZoom := minZoom s |}.

Definition set_layers (v : list Layer) (s : DrawingState) : DrawingState :=
  {| currentTool := currentTool s; elements := elements s;
     selectedElementIds := selectedElementIds s; layers := v;
     currentLayerId := currentLayerId s; gridSize := gridSize s;
     gridVisible := gridVisible s; snapToGrid := snapToGrid s; units := units s;
     zoom := zoom s; panOffset := panOffset s; history := history s;
     historyIndex := historyIndex s; toolSettings := toolSettings s;
     isDragging := isDragging s; dragStart := dragStart s;
     editingElement := editingElement s; savedProjects := savedProjects s;
     currentProjectName := currentProjectName s; snapThreshold := snapThreshold s;
     currentPage := currentPage s; totalPages := totalPages s;
     pageWidth := pageWidth s; pageHeight := pageHeight s; minZoom := minZoom s |}.

Definition set_currentLayerId (v : string) (s : DrawingState) : DrawingState :=
  {| currentTool := currentTool s; elements := elements s;
     selectedElementIds := selectedElementIds s; layers := layers s;
     currentLayerId := v; gridSize := gridSize s; gridVisible := gridVisible s;
     snapToGrid := snapToGrid s; units := units s; zoom := zoom s;
     panOffset := panOffset s; history := history s; historyIndex := historyIndex s;
     toolSettings := toolSettings s; isDragging := isDragging s;
     dragStart := dragStart s; editingElement := editingElement s;
     savedProjects := savedProjects s; currentProjectName := currentProjectName s;
     snapThreshold := snapThreshold s; currentPage := currentPage s;
     totalPages := totalPages s; pageWidth := pageWidth s; pageHeight := pageHeight s;
     minZoom := minZoom s |}.

Definition set_gridSize (v : R) (s : DrawingState) : DrawingState :=
  {| currentTool := currentTool s; elements := elements s;
     selectedElementIds := selectedElementIds s; layers := layers s;
     currentLayerId := currentLayerId s; gridSize := v; gridVisible := gridVisible s;
     snapToGrid := snapToGrid s; units := units s; zoom := zoom s;
     panOffset := panOffset s; history := history s; historyIndex := historyIndex s;
     toolSettings := toolSettings s; isDragging := isDragging s;
     dragStart := dragStart s; editingElement := editingElement s;
     savedProjects := savedProjects s; currentProjectName := currentProjectName s;
     snapThreshold := snapThreshold s; currentPage := currentPage s;
     totalPages := totalPages s; pageWidth := pageWidth s; pageHeight := pageHeight s;
     minZoom := minZoom s |}.

Definition set_gridVisible (v : bool) (s : DrawingState) : DrawingState :=
  {| currentTool := currentTool s; elements := elements s;
     selectedElementIds := selectedElementIds s; layers := layers s;
     currentLayerId := currentLayerId s; gridSize := gridSize s; gridVisible := v;
     snapToGrid := snapToGrid s; units := units s; zoom := zoom s;
     panOffset := panOffset s; history := history s; historyIndex := historyIndex s;
     toolSettings := toolSettings s; isDragging := isDragging s;
     dragStart := dragStart s; editingElement := editingElement s;
     savedProjects := savedProjects s; currentProjectName := currentProjectName s;
     snapThreshold := snapThreshold s; currentPage := currentPage s;
     totalPages := totalPages s; pageWidth := pageWidth s; pageHeight := pageHeight s;
     minZoom := minZoom s |}.

Definition set_snapToGrid (v : bool) (s : DrawingState) : DrawingState :=
  {| currentTool := currentTool s; elements := elements s;
     selectedElementIds := selectedElementIds s; layers := layers s;
     currentLayerId := currentLayerId s; gridSize := gridSize s;
     gridVisible := gridVisible s; snapToGrid := v; units := units s; zoom := zoom s;
     panOffset := panOffset s; history := history s; historyIndex := historyIndex s;
     toolSettings := toolSettings s; isDragging := isDragging s;
     dragStart := dragStart s; editingElement := editingElement s;
     savedProjects := savedProjects s; currentProjectName := currentProjectName s;
     snapThreshold := snapThreshold s; currentPage := currentPage s;
     totalPages := totalPages s; pageWidth := pageWidth s; pageHeight := pageHeight s;
     minZoom := minZoom s |}.

Definition set_units (v : Units) (s : DrawingState) : DrawingState :=
  {| currentTool := currentTool s; elements := elements s;
     selectedElementIds := selectedElementIds s; layers := layers s;
     currentLayerId := currentLayerId s; gridSize := gridSize s;
     gridVisible := gridVisible s; snapToGrid := snapToGrid s; units := v;
     zoom := zoom s; panOffset := panOffset s; history := history s;
     historyIndex := historyIndex s; toolSettings := toolSettings s;
     isDragging := isDragging s; dragStart := dragStart s;
     editingElement := editingElement s; savedProjects := savedProjects s;
     currentProjectName := currentProjectName s; snapThreshold := snapThreshold s;
     currentPage := currentPage s; totalPages := totalPages s;
     pageWidth := pageWidth s; pageHeight := pageHeight s; minZoom := minZoom s |}.

Definition set_zoom (v : R) (s : DrawingState) : DrawingState :=
  {| currentTool := currentTool s; elements := elements s;
     selectedElementIds := selectedElementIds s; layers := layers s;
     currentLayerId := currentLayerId s; gridSize := gridSize s;
     gridVisible := gridVisible s; snapToGrid := snapToGrid s; units := units s;
     zoom := v; panOffset := panOffset s; history := history s;
     historyIndex := historyIndex s; toolSettings := toolSettings s;
     isDragging := isDragging s; dragStart := dragStart s;
     editingElement := editingElement s; savedProjects := savedProjects s;
     currentProjectName := currentProjectName s; snapThreshold := snapThreshold s;
     currentPage := currentPage s; totalPages := totalPages s;
     pageWidth := pageWidth s; pageHeight := pageHeight s; minZoom := minZoom s |}.

Definition set_panOffset (v : Point) (s : DrawingState) : DrawingState :=
  {| currentTool := currentTool s; elements := elements s;
     selectedElementIds := selectedElementIds s; layers := layers s;
     currentLayerId := currentLayerId s; gridSize := gridSize s;
     gridVisible := gridVisible s; snapToGrid := snapToGrid s; units := units s;
     zoom := zoom s; panOffset := v; history := history s;
     historyIndex := historyIndex s; toolSettings := toolSettings s;
     isDragging := isDragging s; dragStart := dragStart s;
     editingElement := editingElement s; savedProjects := savedProjects s;
     currentProjectName := currentProjectName s; snapThreshold := snapThreshold s;
     currentPage := currentPage s; totalPages := totalPages s;
     pageWidth := pageWidth s; pageHeight := pageHeight s; minZoom := minZoom s |}.

Definition set_history (v : list (list DrawingElement)) (s : DrawingState) : DrawingState :=
  {| currentTool := currentTool s; elements := elements s;
     selectedElementIds := selectedElementIds s; layers := layers s;
     currentLayerId := currentLayerId s; gridSize := gridSize s;
     gridVisible := gridVisible s; snapToGrid := snapToGrid s; units := units s;
     zoom := zoom s; panOffset := panOffset s; history := v;
     historyIndex := historyIndex s; toolSettings := toolSettings s;
     isDragging := isDragging s; dragStart := dragStart s;
     editingElement := editingElement s; savedProjects := savedProjects s;
     currentProjectName := currentProjectName s; snapThreshold := snapThreshold s;
     currentPage := currentPage s; totalPages := totalPages s;
     pageWidth := pageWidth s; pageHeight := pageHeight s; minZoom := minZoom s |}.

Definition set_historyIndex (v : nat) (s : DrawingState) : DrawingState :=
  {| currentTool := currentTool s; elements := elements s;
     selectedElementIds := selectedElementIds s; layers := layers s;
     currentLayerId := currentLayerId s; gridSize := gridSize s;
     gridVisible := gridVisible s; snapToGrid := snapToGrid s; units := units s;
     zoom := zoom s; panOffset := panOffset s; history := history s; historyIndex := v;
     toolSettings := toolSettings s; isDragging := isDragging s;
     dragStart := dragStart s; editingElement := editingElement s;
     savedProjects := savedProjects s; currentProjectName := currentProjectName s;
     snapThreshold := snapThreshold s; currentPage := currentPage s;
     totalPages := totalPages s; pageWidth := pageWidth s; pageHeight := pageHeight s;
     minZoom := minZoom s |}.

Definition set_toolSettings (v : ToolSettings) (s : DrawingState) : DrawingState :=
  {| currentTool := currentTool s; elements := elements s;
     selectedElementIds := selectedElementIds s; layers := layers s;
     currentLayerId := currentLayerId s; gridSize := gridSize s;
     gridVisible := gridVisible s; snapToGrid := snapToGrid s; units := units s;
     zoom := zoom s; panOffset := panOffset s; history := history s;
     historyIndex := historyIndex s; toolSettings := v; isDragging := isDragging s;
     dragStart := dragStart s; editingElement := editingElement s;
     savedProjects := savedProjects s; currentProjectName := currentProjectName s;
     snapThreshold := snapThreshold s; currentPage := currentPage s;
     totalPages := totalPages s; pageWidth := pageWidth s; pageHeight := pageHeight s;
     minZoom := minZoom s |}.

Definition set_isDragging (v : bool) (s : DrawingState) : DrawingState :=
  {| currentTool := currentTool s; elements := elements s;
     selectedElementIds := selectedElementIds s; layers := layers s;
     currentLayerId := currentLayerId s; gridSize := gridSize s;
     gridVisible := gridVisible s; snapToGrid := snapToGrid s; units := units s;
     zoom := zoom s; panOffset := panOffset s; history := history s;
     historyIndex := historyIndex s; toolSettings := toolSettings s; isDragging := v;
     dragStart := dragStart s; editingElement := editingElement s;
     savedProjects := savedProjects s; currentProjectName := currentProjectName s;
     snapThreshold := snapThreshold s; currentPage := currentPage s;
     totalPages := totalPages s; pageWidth := pageWidth s; pageHeight := pageHeight s;
     minZoom := minZoom s |}.

Definition set_dragStart (v : option Point) (s : DrawingState) : DrawingState :=
  {| currentTool := currentTool s; elements := elements s;
     selectedElementIds := selectedElementIds s; layers := layers s;
     currentLayerId := currentLayerId s; gridSize := gridSize s;
     gridVisible := gridVisible s; snapToGrid := snapToGrid s; units := units s;
     zoom := zoom s; panOffset := panOffset s; history := history s;
     historyIndex := historyIndex s; toolSettings := toolSettings s;
     isDragging := isDragging s; dragStart := v; editingElement := editingElement s;
     savedProjects := savedProjects s; currentProjectName := currentProjectName s;
     snapThreshold := snapThreshold s; currentPage := currentPage s;
     totalPages := totalPages s; pageWidth := pageWidth s; pageHeight := pageHeight s;
     minZoom := minZoom s |}.

Definition set_editingElement (v : option string) (s : DrawingState) : DrawingState :=
  {| currentTool := currentTool s; elements := elements s;
     selectedElementIds := selectedElementIds s; layers := layers s;
     currentLayerId := currentLayerId s; gridSize := gridSize s;
     gridVisible := gridVisible s; snapToGrid := snapToGrid s; units := units s;
     zoom := zoom s; panOffset := panOffset s; history := history s;
     historyIndex := historyIndex s; toolSettings := toolSettings s;
     isDragging := isDragging s; dragStart := dragStart s; editingElement := v;
     savedProjects := savedProjects s; currentProjectName := currentProjectName s;
     snapThreshold := snapThreshold s; currentPage := currentPage s;
     totalPages := totalPages s; pageWidth := pageWidth s; pageHeight := pageHeight s;
     minZoom := minZoom s |}.

Definition set_currentPage (v : Z) (s : DrawingState) : DrawingState :=
  {| currentTool := currentTool s; elements := elements s;
     selectedElementIds := selectedElementIds s; layers := layers s;
     currentLayerId := currentLayerId s; gridSize := gridSize s;
     gridVisible := gridVisible s; snapToGrid := snapToGrid s; units := units s;
     zoom := zoom s; panOffset := panOffset s; history := history s;
     historyIndex := historyIndex s; toolSettings := toolSettings s;
     isDragging := isDragging s; dragStart := dragStart s;
     editingElement := editingElement s; savedProjects := savedProjects s;
     currentProjectName := currentProjectName s; snapThreshold := snapThreshold s;
     currentPage := v; totalPages := totalPages s; pageWidth := pageWidth s;
     pageHeight := pageHeight s; minZoom := minZoom s |}.

Definition set_totalPages (v : Z) (s : DrawingState) : DrawingState :=
  {| currentTool := currentTool s; elements := elements s;
     selectedElementIds := selectedElementIds s; layers := layers s;
     currentLayerId := currentLayerId s; gridSize := gridSize s;
     gridVisible := gridVisible s; snapToGrid := snapToGrid s; units := units s;
     zoom := zoom s; panOffset := panOffset s; history := history s;
     historyIndex := historyIndex s; toolSettings := toolSettings s;
     isDragging := isDragging s; dragStart := dragStart s;
     editingElement := editingElement s; savedProjects := savedProjects s;
     currentProjectName := currentProjectName s; snapThreshold := snapThreshold s;
     currentPage := currentPage s; totalPages := v; pageWidth := pageWidth s;
     pageHeight := pageHeight s; minZoom := minZoom s |}.

Definition set_minZoom (v : R) (s : DrawingState) : DrawingState :=
  {| currentTool := currentTool s; elements := elements s;
     selectedElementIds := selectedElementIds s; layers := layers s;
     currentLayerId := currentLayerId s; gridSize := gridSize s;
     gridVisible := gridVisible s; snapToGrid := snapToGrid s; units := units s;
     zoom := zoom s; panOffset := panOffset s; history := history s;
     historyIndex := historyIndex s; toolSettings := toolSettings s;
     isDragging := isDragging s; dragStart := dragStart s;
     editingElement := editingElement s; savedProjects := savedProjects s;
     currentProjectName := currentProjectName s; snapThreshold := snapThreshold s;
     currentPage := currentPage s; totalPages := totalPages s;
     pageWidth := pageWidth s; pageHeight := pageHeight s; minZoom := v |}.

(** [{ ...el, ...partial }] *)
Definition merge {A} (old : A) (new : option A) : A :=
  match new with Some v => v | None => old end.

Definition spread_element (el : DrawingElement) (p : PartialElement)
  : DrawingElement :=
  {| id := merge (id el) (p_id p);
     type := merge (type el) (p_type p);
     points := merge (points el) (p_points p);
     style := merge (style el) (p_style p);
     layerId := merge (layerId el) (p_layerId p);
     text := merge (text el) (p_text p);
     fontSize := merge (fontSize el) (p_fontSize p);
     measurements := merge (measurements el) (p_measurements p);
     selected := merge (selected el) (p_selected p) |}.

Definition spread_layer (l : Layer) (p : PartialLayer) : Layer :=
  {| layer_id := merge (layer_id l) (p_layer_id p);
     name := merge (name l) (p_name p);
     visible := merge (visible l) (p_visible p);
     locked := merge (locked l) (p_locked p);
     color := merge (color l) (p_color p) |}.

(** [{ ...state.toolSettings, [tool]: { ...state.toolSettings[tool],
    ...settings } }].  A property the tool's settings type does not declare
    would be added to the object by the spread; nothing reads it, and the
    model drops it. *)
Definition spread_stroke (o : StrokeSettings) (p : PartialSettings) :=
  {| ts_strokeWidth := merge (ts_strokeWidth o) (p_strokeWidth p);
     ts_strokeColor := merge (ts_strokeColor o) (p_strokeColor p) |}.

Definition spread_toolSettings (t : ToolSettings) (k : ToolKey)
  (p : PartialSettings) : ToolSettings :=
  match k with
  | key_line =>
      {| ts_line := spread_stroke (ts_line t) p; ts_angle := ts_angle t;
         ts_freehand := ts_freehand t; ts_text := ts_text t;
         ts_eraser := ts_eraser t |}
  | key_angle =>
      {| ts_line := ts_line t; ts_angle := spread_stroke (ts_angle t) p;
         ts_freehand := ts_freehand t; ts_text := ts_text t;
         ts_eraser := ts_eraser t |}
  | key_freehand =>
      {| ts_line := ts_line t; ts_angle := ts_angle t;
         ts_freehand := spread_stroke (ts_freehand t) p; ts_text := ts_text t;
         ts_eraser := ts_eraser t |}
  | key_text =>
      {| ts_line := ts_line t; ts_angle := ts_angle t;
         ts_freehand := ts_freehand t;
         ts_text :=
           {| ts_fontSize := merge (ts_fontSize (ts_text t)) (p_fontSizeSetting p);
              ts_textColor := merge (ts_textColor (ts_text t)) (p_strokeColor p) |};
         ts_eraser := ts_eraser t |}
  | key_eraser =>
      {| ts_line := ts_line t; ts_angle := ts_angle t;
         ts_freehand := ts_freehand t; ts_text := ts_text t;
         ts_eraser :=
           {| ts_eraserWidth :=
                merge (ts_eraserWidth (ts_eraser t)) (p_strokeWidth p) |} |}
  end.

(** ** The reducer

    [drawingReducer state action] is [Some state'] when the source returns
    the state [state'].  It is [None] in the two places where no
    [DrawingState] results: DELETE_LAYER reads [layers[0].id] of an empty
    array (a TypeError), and UNDO reads [history[historyIndex - 1]] beyond
    the end of [history] ([undefined] would be stored in [elements]).
    REDO reads [history[historyIndex + 1]] under a guard that keeps the
    index in range; the [None] there is unreachable. *)
Definition drawingReducer (state : DrawingState) (action : DrawingAction)
  : option DrawingState :=
  match action with
  | SET_TOOL tool =>
      Some (set_currentTool tool
             (set_selectedElementIds [] (set_editingElement None state)))
  | ADD_ELEMENT element =>
      let newElements := elements state ++ [element] in
      Some (set_elements newElements
             (set_history
                (slice0 (historyIndex state + 1) (history state) ++ [newElements])
                (set_historyIndex (historyIndex state + 1) state)))
  | UPDATE_ELEMENT id0 element =>
      let updatedElements :=
        map (fun el => if String.eqb (id el) id0
                       then spread_element el element else el)
            (elements state) in
      Some (set_elements updatedElements state)
  | DELETE_ELEMENTS ids =>
      let filteredElements :=
        filter (fun el => negb (includes ids (id el))) (elements state) in
      Some (set_elements filteredElements
             (set_selectedElementIds []
                (set_history
                   (slice0 (historyIndex state + 1) (history state)
                      ++ [filteredElements])
                   (set_historyIndex (historyIndex state + 1) state))))
  | REPLACE_ELEMENTS next =>
      Some (set_elements next
             (set_selectedElementIds []
                (set_history
                   (slice0 (historyIndex state + 1) (history state) ++ [next])
                   (set_historyIndex (historyIndex state + 1) state))))
  | SELECT_ELEMENTS ids => Some (set_selectedElementIds ids state)
  | SET_GRID_SIZE size => Some (set_gridSize (Math_max 1 size) state)
  | TOGGLE_GRID visible0 =>
      Some (set_gridVisible
              (match visible0 with Some v => v | None => negb (gridVisible state) end)
              state)
  | TOGGLE_SNAP snap =>
      Some (set_snapToGrid
              (match snap with Some v => v | None => negb (snapToGrid state) end)
              state)
  | SET_UNITS u => Some (set_units u state)
  | SET_ZOOM z =>
      Some (set_zoom (Math_max (minZoom state) (Math_min 3 z)) state)
  | SET_PAN offset => Some (set_panOffset offset state)
  | ADD_LAYER layer => Some (set_layers (layers state ++ [layer]) state)
  | UPDATE_LAYER id0 layer =>
      Some (set_layers
              (map (fun l => if String.eqb (layer_id l) id0
                             then spread_layer l layer else l)
                   (layers state))
              state)
  | DELETE_LAYER id0 =>
      if (List.length (layers state) <=? 1)%nat then Some state
      else
        let layers' :=
          filter (fun l => negb (String.eqb (layer_id l) id0)) (layers state) in
        let elements' :=
          filter (fun el => negb (String.eqb (layerId el) id0)) (elements state) in
        if String.eqb (currentLayerId state) id0 then
          match layers' with
          | first :: _ =>
              Some (set_layers layers'
                     (set_currentLayerId (layer_id first)
                        (set_elements elements' state)))
          | [] => None
          end
        else
          Some (set_layers layers'
                 (set_currentLayerId (currentLayerId state)
                    (set_elements elements' state)))
  | SET_CURRENT_LAYER id0 => Some (set_currentLayerId id0 state)
  | UNDO =>
      if (0 <? historyIndex state)%nat then
        match nth_error (history state) (historyIndex state - 1) with
        | Some snapshot =>
            Some (set_elements snapshot
                   (set_historyIndex (historyIndex state - 1)
                      (set_selectedElementIds [] state)))
        | None => None
        end
      else Some state
  | REDO =>
      if (historyIndex state <? List.length (history state) - 1)%nat then
        match nth_error (history state) (historyIndex state + 1) with
        | Some snapshot =>
            Some (set_elements snapshot
                   (set_historyIndex (historyIndex state + 1)
                      (set_selectedElementIds [] state)))
        | None => None
        end
      else Some state
  | SAVE_STATE =>
      Some (set_history
              (slice0 (historyIndex state + 1) (history state) ++ [elements state])
              (set_historyIndex (historyIndex state + 1) state))
  | UPDATE_TOOL_SETTINGS tool settings =>
      Some (set_toolSettings
              (spread_toolSettings (toolSettings state) tool settings) state)
  | SET_DRAGGING dragging start =>
      Some (set_isDragging dragging
             (set_dragStart
                (match start with Some d => d | None => dragStart state end)
                state))
  | SET_EDITING_ELEMENT id0 => Some (set_editingElement id0 state)
  | SET_CURRENT_PAGE page =>
      Some (set_currentPage (Z.max 1 (Z.min page (totalPages state))) state)
  | ADD_PAGE =>
      Some (set_totalPages (totalPages state + 1)
             (set_currentPage (totalPages state + 1) state))
  | DELETE_PAGE page =>
      if (totalPages state <=? 1)%Z then Some state
      else
        let newTotalPages := (totalPages state - 1)%Z in
        let newCurrentPage :=
          if (page <=? currentPage state)%Z && (1 <? currentPage state)%Z
          then (currentPage state - 1)%Z
          else if (newTotalPages <? currentPage state)%Z
               then newTotalPages
               else currentPage state in
        Some (set_totalPages newTotalPages
               (set_currentPage newCurrentPage state))
  | SET_MIN_ZOOM z =>
      Some (set_minZoom (Math_min 1 (Math_max (1 / 10) z)) state)
  | SAVE_PROJECT _ | LOAD_PROJECT _ | SET_PROJECT_NAME _ | CLEAR_CANVAS =>
      Some state
  end.

(** [dispatch] applied to a sequence of actions, in order. *)
Fixpoint run (state : DrawingState) (actions : list DrawingAction)
  : option DrawingState :=
  match actions with
  | [] => Some state
  | a :: rest =>
      match drawingReducer state a with
      | Some state' => run state' rest
      | None => None
      end
  end.

(** The actions that record an undo checkpoint. *)
Definition history_significant (a : DrawingAction) : bool :=
  match a with
  | ADD_ELEMENT _ | DELETE_ELEMENTS _ | REPLACE_ELEMENTS _ | SAVE_STATE => true
  | _ => false
  end.

(** ** History invariants *)

(** The cursor points into the history. *)
Definition cursor_in_range (s : DrawingState) : Prop :=
  (historyIndex s < List.length (history s))%nat.

(** The snapshot under the cursor is the current element list. *)
Definition cursor_is_current (s : DrawingState) : Prop :=
  nth_error (history s) (historyIndex s) = Some (elements s).

(** ** Viewport ([components/DrawingCanvas.tsx]) *)

Definition CANVAS_PADDING : R := 50.

(** The rectangle of a page. *)
Record Bounds := { b_x : R; b_y : R; b_width : R; b_height : R }.

Definition getPageBounds (state : DrawingState) (pageNumber : Z) : Bounds :=
  {| b_x := CANVAS_PADDING;
     b_y := CANVAS_PADDING
            + (IZR pageNumber - 1) * (pageHeight state + PAGE_MARGIN);
     b_width := pageWidth state;
     b_height := pageHeight state |}.

Definition totalHeight (state : DrawingState) : R :=
  CANVAS_PADDING * 2 + IZR (totalPages state) * pageHeight state
  + (IZR (totalPages state) - 1) * PAGE_MARGIN.

Definition totalWidth (state : DrawingState) : R :=
  CANVAS_PADDING * 2 + pageWidth state.

Definition getContentSize (state : DrawingState) : R * R :=
  (totalWidth state, totalHeight state).

(** [container.getBoundingClientRect()]: the viewport in CSS pixels. *)
Record DOMRect := { rect_width : R; rect_height : R }.

(** The viewport in document units.  The reducer keeps [zoom] at or above
    [minZoom >= 0.1]; at [zoom = 0] the source divides by zero. *)
Definition viewW (rect : DOMRect) (state : DrawingState) : R :=
  rect_width rect / zoom state.
Definition viewH (rect : DOMRect) (state : DrawingState) : R :=
  rect_height rect / zoom state.

(** [clampPan]; [container] is [containerRef.current], [None] before the
    element is mounted. *)
Definition clampPan (container : option DOMRect) (state : DrawingState)
  (pan : Point) : Point :=
  match container with
  | None => pan
  | Some rect =>
      let (totalWidth, totalHeight) := getContentSize state in
      let viewW := viewW rect state in
      let viewH := viewH rect state in
      let clampedX :=
        if Rleb totalWidth viewW then (viewW - totalWidth) / 2
        else
          let minX := - (totalWidth - viewW) in
          let maxX := 0 in
          Math_max minX (Math_min maxX (x pan)) in
      let clampedY :=
        if Rleb totalHeight viewH then (viewH - totalHeight) / 2
        else
          let minY := - (totalHeight - viewH) in
          let maxY := 0 in
          Math_max minY (Math_min maxY (y pan)) in
      {| x := clampedX; y := clampedY |}
  end.

Definition inBounds (point : Point) (bounds : Bounds) : bool :=
  Rleb (b_x bounds) (x point) && Rleb (x point) (b_x bounds + b_width bounds)
  && Rleb (b_y bounds) (y point) && Rleb (y point) (b_y bounds + b_height bounds).

(** The loop of [getPageAtPoint], from [page] on, with [todo] pages left. *)
Fixpoint pageFrom (state : DrawingState) (point : Point) (page : Z) (todo : nat)
  : option Z :=
  match todo with
  | O => None
  | S todo' =>
      if inBounds point (getPageBounds state page) then Some page
      else pageFrom state point (page + 1) todo'
  end.

(** [getPageAtPoint]: the first page whose rectangle holds the point, [None]
    for [null]. *)
Definition getPageAtPoint (state : DrawingState) (point : Point) : option Z :=
  pageFrom state point 1 (Z.to_nat (totalPages state)).

(** [!pageNumber] for a [number | null]. *)
Definition noPage (pageNumber : option Z) : bool :=
  match pageNumber with
  | None => true
  | Some n => (n =? 0)%Z
  end.

Definition clipToPageBounds (state : DrawingState) (point : Point) : Point :=
  let pageNumber := getPageAtPoint state point in
  if noPage pageNumber then point
  else
    match pageNumber with
    | None => point
    | Some pageNumber =>
        let bounds := getPageBounds state pageNumber in
        {| x := Math_max (b_x bounds)
                  (Math_min (b_x bounds + b_width bounds) (x point));
           y := Math_max (b_y bounds)
                  (Math_min (b_y bounds + b_height bounds) (y point)) |}
    end.

(** A point lies on some page of the document. *)
Definition onSomePage (state : DrawingState) (point : Point) : Prop :=
  exists page : Z,
    (1 <= page <= totalPages state)%Z /\
    inBounds point (getPageBounds state page) = true.

(** ** Tools

    The canvas component owns the draft ([currentElement]) and the
    [isDrawing] flag and hands them to the mounted tool; the angle tool
    keeps its own [clickCount].  An event handler runs to completion: its
    dispatches go through the reducer and its state setters take effect
    before the next event.  A handler receives the document point that
    [getCanvasPoint] computed for the event and, where it builds an id, the
    decimal text of [Date.now()].  A handler that throws gives [None]. *)

Record Canvas := {
  doc : DrawingState;
  isDrawing : bool;
  currentElement : option DrawingElement;
  clickCount : nat }.

Definition dispatch (c : Canvas) (a : DrawingAction) : option Canvas :=
  match drawingReducer (doc c) a with
  | Some s =>
      Some {| doc := s; isDrawing := isDrawing c;
              currentElement := currentElement c; clickCount := clickCount c |}
  | None => None
  end.

Definition setCurrentElement (e : option DrawingElement) (c : Canvas) : Canvas :=
  {| doc := doc c; isDrawing := isDrawing c; currentElement := e;
     clickCount := clickCount c |}.

Definition setIsDrawing (b : bool) (c : Canvas) : Canvas :=
  {| doc := doc c; isDrawing := b; currentElement := currentElement c;
     clickCount := clickCount c |}.

Definition setClickCount (n : nat) (c : Canvas) : Canvas :=
  {| doc := doc c; isDrawing := isDrawing c; currentElement := currentElement c;
     clickCount := n |}.

Definition Math_pow2 (a : R) : R := a ^ 2.

(** [{ ...el, points: ps }] and [{ ...el, points: ps, measurements: m }]. *)
Definition with_points (el : DrawingElement) (ps : list Point) : DrawingElement :=
  {| id := id el; type := type el; points := ps; style := style el;
     layerId := layerId el; text := text el; fontSize := fontSize el;
     measurements := measurements el; selected := selected el |}.

Definition with_points_measurements (el : DrawingElement) (ps : list Point)
  (m : Measurements) : DrawingElement :=
  {| id := id el; type := type el; points := ps; style := style el;
     layerId := layerId el; text := text el; fontSize := fontSize el;
     measurements := Some m; selected := selected el |}.

Definition strokeStyle (t : StrokeSettings) : Style :=
  {| strokeColor := ts_strokeColor t; strokeWidth := ts_strokeWidth t;
     fillColor := None |}.

Module LineTool.

Definition handleMouseDown (c : Canvas) (point : Point) (now : string)
  : option Canvas :=
  if noPage (getPageAtPoint (doc c) point) then Some c
  else
    let clippedPoint := clipToPageBounds (doc c) point in
    let newElement :=
      {| id := "line-" ++ now; type := type_line;
         points := [clippedPoint; clippedPoint];
         style := strokeStyle (ts_line (toolSettings (doc c)));
         layerId := currentLayerId (doc c);
         text := None; fontSize := None; measurements := None;
         selected := None |} in
    Some (setIsDrawing true (setCurrentElement (Some newElement) c)).

Definition handleMouseMove (c : Canvas) (point : Point) : option Canvas :=
  match isDrawing c, currentElement c with
  | true, Some currentElement =>
      let clippedPoint := clipToPageBounds (doc c) point in
      match nth_error (points currentElement) 0 with
      | Some p0 =>
          let updatedElement :=
            with_points_measurements currentElement [p0; clippedPoint]
              {| length :=
                   Some (sqrt (Math_pow2 (x clippedPoint - x p0)
                               + Math_pow2 (y clippedPoint - y p0)));
                 radius := None; angle := None |} in
          Some (setCurrentElement (Some updatedElement) c)
      | None => None
      end
  | _, _ => Some c
  end.

Definition handleMouseUp (c : Canvas) : option Canvas :=
  match isDrawing c, currentElement c with
  | true, Some currentElement =>
      match dispatch c (ADD_ELEMENT currentElement) with
      | Some c' => Some (setIsDrawing false (setCurrentElement None c'))
      | None => None
      end
  | _, _ => Some c
  end.

End LineTool.

Module FreehandTool.

Definition handleMouseDown (c : Canvas) (point : Point) (now : string)
  : option Canvas :=
  if noPage (getPageAtPoint (doc c) point) then Some c
  else
    let clippedPoint := clipToPageBounds (doc c) point in
    let newElement :=
      {| id := "freehand-" ++ now; type := type_freehand;
         points := [clippedPoint];
         style := strokeStyle (ts_freehand (toolSettings (doc c)));
         layerId := currentLayerId (doc c);
         text := None; fontSize := None; measurements := None;
         selected := None |} in
    Some (setIsDrawing true (setCurrentElement (Some newElement) c)).

Definition handleMouseMove (c : Canvas) (point : Point) : option Canvas :=
  match isDrawing c, currentElement c with
  | true, Some currentElement =>
      let clippedPoint := clipToPageBounds (doc c) point in
      match nth_error (points currentElement)
              (List.length (points currentElement) - 1) with
      | Some lastPoint =>
          let distance :=
            sqrt (Math_pow2 (x clippedPoint - x lastPoint)
                  + Math_pow2 (y clippedPoint - y lastPoint)) in
          if Rltb 2 distance then
            let updatedElement :=
              with_points currentElement
                (points currentElement ++ [clippedPoint]) in
            Some (setCurrentElement (Some updatedElement) c)
          else Some c
      | None => None
      end
  | _, _ => Some c
  end.

Definition handleMouseUp (c : Canvas) : option Canvas :=
  match isDrawing c, currentElement c with
  | true, Some currentElement =>
      if (1 <? List.length (points currentElement))%nat then
        match dispatch c (ADD_ELEMENT currentElement) with
        | Some c' => Some (setIsDrawing false (setCurrentElement None c'))
        | None => None
        end
      else Some c
  | _, _ => Some c
  end.

End FreehandTool.

(** [Math.atan2 y x] on reals: the angle in [(-PI, PI]] of the vector
    [(x, y)], [0] for the null vector. *)
Definition Math_atan2 (y0 x0 : R) : R :=
  if Rltb 0 x0 then atan (y0 / x0)
  else if Rltb x0 0 then
    if Rleb 0 y0 then atan (y0 / x0) + PI else atan (y0 / x0) - PI
  else if Rltb 0 y0 then PI / 2
  else if Rltb y0 0 then - (PI / 2)
  else 0.

(** The sweep from the baseline to the end point around [center], as both
    handlers of the angle tool compute it. *)
Definition sweep (baseline center endpoint : Point) : R :=
  let baselineAngle :=
    Math_atan2 (y baseline - y center) (x baseline - x center) in
  let endpointAngle :=
    Math_atan2 (y endpoint - y center) (x endpoint - x center) in
  let angleDiff := endpointAngle - baselineAngle in
  if Rltb angleDiff 0 then angleDiff + 2 * PI else angleDiff.

(** The baseline point, the vertex and the end point form a straight angle:
    the vertex lies strictly between the two others on a line. *)
Definition straight (baseline center endpoint : Point) : Prop :=
  (x endpoint <> x center \/ y endpoint <> y center) /\
  exists t, 0 < t /\
    x baseline - x center = - t * (x endpoint - x center) /\
    y baseline - y center = - t * (y endpoint - y center).

Module AngleTool.

Definition handleMouseDown (c : Canvas) (point : Point) (now : string)
  : option Canvas :=
  if noPage (getPageAtPoint (doc c) point) then Some c
  else
    let clippedPoint := clipToPageBounds (doc c) point in
    if (clickCount c =? 0)%nat then
      let newElement :=
        {| id := "angle-" ++ now; type := type_angle;
           points := [clippedPoint];
           style := strokeStyle (ts_angle (toolSettings (doc c)));
           layerId := currentLayerId (doc c);
           text := None; fontSize := None; measurements := None;
           selected := None |} in
      Some (setClickCount 1 (setCurrentElement (Some newElement) c))
    else if (clickCount c =? 1)%nat then
      match currentElement c with
      | Some currentElement =>
          let updatedElement :=
            with_points currentElement
              (points currentElement ++ [clippedPoint]) in
          Some (setIsDrawing true
                 (setClickCount 2 (setCurrentElement (Some updatedElement) c)))
      | None => Some c
      end
    else if (clickCount c =? 2)%nat then
      match currentElement c with
      | Some currentElement =>
          match nth_error (points currentElement) 0,
                nth_error (points currentElement) 1 with
          | Some baseline, Some center =>
              let angleDiff := sweep baseline center point in
              let finalElement :=
                with_points_measurements currentElement
                  (points currentElement ++ [clippedPoint])
                  {| length := None; radius := None; angle := Some angleDiff |} in
              match dispatch c (ADD_ELEMENT finalElement) with
              | Some c' =>
                  Some (setClickCount 0
                         (setIsDrawing false (setCurrentElement None c')))
              | None => None
              end
          | _, _ => None
          end
      | None => Some c
      end
    else Some c.

Definition handleMouseMove (c : Canvas) (point : Point) : option Canvas :=
  match currentElement c with
  | None => Some c
  | Some currentElement =>
      let clippedPoint := clipToPageBounds (doc c) point in
      if (clickCount c =? 1)%nat then
        match nth_error (points currentElement) 0 with
        | Some p0 =>
            Some (setCurrentElement
                    (Some (with_points currentElement [p0; clippedPoint])) c)
        | None => None
        end
      else if (clickCount c =? 2)%nat && isDrawing c then
        match nth_error (points currentElement) 0,
              nth_error (points currentElement) 1 with
        | Some baseline, Some center =>
            let angleDiff := sweep baseline center clippedPoint in
            let updatedElement :=
              with_points_measurements currentElement
                [baseline; center; clippedPoint]
                {| length := None; radius := None; angle := Some angleDiff |} in
            Some (setCurrentElement (Some updatedElement) c)
        | _, _ => None
        end
      else Some c
  end.

End AngleTool.

Definition Reqb (a b : R) : bool := if Req_dec_T a b then true else false.

Module EraserTool.

Definition isPointNearLine (point lineStart lineEnd : Point) (threshold : R)
  : bool :=
  let A := x point - x lineStart in
  let B := y point - y lineStart in
  let C := x lineEnd - x lineStart in
  let D := y lineEnd - y lineStart in
  let dot := A * C + B * D in
  let lenSq := C * C + D * D in
  if Reqb lenSq 0 then Rleb (sqrt (A * A + B * B)) threshold
  else
    let param := dot / lenSq in
    let (xx, yy) :=
      if Rltb param 0 then (x lineStart, y lineStart)
      else if Rltb 1 param then (x lineEnd, y lineEnd)
      else (x lineStart + param * C, y lineStart + param * D) in
    let dx := x point - xx in
    let dy := y point - yy in
    Rleb (sqrt (dx * dx + dy * dy)) threshold.

(** The freehand loop over consecutive points, left at the first hit. *)
Fixpoint nearPolyline (point : Point) (pts : list Point) (threshold : R)
  : bool :=
  match pts with
  | a :: (b :: _) as rest =>
      isPointNearLine point a b threshold || nearPolyline point rest threshold
  | _ => false
  end.

Definition shouldErase (eraserSize : R) (point : Point) (element : DrawingElement)
  : bool :=
  match type element with
  | type_line =>
      match points element with
      | p0 :: p1 :: _ => isPointNearLine point p0 p1 eraserSize
      | _ => false
      end
  | type_angle =>
      match points element with
      | baseline :: center :: endpoint :: _ =>
          isPointNearLine point baseline center eraserSize
          || isPointNearLine point center endpoint eraserSize
      | _ => false
      end
  | type_freehand => nearPolyline point (points element) eraserSize
  | type_text =>
      match points element, text element with
      | textPoint :: _, Some txt =>
          if String.eqb txt "" then false
          else
            let fontSize :=
              match fontSize element with
              | Some f => if Reqb f 0 then 14 else f
              | None => 14
              end in
            let textWidth := INR (String.length txt) * fontSize * (6 / 10) in
            Rleb (x textPoint - eraserSize) (x point)
            && Rleb (x point) (x textPoint + textWidth + eraserSize)
            && Rleb (y textPoint - eraserSize) (y point)
            && Rleb (y point) (y textPoint + fontSize + eraserSize)
      | _, _ => false
      end
  end.

Definition findElementsToErase (state : DrawingState) (point : Point)
  : list string :=
  let eraserSize := ts_eraserWidth (ts_eraser (toolSettings state)) / 2 in
  map id
    (filter
       (fun element =>
          match find (fun l => String.eqb (layer_id l) (layerId element))
                  (layers state) with
          | Some layer =>
              if negb (visible layer) || locked layer then false
              else shouldErase eraserSize point element
          | None => false
          end)
       (elements state)).

Definition eraseAt (c : Canvas) (point : Point) : option Canvas :=
  let elementsToErase := findElementsToErase (doc c) point in
  if (0 <? List.length elementsToErase)%nat
  then dispatch c (DELETE_ELEMENTS elementsToErase)
  else Some c.

Definition handleMouseDown (c : Canvas) (point : Point) : option Canvas :=
  if noPage (getPageAtPoint (doc c) point) then Some c
  else
    match eraseAt c point with
    | Some c' => Some (setIsDrawing true c')
    | None => None
    end.

Definition handleMouseMove (c : Canvas) (point : Point) : option Canvas :=
  if negb (isDrawing c) then Some c
  else if noPage (getPageAtPoint (doc c) point) then Some c
  else eraseAt c point.

Definition handleMouseUp (c : Canvas) : option Canvas :=
  if isDrawing c then
    match dispatch c SAVE_STATE with
    | Some c' => Some (setIsDrawing false c')
    | None => None
    end
  else Some (setIsDrawing false c).

(** A whole gesture: pointer-down, the pointer-moves, pointer-up. *)
Fixpoint moves (c : Canvas) (pts : list Point) : option Canvas :=
  match pts with
  | [] => Some c
  | p :: rest =>
      match handleMouseMove c p with
      | Some c' => moves c' rest
      | None => None
      end
  end.

Definition gesture (c : Canvas) (down : Point) (path : list Point)
  : option Canvas :=
  match handleMouseDown c down with
  | Some c1 =>
      match moves c1 path with
      | Some c2 => handleMouseUp c2
      | None => None
      end
  | None => None
  end.

End EraserTool.

(** ** Serialization ([utils/serialization.ts])

    The serialized document carries numbers without computing with them.
    Here a [number] is the binary64 value it is at run time, [NaN], the
    infinities and the negative zero included. *)

Open Scope string_scope.
Open Scope list_scope.

(** The values [JSON.parse] produces, and the objects and arrays of such
    values that the program holds.  A [JObject] lists the own properties of
    the object in the order of their enumeration, each name once; a
    property whose value is [undefined] is absent, as [JSON.stringify]
    leaves it out. *)
#[warnings="-register-all"]
Inductive JSValue :=
  | JNull
  | JBool (b : bool)
  | JNumber (n : float)
  | JString (s : string)
  | JArray (items : list JSValue)
  | JObject (props : list (string * JSValue)).

(** The JSON codec of the runtime: [JSON.stringify] and [JSON.parse], the
    latter [None] when it throws a SyntaxError. *)
Record JSON (text : Type) := {
  stringify : JSValue -> text;
  parse : text -> option JSValue }.
Arguments stringify {text} _ _.
Arguments parse {text} _ _.

(** A number that a JSON text can denote and that reads back as itself:
    [JSON.stringify] writes [NaN] and the infinities as [null], and the
    negative zero as [0]. *)
Definition json_number (n : float) : bool :=
  PrimFloat.is_finite n && negb (PrimFloat.is_zero n && PrimFloat.get_sign n).

(** The value a text written by [JSON.stringify] denotes. *)
Fixpoint jsonify (v : JSValue) : JSValue :=
  match v with
  | JNumber n =>
      if json_number n then JNumber n
      else if PrimFloat.is_finite n then JNumber PrimFloat.zero
      else JNull
  | JArray items => JArray (map jsonify items)
  | JObject props => JObject (map (fun kv => (fst kv, jsonify (snd kv))) props)
  | JNull | JBool _ | JString _ => v
  end.

(** Every number in the value is one a JSON text can denote. *)
Fixpoint json_value (v : JSValue) : bool :=
  match v with
  | JNumber n => json_number n
  | JArray items => forallb json_value items
  | JObject props => forallb (fun kv => json_value (snd kv)) props
  | JNull | JBool _ | JString _ => true
  end.

Fixpoint lookup (key : string) (props : list (string * JSValue))
  : option JSValue :=
  match props with
  | [] => None
  | (k, v) :: rest => if String.eqb k key then Some v else lookup key rest
  end.

(** [v.key] for a non-null [v]; [None] is [undefined].  Of the property
    names the validator reads none is inherited from a prototype. *)
Definition get (v : JSValue) (key : string) : option JSValue :=
  match v with
  | JObject props => lookup key props
  | _ => None
  end.

(** [typeof v === 'object'], [v === null], [typeof v === 'string'],
    [typeof v === 'number'], and [v] taken as a condition. *)
Definition typeof_object (v : JSValue) : bool :=
  match v with JNull | JArray _ | JObject _ => true | _ => false end.
Definition is_null (v : JSValue) : bool :=
  match v with JNull => true | _ => false end.
Definition typeof_string (v : option JSValue) : bool :=
  match v with Some (JString _) => true | _ => false end.
Definition typeof_number (v : option JSValue) : bool :=
  match v with Some (JNumber _) => true | _ => false end.
Definition truthy (v : option JSValue) : bool :=
  match v with
  | None | Some JNull => false
  | Some (JBool b) => b
  | Some (JNumber n) => negb (PrimFloat.is_zero n || PrimFloat.is_nan n)
  | Some (JString s) => negb (String.eqb s "")
  | Some (JArray _) | Some (JObject _) => true
  end.

(** The errors [deserializeDrawing] raises. *)
Inductive Error :=
  | SyntaxError
  | Invalid_root
  | Invalid_element (idx : nat)
  | Missing_id (idx : nat)
  | Invalid_type (idx : nat)
  | Missing_points (idx : nat)
  | Invalid_point (idx pIdx : nat)
  | Invalid_style (idx : nat)
  | Missing_layerId (idx : nat).

Definition show (n : nat) : string := NilZero.string_of_uint (Nat.to_uint n).

(** The text of the error; that of a SyntaxError is the runtime's. *)
Definition message (e : Error) : string :=
  match e with
  | SyntaxError => "Unexpected token in JSON"
  | Invalid_root => "Invalid format: root is not an array"
  | Invalid_element idx => "Invalid element at index " ++ show idx
  | Missing_id idx => "Missing id at index " ++ show idx
  | Invalid_type idx => "Invalid type at index " ++ show idx
  | Missing_points idx => "Missing points at index " ++ show idx
  | Invalid_point idx pIdx =>
      "Invalid point at element " ++ show idx ++ ", point " ++ show pIdx
  | Invalid_style idx => "Invalid style at index " ++ show idx
  | Missing_layerId idx => "Missing layerId at index " ++ show idx
  end.

Inductive result (A : Type) :=
  | Returns (v : A)
  | Throws (e : Error).
Arguments Returns {A} v.
Arguments Throws {A} e.

Definition badPoint (p : JSValue) : bool :=
  negb (typeof_object p) || is_null p
  || negb (typeof_number (get p "x")) || negb (typeof_number (get p "y")).

(** [el.points.forEach((p, pIdx) => ...)]: the first error, if any. *)
Fixpoint checkPoints (idx pIdx : nat) (ps : list JSValue) : option Error :=
  match ps with
  | [] => None
  | p :: rest =>
      if badPoint p then Some (Invalid_point idx pIdx)
      else checkPoints idx (S pIdx) rest
  end.

Definition elementTypes : list string := ["line"; "angle"; "freehand"; "text"].

Definition includesValue (names : list string) (v : option JSValue) : bool :=
  match v with
  | Some (JString s) => includes names s
  | _ => false
  end.

(** The body of [data.forEach((el, idx) => ...)]. *)
Definition checkElement (idx : nat) (el : JSValue) : option Error :=
  if negb (typeof_object el) || is_null el then Some (Invalid_element idx)
  else if negb (typeof_string (get el "id")) then Some (Missing_id idx)
  else if negb (includesValue elementTypes (get el "type"))
  then Some (Invalid_type idx)
  else
    match get el "points" with
    | Some (JArray ps) =>
        match checkPoints idx 0 ps with
        | Some e => Some e
        | None =>
            if negb (truthy (get el "style"))
               || negb (typeof_string
                          (match get el "style" with
                           | Some st => get st "strokeColor"
                           | None => None
                           end))
               || negb (typeof_number
                          (match get el "style" with
                           | Some st => get st "strokeWidth"
                           | None => None
                           end))
            then Some (Invalid_style idx)
            else if negb (typeof_string (get el "layerId"))
            then Some (Missing_layerId idx)
            else None
        end
    | _ => Some (Missing_points idx)
    end.

Fixpoint checkElements (idx : nat) (els : list JSValue) : option Error :=
  match els with
  | [] => None
  | el :: rest =>
      match checkElement idx el with
      | Some e => Some e
      | None => checkElements (S idx) rest
      end
  end.

Section Serialization.

Context {text : Type} (codec : JSON text).

(** [elements] is the array as the program holds it: objects the tools
    have built or a file has brought in. *)
Definition serializeDrawing (elements : list JSValue) : text :=
  stringify codec (JArray elements).

Definition deserializeDrawing (json : text) : result JSValue :=
  match parse codec json with
  | None => Throws SyntaxError
  | Some data =>
      match data with
      | JArray els =>
          match checkElements 0 els with
          | Some e => Throws e
          | None => Returns data
          end
      | _ => Throws Invalid_root
      end
  end.

(** The codec reads the text it wrote of [v] as ECMAScript specifies
    [JSON.parse] of [JSON.stringify]: as [v] itself, but for the numbers
    that no JSON text denotes. *)
Definition reads_back (v : JSValue) : Prop :=
  parse codec (stringify codec v) = Some (jsonify v).

End Serialization.

(** The serialized document format in the words of the specification: the
    root is an array; each entry is an object with a string [id], a [type]
    among line, angle, freehand and text, an array [points] of objects with
    numbers [x] and [y], a [style] object with a string [strokeColor] and a
    number [strokeWidth], and a string [layerId]. *)
Definition schema_object (v : JSValue) : Prop :=
  exists props, v = JObject props.

Definition schema_point (p : JSValue) : Prop :=
  schema_object p /\
  (exists r, get p "x" = Some (JNumber r)) /\
  (exists r, get p "y" = Some (JNumber r)).

Definition schema_element (el : JSValue) : Prop :=
  schema_object el /\
  (exists s, get el "id" = Some (JString s)) /\
  (exists t, In t elementTypes /\ get el "type" = Some (JString t)) /\
  (exists ps, get el "points" = Some (JArray ps) /\ Forall schema_point ps) /\
  (exists st, get el "style" = Some st /\ schema_object st /\
              (exists color, get st "strokeColor" = Some (JString color)) /\
              (exists w, get st "strokeWidth" = Some (JNumber w))) /\
  (exists l, get el "layerId" = Some (JString l)).

Definition schema_document (data : JSValue) : Prop :=
  exists els, data = JArray els /\ Forall schema_element els.

(** The index of the entry an error of [deserializeDrawing] names. *)
Definition error_index (e : Error) : option nat :=
  match e with
  | SyntaxError | Invalid_root => None
  | Invalid_element idx | Missing_id idx | Invalid_type idx
  | Missing_points idx | Invalid_point idx _ | Invalid_style idx
  | Missing_layerId idx => Some idx
  end.

(** What an error says of the entry it names: the part of the format that
    the entry departs from. *)
Definition names_defect (e : Error) (el : JSValue) : Prop :=
  match e with
  | SyntaxError | Invalid_root => False
  | Invalid_element _ => ~ schema_object el
  | Missing_id _ => ~ exists s, get el "id" = Some (JString s)
  | Invalid_type _ =>
      ~ exists t, In t elementTypes /\ get el "type" = Some (JString t)
  | Missing_points _ => ~ exists ps, get el "points" = Some (JArray ps)
  | Invalid_point _ pIdx =>
      exists ps p,
        get el "points" = Some (JArray ps) /\
        nth_error ps pIdx = Some p /\
        ~ schema_point p /\
        Forall schema_point (firstn pIdx ps)
  | Invalid_style _ =>
      ~ exists st, get el "style" = Some st /\ schema_object st /\
                   (exists color, get st "strokeColor" = Some (JString color)) /\
                   (exists w, get st "strokeWidth" = Some (JNumber w))
  | Missing_layerId _ => ~ exists l, get el "layerId" = Some (JString l)
  end.

(** ** Frame of DELETE_LAYER *)

(** Every field but [layers], [currentLayerId] and [elements] agrees. *)
Definition same_but_layers_and_elements (s s' : DrawingState) : Prop :=
  currentTool s' = currentTool s /\
  selectedElementIds s' = selectedElementIds s /\
  gridSize s' = gridSize s /\
  gridVisible s' = gridVisible s /\
  snapToGrid s' = snapToGrid s /\
  units s' = units s /\
  zoom s' = zoom s /\
  panOffset s' = panOffset s /\
  history s' = history s /\
  historyIndex s' = historyIndex s /\
  toolSettings s' = toolSettings s /\
  isDragging s' = isDragging s /\
  dragStart s' = dragStart s /\
  editingElement s' = editingElement s /\
  savedProjects s' = savedProjects s /\
  currentProjectName s' = currentProjectName s /\
  snapThreshold s' = snapThreshold s /\
  currentPage s' = currentPage s /\
  totalPages s' = totalPages s /\
  pageWidth s' = pageWidth s /\
  pageHeight s' = pageHeight s /\
  minZoom s' = minZoom s.

(** ** Sample documents, for the concrete runs *)

(** A line as the line tool commits it. *)
Definition sample_line (name : string) (a b : Point) : DrawingElement :=
  {| id := name; type := type_line; points := [a; b];
     style := {| strokeColor := "#ffffff"; strokeWidth := 2; fillColor := None |};
     layerId := "layer-1"; text := None; fontSize := None;
     measurements := None; selected := None |}.

Definition origin : Point := {| x := 0; y := 0 |}.

(** A second layer under the id of the first, and the dispatches that
    leave the document with these two layers only. *)
Definition layer_1_again : Layer :=
  {| layer_id := "layer-1"; name := "Layer 1 again"; visible := true;
     locked := false; color := "#ffffff" |}.

Definition to_twin_layers : list DrawingAction :=
  [DELETE_LAYER "layer-2"; DELETE_LAYER "layer-3"; ADD_LAYER layer_1_again].

(** A state whose only element sits on the layer about to be deleted. *)
Definition one_line_on_layer_2 : DrawingState :=
  set_elements
    [ {| id := "l"; type := type_line; points := [origin; origin];
         style := {| strokeColor := "#ffffff"; strokeWidth := 2;
                     fillColor := None |};
         layerId := "layer-2"; text := None; fontSize := None;
         measurements := None; selected := None |} ]
    (set_history
       [ []; [ {| id := "l"; type := type_line; points := [origin; origin];
                  style := {| strokeColor := "#ffffff"; strokeWidth := 2;
                              fillColor := None |};
                  layerId := "layer-2"; text := None; fontSize := None;
                  measurements := None; selected := None |} ] ]
       (set_historyIndex 1 initialState)).

(** The canvas at start-up: no draft, nothing in progress. *)
Definition blank : Canvas :=
  {| doc := initialState; isDrawing := false; currentElement := None;
     clickCount := 0 |}.

Definition horizontal_line : DrawingElement :=
  sample_line "line-1" {| x := 100; y := 100 |} {| x := 200; y := 100 |}.

(** The document after the line tool has committed [horizontal_line]. *)
Definition one_line_canvas : Canvas :=
  {| doc :=
       set_elements [horizontal_line]
         (set_history [[]; [horizontal_line]]
            (set_historyIndex 1 initialState));
     isDrawing := false; currentElement := None; clickCount := 0 |}.

Definition angle_draft : DrawingElement :=
  {| id := "angle-1"; type := type_angle;
     points := [ {| x := 100; y := 100 |}; {| x := 200; y := 100 |} ];
     style := strokeStyle (ts_angle (toolSettings initialState));
     layerId := "layer-1"; text := None; fontSize := None;
     measurements := None; selected := None |}.

Definition awaiting_third_click : Canvas :=
  {| doc := initialState; isDrawing := true;
     currentElement := Some angle_draft; clickCount := 2 |}.

(** A codec to run the serialization on: a text is the JSON value it
    denotes, or is malformed. *)
Definition transparent_codec : JSON (option JSValue) :=
  {| stringify := fun v => Some (jsonify v); parse := fun t => t |}.

(** A point and a line as objects of the document format. *)
Definition point_object (px py : float) : JSValue :=
  JObject [("x", JNumber px); ("y", JNumber py)].

Definition line_object (name : string) (a b : JSValue) : JSValue :=
  JObject [("id", JString name); ("type", JString "line");
           ("points", JArray [a; b]);
           ("style", JObject [("strokeColor", JString "#ffffff");
                              ("strokeWidth", JNumber 2)]);
           ("layerId", JString "layer-1")].

Definition stored_line : JSValue :=
  line_object "line-1" (point_object 100 100) (point_object 200 100).

(** A line whose end lies at infinity, as the validator accepts it from a
    file that gives the coordinate as [1e999]. *)
Definition line_to_infinity : JSValue :=
  line_object "line-2" (point_object 100 100)
    (point_object PrimFloat.infinity 100).


(** ** Reachable states *)

Definition is_delete_layer (a : DrawingAction) : bool :=
  match a with
  | DELETE_LAYER _ => true
  | _ => false
  end.

Definition is_undo_redo (a : DrawingAction) : bool :=
  match a with
  | UNDO | REDO => true
  | _ => false
  end.

(** The current page is one of the pages. *)
Definition page_in_range (s : DrawingState) : Prop :=
  (1 <= currentPage s <= totalPages s)%Z.

(** The zoom and its floor stay within the limits the reducer clamps to. *)
Definition zoom_in_range (s : DrawingState) : Prop :=
  1 / 10 <= minZoom s <= 1 /\ 1 / 10 <= zoom s <= 3.

(** No two layers share an id, and the current layer is one of them. *)
Definition layers_well_formed (s : DrawingState) : Prop :=
  NoDup (map layer_id (layers s)) /\
  In (currentLayerId s) (map layer_id (layers s)).

(** A run that touches elements, zoom, pages and history. *)
Definition sample_actions : list DrawingAction :=
  [ ADD_ELEMENT (sample_line "a" origin origin); SET_ZOOM 5; ADD_PAGE;
    DELETE_PAGE 1; UNDO; SET_MIN_ZOOM 0 ].

(** The line of [one_line_canvas] dragged since the last checkpoint. *)
Definition line_moved : PartialElement :=
  {| p_id := None; p_type := None;
     p_points := Some [ {| x := 110; y := 120 |}; {| x := 210; y := 120 |} ];
     p_style := None; p_layerId := None; p_text := None;
     p_fontSize := None; p_measurements := None; p_selected := None |}.

Definition dragged_line_doc : DrawingState :=
  set_elements
    (map (fun el => if String.eqb (id el) "line-1"
                    then spread_element el line_moved else el)
       [horizontal_line])
    (doc one_line_canvas).

(** ** Viewport, continued ([components/DrawingCanvas.tsx], [utils/grid.ts]) *)

(** [canPan]. *)
Definition canPan (container : option DOMRect) (state : DrawingState) : bool :=
  match container with
  | None => false
  | Some rect =>
      Rltb (viewW rect state) (totalWidth state)
      || Rltb (viewH rect state) (totalHeight state)
  end.

(** [computeAndApplyMinZoom]: the state after its dispatches. *)
Definition computeAndApplyMinZoom (container : option DOMRect)
  (state : DrawingState) : option DrawingState :=
  match container with
  | None => Some state
  | Some rect =>
      let widthBasedMin := rect_width rect / totalWidth state in
      let comfortableMin := 6 / 10 in
      let newMinZoom := Math_min 1 (Math_max comfortableMin widthBasedMin) in
      match drawingReducer state (SET_MIN_ZOOM newMinZoom) with
      | Some state1 =>
          if Rltb (zoom state) newMinZoom
          then drawingReducer state1 (SET_ZOOM newMinZoom)
          else Some state1
      | None => None
      end
  end.

(** [snapToGrid] of [utils/grid.ts]: the cell is 1 mm whatever [gridSize]. *)
Definition snapToGrid_point (point : Point) (gridSize : R) : Point :=
  let mmToPx := 3779527559 / 1000000000 in
  let gridSizePx := mmToPx in
  {| x := Math_round (x point / gridSizePx) * gridSizePx;
     y := Math_round (y point / gridSizePx) * gridSizePx |}.

(** What the handlers read of a mouse or wheel event, and the position of
    the canvas element in the window. *)
Record MouseEvent := { clientX : R; clientY : R }.
Record WheelEvent := { deltaY : R; ctrlKey : bool; metaKey : bool }.
Record CanvasRect := { canvas_left : R; canvas_top : R }.

Definition is_freehand (t : Tool) : bool :=
  match t with
  | tool_freehand => true
  | _ => false
  end.

(** The document point under the pointer, before any snapping. *)
Definition rawPoint (rect : CanvasRect) (state : DrawingState) (e : MouseEvent)
  : Point :=
  {| x := (clientX e - canvas_left rect) / zoom state - x (panOffset state);
     y := (clientY e - canvas_top rect) / zoom state - y (panOffset state) |}.

(** [getCanvasPoint]; [canvas] is [canvasRef.current] with its bounding
    rectangle, [None] before the element is mounted. *)
Definition getCanvasPoint (canvas : option CanvasRect) (state : DrawingState)
  (e : MouseEvent) : Point :=
  match canvas with
  | None => {| x := 0; y := 0 |}
  | Some rect =>
      let raw := rawPoint rect state e in
      if snapToGrid state && negb (is_freehand (currentTool state)) then
        if noPage (getPageAtPoint state raw) then raw
        else snapToGrid_point raw (gridSize state)
      else raw
  end.

(** [x !== y] on numbers. *)
Definition differ (a b : R) : bool := negb (Reqb a b).

(** [handleWheel]: the state after its dispatches.  The pan is clamped with
    the zoom of the render the handler belongs to. *)
Definition handleWheel (container : option DOMRect) (state : DrawingState)
  (e : WheelEvent) : option DrawingState :=
  if ctrlKey e || metaKey e then
    let zoomFactor := if Rltb 0 (deltaY e) then 9 / 10 else 11 / 10 in
    let newZoom := zoom state * zoomFactor in
    match drawingReducer state (SET_ZOOM newZoom) with
    | Some state1 =>
        let clamped := clampPan container state (panOffset state) in
        if differ (x clamped) (x (panOffset state))
           || differ (y clamped) (y (panOffset state))
        then drawingReducer state1 (SET_PAN clamped)
        else Some state1
    | None => None
    end
  else if negb (canPan container state) then Some state
  else
    let deltaY := deltaY e / zoom state in
    let nextPan :=
      {| x := x (panOffset state); y := y (panOffset state) - deltaY |} in
    let clamped := clampPan container state nextPan in
    drawingReducer state (SET_PAN clamped).

(** The grid cell, 1 mm in pixels. *)
Definition cell : R := 3779527559 / 1000000000.

(** The canvas element at the top left corner of the window, and a pointer
    half a pixel inside the left edge of the first page. *)
Definition canvas_at_origin : CanvasRect := {| canvas_left := 0; canvas_top := 0 |}.

Definition near_left_edge : MouseEvent := {| clientX := 101 / 2; clientY := 100 |}.

Definition plain_wheel : WheelEvent :=
  {| deltaY := 100; ctrlKey := false; metaKey := false |}.

Definition full_hd : DOMRect := {| rect_width := 1920; rect_height := 1080 |}.

(** ** Gestures

    A gesture is a pointer-down, the pointer-moves that follow and the
    pointer-up, each handled by the tool's handler in turn. *)

Fixpoint line_moves (c : Canvas) (path : list Point) : option Canvas :=
  match path with
  | [] => Some c
  | p :: rest =>
      match LineTool.handleMouseMove c p with
      | Some c' => line_moves c' rest
      | None => None
      end
  end.

Definition line_gesture (c : Canvas) (down : Point) (path : list Point)
  (now : string) : option Canvas :=
  match LineTool.handleMouseDown c down now with
  | Some c1 =>
      match line_moves c1 path with
      | Some c2 => LineTool.handleMouseUp c2
      | None => None
      end
  | None => None
  end.

Fixpoint freehand_moves (c : Canvas) (path : list Point) : option Canvas :=
  match path with
  | [] => Some c
  | p :: rest =>
      match FreehandTool.handleMouseMove c p with
      | Some c' => freehand_moves c' rest
      | None => None
      end
  end.

Definition freehand_gesture (c : Canvas) (down : Point) (path : list Point)
  (now : string) : option Canvas :=
  match FreehandTool.handleMouseDown c down now with
  | Some c1 =>
      match freehand_moves c1 path with
      | Some c2 => FreehandTool.handleMouseUp c2
      | None => None
      end
  | None => None
  end.

(** The distance the freehand tool measures between two samples. *)
Definition distance (a b : Point) : R :=
  sqrt (Math_pow2 (x b - x a) + Math_pow2 (y b - y a)).

(** Consecutive points are more than two pixels apart. *)
Fixpoint spaced (pts : list Point) : Prop :=
  match pts with
  | a :: (b :: _) as rest => 2 < distance a b /\ spaced rest
  | _ => True
  end.

(** The events the angle tool listens to. *)
Inductive PointerEvent :=
  | Click (point : Point) (now : string)
  | Move (point : Point).

Definition angle_event (c : Canvas) (e : PointerEvent) : option Canvas :=
  match e with
  | Click point now => AngleTool.handleMouseDown c point now
  | Move point => AngleTool.handleMouseMove c point
  end.

Fixpoint angle_events (c : Canvas) (es : list PointerEvent) : option Canvas :=
  match es with
  | [] => Some c
  | e :: rest =>
      match angle_event c e with
      | Some c' => angle_events c' rest
      | None => None
      end
  end.

(** The eraser passes an element by: its layer is missing, hidden or
    locked. *)
Definition protected (s : DrawingState) (el : DrawingElement) : Prop :=
  match find (fun l => String.eqb (layer_id l) (layerId el)) (layers s) with
  | Some layer => visible layer = false \/ locked layer = true
  | None => True
  end.

(** What a run of the eraser may have done to the canvas it started on:
    it has dropped elements, and none of a protected layer if the ids are
    distinct. *)
Definition spared (c0 c : Canvas) : Prop :=
  layers (doc c) = layers (doc c0) /\
  (exists keep, elements (doc c) = filter keep (elements (doc c0))) /\
  (NoDup (map id (elements (doc c0))) ->
   forall el, In el (elements (doc c0)) -> protected (doc c0) el ->
              In el (elements (doc c))).

(** ** Selection tool ([components/tools/SelectTool.tsx])

    The tool keeps two values of its own, [dragStart] and [isDragging],
    beside the document.  A handler sees the document and these values as
    they are when the event arrives. *)

(** [{ points: newPoints }] *)
Definition points_only (ps : list Point) : PartialElement :=
  {| p_id := None; p_type := None; p_points := Some ps; p_style := None;
     p_layerId := None; p_text := None; p_fontSize := None;
     p_measurements := None; p_selected := None |}.

(** [p => ({ x: p.x + deltaX, y: p.y + deltaY })] *)
Definition translate (deltaX deltaY : R) (p : Point) : Point :=
  {| x := x p + deltaX; y := y p + deltaY |}.

Module SelectTool.

Record State := {
  doc : DrawingState;
  dragStart : option Point;
  isDragging : bool }.

Definition isPointNearLine (point lineStart lineEnd : Point) (threshold : R)
  : bool :=
  let A := x point - x lineStart in
  let B := y point - y lineStart in
  let C := x lineEnd - x lineStart in
  let D := y lineEnd - y lineStart in
  let dot := A * C + B * D in
  let lenSq := C * C + D * D in
  if Reqb lenSq 0 then Rleb (sqrt (A * A + B * B)) threshold
  else
    let param := dot / lenSq in
    let (xx, yy) :=
      if Rltb param 0 then (x lineStart, y lineStart)
      else if Rltb 1 param then (x lineEnd, y lineEnd)
      else (x lineStart + param * C, y lineStart + param * D) in
    let dx := x point - xx in
    let dy := y point - yy in
    Rleb (sqrt (dx * dx + dy * dy)) threshold.

(** The freehand loop over consecutive points, left at the first hit. *)
Fixpoint nearPolyline (point : Point) (pts : list Point) (threshold : R)
  : bool :=
  match pts with
  | a :: (b :: _) as rest =>
      isPointNearLine point a b threshold || nearPolyline point rest threshold
  | _ => false
  end.

(** The body of the loop of [findElementAtPoint]: [true] where it returns
    the element, [false] where it goes on to the next one. *)
Definition hit (state : DrawingState) (point : Point)
  (element : DrawingElement) : bool :=
  match find (fun l => String.eqb (layer_id l) (layerId element))
          (layers state) with
  | Some layer =>
      if negb (visible layer) || locked layer then false
      else
        match type element with
        | type_line =>
            match points element with
            | p0 :: p1 :: _ =>
                isPointNearLine point p0 p1 (snapThreshold state)
            | _ => false
            end
        | type_angle =>
            match points element with
            | baseline :: center :: endpoint :: _ =>
                isPointNearLine point baseline center (snapThreshold state)
                || isPointNearLine point center endpoint (snapThreshold state)
            | _ => false
            end
        | type_freehand =>
            nearPolyline point (points element) (snapThreshold state)
        | type_text =>
            match points element, text element with
            | textPoint :: _, Some txt =>
                if String.eqb txt "" then false
                else
                  let fontSize :=
                    match fontSize element with
                    | Some f => if Reqb f 0 then 14 else f
                    | None => 14
                    end in
                  let textWidth :=
                    INR (String.length txt) * fontSize * (6 / 10) in
                  Rleb (x textPoint) (x point)
                  && Rleb (x point) (x textPoint + textWidth)
                  && Rleb (y textPoint) (y point)
                  && Rleb (y point) (y textPoint + fontSize)
            | _, _ => false
            end
        end
  | None => false
  end.

(** The loop runs from the last element to the first. *)
Definition findElementAtPoint (state : DrawingState) (point : Point)
  : option DrawingElement :=
  find (hit state point) (rev (elements state)).

Definition handleMouseDown (t : State) (shiftKey : bool) (point : Point)
  : option State :=
  if shiftKey then Some t
  else
    match findElementAtPoint (doc t) point with
    | Some clickedElement =>
        match drawingReducer (doc t) (SELECT_ELEMENTS [id clickedElement]) with
        | Some s =>
            Some {| doc := s; dragStart := Some point; isDragging := true |}
        | None => None
        end
    | None =>
        match drawingReducer (doc t) (SELECT_ELEMENTS []) with
        | Some s =>
            Some {| doc := s; dragStart := dragStart t;
                    isDragging := isDragging t |}
        | None => None
        end
    end.

(** The [forEach] of [handleMouseMove]: the elements are looked up in the
    document the handler started with, the dispatches follow one another. *)
Definition moveSelected (state : DrawingState) (deltaX deltaY : R)
  : option DrawingState :=
  fold_left
    (fun acc id0 =>
       match acc with
       | Some s =>
           match find (fun el => String.eqb (id el) id0) (elements state) with
           | Some element =>
               let newPoints := map (translate deltaX deltaY) (points element) in
               drawingReducer s (UPDATE_ELEMENT id0 (points_only newPoints))
           | None => Some s
           end
       | None => None
       end)
    (selectedElementIds state) (Some state).

Definition handleMouseMove (t : State) (currentPoint : Point) : option State :=
  match dragStart t with
  | Some start =>
      if negb (isDragging t)
         || (List.length (selectedElementIds (doc t)) =? 0)%nat
      then Some t
      else
        let deltaX := x currentPoint - x start in
        let deltaY := y currentPoint - y start in
        match moveSelected (doc t) deltaX deltaY with
        | Some s =>
            Some {| doc := s; dragStart := Some currentPoint;
                    isDragging := isDragging t |}
        | None => None
        end
  | None => Some t
  end.

Definition handleMouseUp (t : State) : option State :=
  if isDragging t && (0 <? List.length (selectedElementIds (doc t)))%nat then
    match drawingReducer (doc t) SAVE_STATE with
    | Some s => Some {| doc := s; dragStart := None; isDragging := false |}
    | None => None
    end
  else Some {| doc := doc t; dragStart := None; isDragging := false |}.

Definition handleKeyDown (t : State) (key : string) : option State :=
  if String.eqb key "Delete" || String.eqb key "Backspace" then
    if (0 <? List.length (selectedElementIds (doc t)))%nat then
      match drawingReducer (doc t)
              (DELETE_ELEMENTS (selectedElementIds (doc t))) with
      | Some s =>
          Some {| doc := s; dragStart := dragStart t;
                  isDragging := isDragging t |}
      | None => None
      end
    else Some t
  else Some t.

Fixpoint moves (t : State) (path : list Point) : option State :=
  match path with
  | [] => Some t
  | p :: rest =>
      match handleMouseMove t p with
      | Some t' => moves t' rest
      | None => None
      end
  end.

(** A drag: pointer-down without the shift key, the pointer-moves,
    pointer-up. *)
Definition gesture (t : State) (down : Point) (path : list Point)
  : option State :=
  match handleMouseDown t false down with
  | Some t1 =>
      match moves t1 path with
      | Some t2 => handleMouseUp t2
      | None => None
      end
  | None => None
  end.

End SelectTool.

(** The elements after the one with the id of [el] has been moved. *)
Definition dragged (el : DrawingElement) (deltaX deltaY : R)
  (els : list DrawingElement) : list DrawingElement :=
  map (fun e => if String.eqb (id e) (id el)
                then with_points e (map (translate deltaX deltaY) (points e))
                else e) els.

(** The point of the segment from [a] to [b] at the fraction [t]. *)
Definition along (a b : Point) (t : R) : Point :=
  {| x := x a + t * (x b - x a); y := y a + t * (y b - y a) |}.

(** The selection tool at rest on the document of [one_line_canvas]. *)
Definition one_line_selection : SelectTool.State :=
  {| SelectTool.doc := doc one_line_canvas; SelectTool.dragStart := None;
     SelectTool.isDragging := false |}.

(** ** Text tool ([components/tools/TextTool.tsx])

    The tool keeps the text typed so far, the screen position of the input
    box, whether the box is shown, and the bounding rectangle of the canvas
    as it was read when the tool was mounted or the window resized. *)

Module TextTool.

Record State := {
  doc : DrawingState;
  textInput : string;
  inputPosition : option Point;
  showInput : bool;
  canvasRect : option CanvasRect }.

(** [handleMouseDown]; [rect] is the bounding rectangle of the canvas at
    the time of the event. *)
Definition handleMouseDown (t : State) (point : Point) (rect : CanvasRect)
  : State :=
  if noPage (getPageAtPoint (doc t) point) then t
  else
    let clippedPoint := clipToPageBounds (doc t) point in
    let screenX :=
      canvas_left rect
      + (x clippedPoint + x (panOffset (doc t))) * zoom (doc t) in
    let screenY :=
      canvas_top rect
      + (y clippedPoint + y (panOffset (doc t))) * zoom (doc t) in
    {| doc := doc t; textInput := "";
       inputPosition := Some {| x := screenX; y := screenY |};
       showInput := true; canvasRect := canvasRect t |}.


(** The three setters that close the input box. *)
Definition close (s : DrawingState) (t : State) : State :=
  {| doc := s; textInput := ""; inputPosition := None; showInput := false;
     canvasRect := canvasRect t |}.

Section Trim.

(** [String.prototype.trim]. *)
Variable trim : string -> string.

Definition handleTextSubmit (t : State) (now : string) : option State :=
  match inputPosition t, canvasRect t with
  | Some position, Some rect =>
      if String.eqb (trim (textInput t)) "" then Some (close (doc t) t)
      else
        let canvasX :=
          (x position - canvas_left rect) / zoom (doc t)
          - x (panOffset (doc t)) in
        let canvasY :=
          (y position - canvas_top rect) / zoom (doc t)
          - y (panOffset (doc t)) in
        let newElement :=
          {| id := "text-" ++ now; type := type_text;
             points := [ {| x := canvasX; y := canvasY |} ];
             style :=
               {| strokeColor := ts_textColor (ts_text (toolSettings (doc t)));
                  strokeWidth := 1; fillColor := None |};
             layerId := currentLayerId (doc t);
             text := Some (trim (textInput t));
             fontSize := Some (ts_fontSize (ts_text (toolSettings (doc t))));
             measurements := None; selected := None |} in
        match drawingReducer (doc t) (ADD_ELEMENT newElement) with
        | Some s => Some (close s t)
        | None => None
        end
  | _, _ => Some (close (doc t) t)
  end.

Definition handleKeyDown (t : State) (key : string) (now : string)
  : option State :=
  if String.eqb key "Enter" then handleTextSubmit t now
  else if String.eqb key "Escape" then Some (close (doc t) t)
  else Some t.

End Trim.

End TextTool.


(** ** Loading a drawing ([components/NavFileControls.tsx],
    [components/ImportExportControls.tsx])

    [handleFileChange] after the file has been read and
    [deserializeDrawing] has returned: the elements are put on layers that
    exist and replace the current ones. *)

(** [{ ...el, layerId: l }] *)
Definition with_layerId (el : DrawingElement) (l : string) : DrawingElement :=
  {| id := id el; type := type el; points := points el; style := style el;
     layerId := l; text := text el; fontSize := fontSize el;
     measurements := measurements el; selected := selected el |}.

Definition normalized (state : DrawingState) (parsed : list DrawingElement)
  : list DrawingElement :=
  let validLayerIds := map layer_id (layers state) in
  let fallback := currentLayerId state in
  map (fun el =>
         with_layerId el
           (if includes validLayerIds (layerId el) then layerId el
            else fallback))
    parsed.

Definition loadParsed (state : DrawingState) (parsed : list DrawingElement)
  : option DrawingState :=
  drawingReducer state (REPLACE_ELEMENTS (normalized state parsed)).

(** An element lies on one of the layers of the document. *)
Definition on_a_layer (state : DrawingState) (el : DrawingElement) : Prop :=
  In (layerId el) (map layer_id (layers state)).

(** ** Layer panel ([components/LayerPanel.tsx])

    The panel keeps the name typed for the next layer beside the
    document. *)

(** [{ visible: v }] and [{ locked: v }] *)
Definition visible_only (v : bool) : PartialLayer :=
  {| p_layer_id := None; p_name := None; p_visible := Some v;
     p_locked := None; p_color := None |}.

Definition locked_only (v : bool) : PartialLayer :=
  {| p_layer_id := None; p_name := None; p_visible := None;
     p_locked := Some v; p_color := None |}.

Module LayerPanel.

Record State := { doc : DrawingState; newLayerName : string }.

Definition dispatch (t : State) (a : DrawingAction) : option State :=
  match drawingReducer (doc t) a with
  | Some s => Some {| doc := s; newLayerName := newLayerName t |}
  | None => None
  end.

(** [setNewLayerName] *)
Definition setNewLayerName (value : string) (t : State) : State :=
  {| doc := doc t; newLayerName := value |}.

Definition findLayer (t : State) (layerId : string) : option Layer :=
  find (fun l => String.eqb (layer_id l) layerId) (layers (doc t)).

Section Trim.

(** [String.prototype.trim]. *)
Variable trim : string -> string.

Definition handleAddLayer (t : State) (now : string) : option State :=
  if String.eqb (trim (newLayerName t)) "" then Some t
  else
    let newLayer :=
      {| layer_id := "layer-" ++ now; name := trim (newLayerName t);
         visible := true; locked := false; color := "#ffffff" |} in
    match dispatch t (ADD_LAYER newLayer) with
    | Some t' => Some (setNewLayerName "" t')
    | None => None
    end.

End Trim.

Definition handleDeleteLayer (t : State) (layerId : string) : option State :=
  if (List.length (layers (doc t)) <=? 1)%nat then Some t
  else dispatch t (DELETE_LAYER layerId).

Definition toggleLayerVisibility (t : State) (layerId : string)
  : option State :=
  match findLayer t layerId with
  | Some layer =>
      dispatch t (UPDATE_LAYER layerId (visible_only (negb (visible layer))))
  | None => Some t
  end.

Definition toggleLayerLock (t : State) (layerId : string) : option State :=
  match findLayer t layerId with
  | Some layer =>
      dispatch t (UPDATE_LAYER layerId (locked_only (negb (locked layer))))
  | None => Some t
  end.

Definition setCurrentLayer (t : State) (layerId : string) : option State :=
  match findLayer t layerId with
  | Some layer =>
      if negb (locked layer) then dispatch t (SET_CURRENT_LAYER layerId)
      else Some t
  | None => Some t
  end.

(** What the user can do in the panel. *)
Inductive Command :=
  | TypeName (value : string)
  | AddLayer (now : string)
  | DeleteLayer (layerId : string)
  | ToggleVisibility (layerId : string)
  | ToggleLock (layerId : string)
  | SetCurrent (layerId : string).

Definition step (trim : string -> string) (t : State) (c : Command)
  : option State :=
  match c with
  | TypeName value => Some (setNewLayerName value t)
  | AddLayer now => handleAddLayer trim t now
  | DeleteLayer layerId => handleDeleteLayer t layerId
  | ToggleVisibility layerId => toggleLayerVisibility t layerId
  | ToggleLock layerId => toggleLayerLock t layerId
  | SetCurrent layerId => setCurrentLayer t layerId
  end.

(** The id a command would give a new layer is not in use. *)
Definition fresh (t : State) (c : Command) : Prop :=
  match c with
  | AddLayer now =>
      ~ In ("layer-" ++ now)%string (map layer_id (layers (doc t)))
  | _ => True
  end.

End LayerPanel.

(** The panel on the start-up document, a name typed for a new layer. *)
Definition layer_panel_with_name : LayerPanel.State :=
  {| LayerPanel.doc := initialState; LayerPanel.newLayerName := "Walls" |}.

(** ** Linear history *)

Section History.

Lemma initial_cursor :
  cursor_in_range initialState /\ cursor_is_current initialState.
Proof. split; [ cbv; lia | reflexivity ]. Qed.

Lemma length_truncated {A} (h : list (list A)) (i : nat) (snap : list A) :
  (i < List.length h)%nat ->
  List.length (slice0 (i + 1) h ++ [snap]) = (i + 2)%nat.
Proof.
  intros Hi. unfold slice0.
  rewrite length_app, length_firstn. simpl. lia.
Qed.

Lemma last_truncated {A} (h : list (list A)) (i : nat) (snap : list A) :
  (i < List.length h)%nat ->
  nth_error (slice0 (i + 1) h ++ [snap]) (i + 1) = Some snap.
Proof.
  intros Hi. unfold slice0.
  rewrite nth_error_app2; rewrite length_firstn.
  - replace (i + 1 - Nat.min (i + 1) (List.length h))%nat with 0%nat by lia.
    reflexivity.
  - lia.
Qed.

Lemma kept_truncated {A} (h : list (list A)) (i j : nat) (snap : list A) :
  (j <= i)%nat -> (i < List.length h)%nat ->
  nth_error (slice0 (i + 1) h ++ [snap]) j = nth_error h j.
Proof.
  intros Hj Hi. unfold slice0.
  rewrite nth_error_app1 by (rewrite length_firstn; lia).
  rewrite nth_error_firstn.
  destruct (Nat.ltb_spec j (i + 1)); [ reflexivity | lia ].
Qed.

(** A history-significant action cuts the history after the cursor, appends
    the new element list and moves the cursor onto it. *)
Lemma significant_step (s : DrawingState) (a : DrawingAction) :
  history_significant a = true ->
  cursor_in_range s ->
  exists s',
    drawingReducer s a = Some s' /\
    historyIndex s' = (historyIndex s + 1)%nat /\
    List.length (history s') = (historyIndex s + 2)%nat /\
    cursor_is_current s' /\
    (forall j, (j <= historyIndex s)%nat ->
               nth_error (history s') j = nth_error (history s) j).
Proof.
  unfold cursor_in_range, cursor_is_current.
  intros Hsig Hin.
  destruct a; simpl in Hsig; try discriminate; simpl;
    (eexists; split; [ reflexivity | ]; simpl;
     repeat split;
     [ apply length_truncated; assumption
     | apply last_truncated; assumption
     | intros j Hj; apply kept_truncated; assumption ]).
Qed.

Lemma run_app (s : DrawingState) (l1 l2 : list DrawingAction) :
  run s (l1 ++ l2) =
  match run s l1 with Some s' => run s' l2 | None => None end.
Proof.
  revert s. induction l1 as [| a l1 IH]; intros s; simpl.
  - reflexivity.
  - destruct (drawingReducer s a); [ apply IH | reflexivity ].
Qed.

(** After [n] history-significant actions from a state whose cursor is on
    the last snapshot, the history has grown by [n] and the cursor is again
    on the last snapshot. *)
Lemma run_significant (acts : list DrawingAction) :
  forall s,
    forallb history_significant acts = true ->
    S (historyIndex s) = List.length (history s) ->
    cursor_is_current s ->
    exists s',
      run s acts = Some s' /\
      historyIndex s' = (historyIndex s + List.length acts)%nat /\
      S (historyIndex s') = List.length (history s') /\
      cursor_is_current s'.
Proof.
  induction acts as [| a acts IH]; intros s Hsig Htop Hcur.
  - exists s. simpl. repeat split; auto.
  - simpl in Hsig. apply andb_prop in Hsig. destruct Hsig as [Ha Hacts].
    destruct (significant_step s a Ha) as (s1 & Hstep & Hidx & Hlen & Hcur1 & _).
    { unfold cursor_in_range. lia. }
    destruct (IH s1 Hacts) as (s' & Hrun & Hidx' & Htop' & Hcur').
    { lia. } { assumption. }
    exists s'. simpl. rewrite Hstep. repeat split; auto. simpl. lia.
Qed.

(** [k] UNDOs walk the cursor [k] snapshots back and show the snapshot
    reached; the history itself is not touched. *)
Lemma run_undo (k : nat) :
  forall s,
    cursor_in_range s -> cursor_is_current s ->
    (k <= historyIndex s)%nat ->
    exists s',
      run s (repeat UNDO k) = Some s' /\
      history s' = history s /\
      historyIndex s' = (historyIndex s - k)%nat /\
      cursor_is_current s'.
Proof.
  unfold cursor_in_range, cursor_is_current.
  induction k as [| k IH]; intros s Hin Hcur Hk.
  - exists s. simpl. repeat split; auto. lia.
  - simpl.
    destruct (Nat.ltb_spec 0 (historyIndex s)) as [Hpos | Hzero]; [ | lia ].
    destruct (nth_error (history s) (historyIndex s - 1)) as [snap |] eqn:Hsnap.
    + match goal with
      | |- exists s', run ?s1 _ = _ /\ _ => destruct (IH s1) as (s' & Hrun & Hh & Hi & Hc)
      end; simpl; try assumption; try lia.
      exists s'. simpl in Hh, Hi. repeat split; auto. lia.
    + apply nth_error_None in Hsnap. lia.
Qed.

(** [k] REDOs walk the cursor [k] snapshots forward, as long as there are
    that many ahead. *)
Lemma run_redo (k : nat) :
  forall s,
    (historyIndex s + k < List.length (history s))%nat ->
    exists s',
      run s (repeat REDO k) = Some s' /\
      history s' = history s /\
      historyIndex s' = (historyIndex s + k)%nat /\
      (k = 0%nat \/ cursor_is_current s').
Proof.
  unfold cursor_is_current.
  induction k as [| k IH]; intros s Hk.
  - exists s. simpl. repeat split; auto.
  - simpl.
    destruct (Nat.ltb_spec (historyIndex s) (List.length (history s) - 1))
      as [Hlt | Hge]; [ | lia ].
    destruct (nth_error (history s) (historyIndex s + 1)) as [snap |] eqn:Hsnap.
    + match goal with
      | |- exists s', run ?s1 _ = _ /\ _ => destruct (IH s1) as (s' & Hrun & Hh & Hi & Hc)
      end; simpl; try lia.
      exists s'. simpl in Hh, Hi. repeat split; auto; try lia.
      right. destruct Hc as [-> | Hc]; [ | assumption ].
      simpl in Hrun. injection Hrun as <-. simpl. assumption.
    + apply nth_error_None in Hsnap. lia.
Qed.

End History.

(** C1.  Undo/redo round trip: after any sequence of history-significant
    actions dispatched from the initial state, [k] UNDOs followed by [k]
    REDOs ([k] at most the number of those actions) all return a state, and
    the last one holds exactly the element list held before the UNDOs. *)
Theorem undo_redo_round_trip (acts : list DrawingAction) (k : nat) :
  forallb history_significant acts = true ->
  (k <= List.length acts)%nat ->
  exists s s',
    run initialState acts = Some s /\
    run s (repeat UNDO k ++ repeat REDO k) = Some s' /\
    elements s' = elements s.
Proof.
  intros Hsig Hk.
  destruct (run_significant acts initialState Hsig) as (s & Hrun & Hidx & Htop & Hcur);
    [ reflexivity | reflexivity | ].
  simpl in Hidx.
  destruct (run_undo k s) as (s1 & Hundo & Hh1 & Hi1 & Hc1);
    [ unfold cursor_in_range; lia | assumption | lia | ].
  destruct (run_redo k s1) as (s2 & Hredo & Hh2 & Hi2 & Hc2);
    [ rewrite Hh1, Hi1; lia | ].
  exists s, s2. split; [ assumption | ].
  rewrite run_app, Hundo. split; [ assumption | ].
  destruct Hc2 as [-> | Hc2].
  - simpl in Hundo, Hredo. congruence.
  - unfold cursor_is_current in Hc2, Hcur.
    rewrite Hh2, Hh1, Hi2, Hi1 in Hc2.
    replace (historyIndex s - k + k)%nat with (historyIndex s) in Hc2 by lia.
    congruence.
Qed.

Lemma undo_redo_round_trip_witness :
  exists s s',
    run initialState [ADD_ELEMENT (sample_line "a" origin origin); SAVE_STATE]
      = Some s /\
    run s (repeat UNDO 2 ++ repeat REDO 2) = Some s' /\
    elements s' = elements s.
Proof.
  apply (undo_redo_round_trip
           [ADD_ELEMENT (sample_line "a" origin origin); SAVE_STATE] 2).
  - reflexivity.
  - simpl. lia.
Defined.

(** C2 as stated fails: one action, one UNDO and one new action leave a
    history of two snapshots (the initial empty one and the new one) with
    the cursor at 1, not a history of [n = 1] snapshots with the cursor at
    [n - 1 = 0]. *)
Lemma history_truncation_counterexample :
  exists s,
    run initialState
      [ADD_ELEMENT (sample_line "a" origin origin); UNDO;
       ADD_ELEMENT (sample_line "b" origin origin)] = Some s /\
    List.length (history s) = 2%nat /\ historyIndex s = 1%nat /\
    ~ (List.length (history s) = 1%nat /\ historyIndex s = (1 - 1)%nat).
Proof.
  eexists. split; [ reflexivity | ]. simpl.
  repeat split. intros [H _]. discriminate H.
Qed.

(** C2, amended.  History truncation: from the initial state, [n >= 1]
    history-significant actions, one UNDO and one new history-significant
    action leave [n + 1] snapshots (the initial one and [n] others, the
    undone one replaced) with the cursor on the last, [historyIndex = n]. *)
Theorem history_truncation (acts : list DrawingAction) (a : DrawingAction) :
  forallb history_significant acts = true ->
  history_significant a = true ->
  (1 <= List.length acts)%nat ->
  exists s,
    run initialState (acts ++ [UNDO; a]) = Some s /\
    List.length (history s) = (List.length acts + 1)%nat /\
    historyIndex s = List.length acts /\
    cursor_is_current s.
Proof.
  intros Hsig Ha Hn.
  destruct (run_significant acts initialState Hsig) as (s1 & Hrun & Hidx & Htop & Hcur);
    [ reflexivity | reflexivity | ].
  simpl in Hidx.
  destruct (run_undo 1 s1) as (s2 & Hundo & Hh2 & Hi2 & Hc2);
    [ unfold cursor_in_range; lia | assumption | lia | ].
  destruct (significant_step s2 a Ha) as (s3 & Hstep & Hi3 & Hlen3 & Hc3 & _).
  { unfold cursor_in_range. rewrite Hh2, Hi2. lia. }
  exists s3. rewrite run_app, Hrun.
  change [UNDO; a] with (repeat UNDO 1 ++ [a]).
  rewrite run_app, Hundo. simpl. rewrite Hstep.
  repeat split; try assumption; lia.
Qed.

Lemma history_truncation_witness :
  exists s,
    run initialState
      ([ADD_ELEMENT (sample_line "a" origin origin)]
       ++ [UNDO; ADD_ELEMENT (sample_line "b" origin origin)]) = Some s /\
    List.length (history s) = (1 + 1)%nat /\
    historyIndex s = 1%nat /\
    cursor_is_current s.
Proof.
  apply (history_truncation
           [ADD_ELEMENT (sample_line "a" origin origin)]
           (ADD_ELEMENT (sample_line "b" origin origin)));
    [ reflexivity | reflexivity | simpl; lia ].
Defined.

(** ** Pages *)

(** C8.  DELETE_PAGE does nothing when one page remains; otherwise it
    takes one from [totalPages], and [currentPage] goes down by one when the
    deleted page is at or before it and it is above 1, else is clamped to
    the new total when it exceeds it, else stays.  From the initial state
    three ADD_PAGE give 4 pages with page 4 current, and DELETE_PAGE 2 then
    gives 3 pages with page 3 current. *)
Theorem delete_page_rule (s : DrawingState) (page : Z) :
  ((totalPages s <= 1)%Z -> drawingReducer s (DELETE_PAGE page) = Some s) /\
  ((1 < totalPages s)%Z ->
   exists s',
     drawingReducer s (DELETE_PAGE page) = Some s' /\
     totalPages s' = (totalPages s - 1)%Z /\
     ((page <= currentPage s)%Z /\ (1 < currentPage s)%Z ->
      currentPage s' = (currentPage s - 1)%Z) /\
     (~ ((page <= currentPage s)%Z /\ (1 < currentPage s)%Z) ->
      (totalPages s - 1 < currentPage s)%Z ->
      currentPage s' = (totalPages s - 1)%Z) /\
     (~ ((page <= currentPage s)%Z /\ (1 < currentPage s)%Z) ->
      (currentPage s <= totalPages s - 1)%Z ->
      currentPage s' = currentPage s)) /\
  (exists s4 s3,
     run initialState [ADD_PAGE; ADD_PAGE; ADD_PAGE] = Some s4 /\
     totalPages s4 = 4%Z /\ currentPage s4 = 4%Z /\
     drawingReducer s4 (DELETE_PAGE 2) = Some s3 /\
     totalPages s3 = 3%Z /\ currentPage s3 = 3%Z).
Proof.
  split; [ | split ].
  - intros H. simpl.
    destruct (Z.leb_spec (totalPages s) 1); [ reflexivity | lia ].
  - intros H. simpl.
    destruct (Z.leb_spec (totalPages s) 1); [ lia | ].
    eexists. split; [ reflexivity | ]. simpl.
    split; [ reflexivity | ].
    destruct (Z.leb_spec page (currentPage s));
      destruct (Z.ltb_spec 1 (currentPage s));
      destruct (Z.ltb_spec (totalPages s - 1) (currentPage s));
      simpl; repeat split; intros; lia.
  - do 2 eexists. simpl. repeat split; reflexivity.
Qed.

(** ** Layers *)

(** C10 as stated fails on a state with more than one layer, reached from
    the initial state by the reducer: the two layers left both carry the id
    "layer-1", the current one.  DELETE_LAYER "layer-1" passes the guard on
    the number of layers, filters every layer out and throws on
    [layers[0].id] instead of returning the state with the elements
    removed. *)
Lemma delete_layer_counterexample :
  exists s,
    run initialState to_twin_layers = Some s /\
    List.length (layers s) = 2%nat /\
    currentLayerId s = "layer-1" /\
    drawingReducer s (DELETE_LAYER "layer-1") = None.
Proof. eexists. repeat split. Qed.

(** C10, amended.  For every state with more than one layer in which the
    deleted id is not the current layer's or some layer carries another id,
    DELETE_LAYER returns a state; it keeps exactly the elements whose
    [layerId] differs from the deleted id, in their order, and leaves
    [history], [historyIndex] and every field other than [layers],
    [currentLayerId] and [elements] as they were.  No checkpoint is
    recorded: there is a state whose element list is the snapshot under the
    cursor before DELETE_LAYER and no longer after it. *)
Theorem delete_layer_frame :
  (forall (s : DrawingState) (id0 : string),
     (1 < List.length (layers s))%nat ->
     currentLayerId s <> id0 \/
       (exists l, In l (layers s) /\ layer_id l <> id0) ->
     exists s',
       drawingReducer s (DELETE_LAYER id0) = Some s' /\
       elements s' =
         filter (fun el => negb (String.eqb (layerId el) id0)) (elements s) /\
       (forall el, In el (elements s') <->
                   In el (elements s) /\ layerId el <> id0) /\
       history s' = history s /\
       historyIndex s' = historyIndex s /\
       same_but_layers_and_elements s s') /\
  (exists s s',
     cursor_is_current s /\
     drawingReducer s (DELETE_LAYER "layer-2") = Some s' /\
     ~ cursor_is_current s').
Proof.
  split.
  - intros s id0 Hlen Hkeep.
    assert (Hin : forall el,
               In el (filter (fun el => negb (String.eqb (layerId el) id0))
                        (elements s)) <->
               In el (elements s) /\ layerId el <> id0).
    { intros el. rewrite filter_In, negb_true_iff.
      destruct (String.eqb_spec (layerId el) id0); intuition congruence. }
    unfold drawingReducer.
    destruct (Nat.leb_spec (List.length (layers s)) 1) as [Hle | _]; [ lia | ].
    destruct (String.eqb_spec (currentLayerId s) id0) as [Hcur | Hcur].
    + destruct Hkeep as [Hne | (l & Hl & Hne)]; [ contradiction | ].
      destruct (filter (fun l => negb (String.eqb (layer_id l) id0)) (layers s))
        as [| first rest] eqn:Hf.
      * assert (Hl' : In l (filter (fun l => negb (String.eqb (layer_id l) id0))
                              (layers s))).
        { apply filter_In. split; [ assumption | ].
          apply negb_true_iff. apply String.eqb_neq. assumption. }
        rewrite Hf in Hl'. destruct Hl'.
      * eexists. split; [ reflexivity | ]. simpl.
        split; [ reflexivity | ]. split; [ exact Hin | ].
        unfold same_but_layers_and_elements. simpl. repeat split.
    + eexists. split; [ reflexivity | ]. simpl.
      split; [ reflexivity | ]. split; [ exact Hin | ].
      unfold same_but_layers_and_elements. simpl. repeat split.
  - exists one_line_on_layer_2. eexists.
    split; [ reflexivity | ]. split; [ reflexivity | ].
    unfold cursor_is_current. simpl. discriminate.
Qed.

Lemma delete_layer_frame_witness :
  exists s',
    drawingReducer one_line_on_layer_2 (DELETE_LAYER "layer-2") = Some s' /\
    elements s' =
      filter (fun el => negb (String.eqb (layerId el) "layer-2"))
        (elements one_line_on_layer_2) /\
    (forall el, In el (elements s') <->
                In el (elements one_line_on_layer_2) /\ layerId el <> "layer-2") /\
    history s' = history one_line_on_layer_2 /\
    historyIndex s' = historyIndex one_line_on_layer_2 /\
    same_but_layers_and_elements one_line_on_layer_2 s'.
Proof.
  apply (proj1 delete_layer_frame one_line_on_layer_2 "layer-2").
  - simpl. lia.
  - left. simpl. discriminate.
Defined.

(** ** Comparisons and rounding *)

Lemma Rleb_le (a b : R) : Rleb a b = true <-> a <= b.
Proof. unfold Rleb. destruct (Rle_dec a b); split; intros; try discriminate; tauto. Qed.

Lemma Rleb_gt (a b : R) : Rleb a b = false <-> b < a.
Proof.
  unfold Rleb.
  destruct (Rle_dec a b); split; intros; try discriminate; try lra; reflexivity.
Qed.

Lemma Rltb_lt (a b : R) : Rltb a b = true <-> a < b.
Proof. unfold Rltb. destruct (Rlt_dec a b); split; intros; try discriminate; tauto. Qed.

Lemma Rltb_ge (a b : R) : Rltb a b = false <-> b <= a.
Proof.
  unfold Rltb.
  destruct (Rlt_dec a b); split; intros; try discriminate; try lra; reflexivity.
Qed.

Lemma Reqb_eq (a b : R) : Reqb a b = true <-> a = b.
Proof. unfold Reqb. destruct (Req_dec_T a b); split; intros; try discriminate; tauto. Qed.

Lemma Reqb_neq (a b : R) : Reqb a b = false <-> a <> b.
Proof.
  unfold Reqb. destruct (Req_dec_T a b); split; intros; try discriminate; try tauto.
Qed.

(** Rewriting a comparison of which the outcome is known. *)
Ltac decide_R :=
  repeat match goal with
    | |- context [Rleb ?a ?b] =>
        first [ rewrite (proj2 (Rleb_le a b)) by lra
              | rewrite (proj2 (Rleb_gt a b)) by lra ]
    | |- context [Rltb ?a ?b] =>
        first [ rewrite (proj2 (Rltb_lt a b)) by lra
              | rewrite (proj2 (Rltb_ge a b)) by lra ]
    | |- context [Reqb ?a ?b] =>
        first [ rewrite (proj2 (Reqb_eq a b)) by lra
              | rewrite (proj2 (Reqb_neq a b)) by lra ]
    end.

Lemma Math_round_between (a : R) (n : Z) :
  IZR n - 1 / 2 <= a < IZR n + 1 / 2 -> Math_round a = IZR n.
Proof.
  intros [Hlo Hhi]. unfold Math_round.
  rewrite <- (tech_up (a + 1 / 2) (n + 1)).
  - f_equal. lia.
  - rewrite plus_IZR. lra.
  - rewrite plus_IZR. lra.
Qed.

(** The A4 page at 96 DPI: 794 by 1123 pixels. *)
Lemma initial_pageWidth : pageWidth initialState = 794.
Proof.
  simpl. apply Math_round_between.
  unfold A4_WIDTH_MM, MM_TO_PX. lra.
Qed.

Lemma initial_pageHeight : pageHeight initialState = 1123.
Proof.
  simpl. apply Math_round_between.
  unfold A4_HEIGHT_MM, MM_TO_PX. lra.
Qed.

(** ** Pages and points *)

Lemma inBounds_iff (point : Point) (bounds : Bounds) :
  inBounds point bounds = true <->
  b_x bounds <= x point <= b_x bounds + b_width bounds /\
  b_y bounds <= y point <= b_y bounds + b_height bounds.
Proof.
  unfold inBounds. rewrite !andb_true_iff, !Rleb_le. tauto.
Qed.

Lemma pageFrom_some (state : DrawingState) (point : Point) (todo : nat) :
  forall page found,
    pageFrom state point page todo = Some found ->
    (page <= found < page + Z.of_nat todo)%Z /\
    inBounds point (getPageBounds state found) = true.
Proof.
  induction todo as [| todo IH]; intros page found H; simpl in H.
  - discriminate.
  - destruct (inBounds point (getPageBounds state page)) eqn:Hin.
    + injection H as <-. split; [ lia | assumption ].
    + apply IH in H. destruct H as [Hr Hb]. split; [ lia | assumption ].
Qed.

Lemma pageFrom_none (state : DrawingState) (point : Point) (todo : nat) :
  forall page,
    pageFrom state point page todo = None ->
    forall p, (page <= p < page + Z.of_nat todo)%Z ->
              inBounds point (getPageBounds state p) = false.
Proof.
  induction todo as [| todo IH]; intros page H p Hp; simpl in H.
  - lia.
  - destruct (inBounds point (getPageBounds state page)) eqn:Hin;
      [ discriminate | ].
    destruct (Z.eq_dec p page) as [-> | Hne]; [ assumption | ].
    apply (IH (page + 1)%Z H). lia.
Qed.

(** [getPageAtPoint] finds a page exactly when the point is on one, and the
    page it returns is never 0. *)
Lemma getPageAtPoint_some (state : DrawingState) (point : Point) (page : Z) :
  getPageAtPoint state point = Some page ->
  (1 <= page <= totalPages state)%Z /\
  inBounds point (getPageBounds state page) = true.
Proof.
  unfold getPageAtPoint. intros H. apply pageFrom_some in H.
  destruct H as [Hr Hb]. split; [ lia | assumption ].
Qed.

Lemma getPageAtPoint_none (state : DrawingState) (point : Point) :
  getPageAtPoint state point = None <-> ~ onSomePage state point.
Proof.
  unfold getPageAtPoint, onSomePage. split.
  - intros H (p & Hp & Hb).
    rewrite (pageFrom_none _ _ _ _ H p) in Hb; [ discriminate | lia ].
  - intros Hno.
    destruct (pageFrom state point 1 (Z.to_nat (totalPages state)))
      as [found |] eqn:H; [ | reflexivity ].
    exfalso. apply Hno. exists found.
    apply pageFrom_some in H. destruct H as [Hr Hb]. split; [ lia | assumption ].
Qed.

(** The clipping never moves a point: it looks for the page that holds the
    point itself, so it either finds none and returns the point, or clamps
    a point to a rectangle it is already in. *)
Lemma clipToPageBounds_id (state : DrawingState) (point : Point) :
  clipToPageBounds state point = point.
Proof.
  unfold clipToPageBounds.
  destruct (getPageAtPoint state point) as [page |] eqn:Hp; simpl;
    [ | reflexivity ].
  destruct (page =? 0)%Z; [ reflexivity | ].
  apply getPageAtPoint_some in Hp. destruct Hp as [_ Hb].
  apply inBounds_iff in Hb. destruct Hb as [[Hx1 Hx2] [Hy1 Hy2]].
  destruct point as [px py]. simpl in *.
  unfold Math_max, Math_min.
  rewrite (Rmin_right _ px) by assumption.
  rewrite (Rmin_right _ py) by assumption.
  rewrite (Rmax_right _ px) by assumption.
  rewrite (Rmax_right _ py) by assumption.
  reflexivity.
Qed.

(** The single page of the initial document is the rectangle from
    [(50, 50)] to [(844, 1173)]. *)
Lemma initial_page (point : Point) :
  getPageAtPoint initialState point =
  if Rleb 50 (x point) && Rleb (x point) 844
     && Rleb 50 (y point) && Rleb (y point) 1173
  then Some 1%Z else None.
Proof.
  unfold getPageAtPoint. change (Z.to_nat (totalPages initialState)) with 1%nat.
  unfold pageFrom, inBounds, getPageBounds.
  rewrite initial_pageWidth, initial_pageHeight.
  cbn [b_x b_y b_width b_height]. unfold CANVAS_PADDING, PAGE_MARGIN.
  replace (50 + (1 - 1) * (1123 + 20)) with 50 by lra.
  replace (50 + 794) with 844 by lra.
  replace (50 + 1123) with 1173 by lra.
  reflexivity.
Qed.

(** ** Pan clamping *)

Lemma clamp_idempotent (lo p : R) :
  lo < 0 ->
  Math_max lo (Math_min 0 (Math_max lo (Math_min 0 p))) =
  Math_max lo (Math_min 0 p).
Proof.
  intros Hlo. unfold Math_max, Math_min, Rmax, Rmin.
  repeat (destruct (Rle_dec _ _)); try reflexivity; lra.
Qed.

Lemma clamp_range (lo p : R) :
  lo < 0 -> lo <= Math_max lo (Math_min 0 p) <= 0.
Proof.
  intros Hlo. unfold Math_max, Math_min, Rmax, Rmin.
  repeat (destruct (Rle_dec _ _)); lra.
Qed.

(** C7.  [clampPan] is idempotent for every pan offset, mounted container
    or not.  With a viewport [rect], on an axis where the content is no
    larger than the viewport in document units the result is the centering
    value [(viewport - content) / 2] whatever the offset, and on an axis
    where it is larger the result lies in [[-(content - viewport), 0]]. *)
Theorem clampPan_idempotent (container : option DOMRect) (rect : DOMRect)
  (state : DrawingState) (pan : Point) :
  clampPan container state (clampPan container state pan)
    = clampPan container state pan /\
  (totalWidth state <= viewW rect state ->
   x (clampPan (Some rect) state pan)
     = (viewW rect state - totalWidth state) / 2) /\
  (totalHeight state <= viewH rect state ->
   y (clampPan (Some rect) state pan)
     = (viewH rect state - totalHeight state) / 2) /\
  (viewW rect state < totalWidth state ->
   - (totalWidth state - viewW rect state)
     <= x (clampPan (Some rect) state pan) <= 0) /\
  (viewH rect state < totalHeight state ->
   - (totalHeight state - viewH rect state)
     <= y (clampPan (Some rect) state pan) <= 0).
Proof.
  split; [ | repeat split ].
  - destruct container as [r |]; [ | reflexivity ].
    unfold clampPan, getContentSize. cbn [x y].
    destruct (Rleb (totalWidth state) (viewW r state)) eqn:Hw;
      destruct (Rleb (totalHeight state) (viewH r state)) eqn:Hh;
      try reflexivity;
      repeat match goal with
        | H : Rleb _ _ = false |- _ => apply Rleb_gt in H
        end;
      f_equal; apply clamp_idempotent; lra.
  - intros H. unfold clampPan, getContentSize. cbn [x].
    rewrite (proj2 (Rleb_le _ _) H). reflexivity.
  - intros H. unfold clampPan, getContentSize. cbn [y].
    rewrite (proj2 (Rleb_le _ _) H). reflexivity.
  - unfold clampPan, getContentSize. cbn [x].
    rewrite (proj2 (Rleb_gt _ _) H). apply clamp_range. lra.
  - unfold clampPan, getContentSize. cbn [x].
    rewrite (proj2 (Rleb_gt _ _) H). apply clamp_range. lra.
  - unfold clampPan, getContentSize. cbn [y].
    rewrite (proj2 (Rleb_gt _ _) H). apply clamp_range. lra.
  - unfold clampPan, getContentSize. cbn [y].
    rewrite (proj2 (Rleb_gt _ _) H). apply clamp_range. lra.
Qed.

(** A 1920 by 1080 viewport over the initial one-page document: the 894
    pixels of content are centred across, and the 1223 pixels of content
    are clamped down. *)
Example clampPan_full_hd :
  clampPan (Some {| rect_width := 1920; rect_height := 1080 |}) initialState
    {| x := 75; y := -500 |}
  = {| x := 513; y := -143 |}.
Proof.
  unfold clampPan, getContentSize, totalWidth, totalHeight, viewW, viewH.
  rewrite initial_pageWidth, initial_pageHeight.
  cbn [rect_width rect_height zoom totalPages initialState x y].
  unfold CANVAS_PADDING, PAGE_MARGIN.
  assert (Hw : Rleb (50 * 2 + 794) (1920 / 1) = true) by (apply Rleb_le; lra).
  assert (Hh : Rleb (50 * 2 + 1 * 1123 + (1 - 1) * 20) (1080 / 1) = false)
    by (apply Rleb_gt; lra).
  rewrite Hw, Hh. unfold Math_max, Math_min.
  rewrite Rmin_right by lra. rewrite Rmax_left by lra.
  f_equal; lra.
Qed.

(** ** Tools: drafts and commits *)

Lemma noPage_false (state : DrawingState) (point : Point) :
  noPage (getPageAtPoint state point) = false <-> onSomePage state point.
Proof.
  split.
  - intros H. destruct (getPageAtPoint state point) as [page |] eqn:Hp;
      [ | discriminate ].
    exists page. apply getPageAtPoint_some. assumption.
  - intros Hon.
    destruct (getPageAtPoint state point) as [page |] eqn:Hp.
    + apply getPageAtPoint_some in Hp. simpl.
      apply Z.eqb_neq. lia.
    + apply getPageAtPoint_none in Hp. contradiction.
Qed.

(** A pointer-down off every page starts no element, in the line, the
    freehand and the angle tool alike. *)
Lemma pointer_down_off_page (c : Canvas) (point : Point) (now : string) :
  ~ onSomePage (doc c) point ->
  LineTool.handleMouseDown c point now = Some c /\
  FreehandTool.handleMouseDown c point now = Some c /\
  AngleTool.handleMouseDown c point now = Some c.
Proof.
  intros Hoff. apply getPageAtPoint_none in Hoff.
  unfold LineTool.handleMouseDown, FreehandTool.handleMouseDown,
    AngleTool.handleMouseDown.
  rewrite Hoff. simpl. repeat split.
Qed.

(** C3, the code at the failing input.  On the initial one-page document
    the line tool takes a pointer-down at [(100, 100)], on the page, a
    pointer-move to [(10, 10)], in the padding left of and above the page,
    and a pointer-up: the line it commits ends at [(10, 10)], a point on no
    page.  [clipToPageBounds] returned the point as it was, since it clips
    to the page that holds the point and there is none. *)
Theorem line_end_point_off_page :
  exists c1 c2 c3 el,
    LineTool.handleMouseDown blank {| x := 100; y := 100 |} "1" = Some c1 /\
    LineTool.handleMouseMove c1 {| x := 10; y := 10 |} = Some c2 /\
    LineTool.handleMouseUp c2 = Some c3 /\
    elements (doc c3) = [el] /\
    points el = [ {| x := 100; y := 100 |}; {| x := 10; y := 10 |} ] /\
    clipToPageBounds (doc c1) {| x := 10; y := 10 |} = {| x := 10; y := 10 |} /\
    getPageAtPoint (doc c3) {| x := 10; y := 10 |} = None /\
    ~ onSomePage (doc c3) {| x := 10; y := 10 |}.
Proof.
  assert (Hon : getPageAtPoint initialState {| x := 100; y := 100 |} = Some 1%Z).
  { rewrite initial_page. cbn [x y]. decide_R. reflexivity. }
  assert (Hoff : getPageAtPoint initialState {| x := 10; y := 10 |} = None).
  { rewrite initial_page. cbn [x y]. decide_R. reflexivity. }
  unfold LineTool.handleMouseDown. cbn [doc blank]. rewrite Hon.
  cbn [noPage Z.eqb]. rewrite clipToPageBounds_id.
  eexists. eexists. eexists. eexists.
  split; [ reflexivity | ].
  unfold LineTool.handleMouseMove, setIsDrawing, setCurrentElement.
  cbn [isDrawing currentElement doc points nth_error].
  rewrite clipToPageBounds_id.
  split; [ reflexivity | ].
  split; [ reflexivity | ].
  split; [ reflexivity | ].
  split; [ reflexivity | ].
  split; [ reflexivity | ].
  split; [ exact Hoff | ].
  apply getPageAtPoint_none. exact Hoff.
Qed.

(** C5, the code at the failing input.  On pointer-up the freehand tool
    commits a draft of two points or more and resets; a draft of one point
    it neither commits nor clears.  A click on the page (pointer-down,
    pointer-up, no move between) leaves the one-point draft in
    [currentElement] and [isDrawing] set. *)
Theorem freehand_single_point_draft_kept :
  (forall (c : Canvas) (el : DrawingElement),
     isDrawing c = true -> currentElement c = Some el ->
     (2 <= List.length (points el))%nat ->
     exists c',
       FreehandTool.handleMouseUp c = Some c' /\
       elements (doc c') = elements (doc c) ++ [el] /\
       currentElement c' = None /\ isDrawing c' = false) /\
  (forall (c : Canvas) (el : DrawingElement),
     isDrawing c = true -> currentElement c = Some el ->
     List.length (points el) = 1%nat ->
     FreehandTool.handleMouseUp c = Some c) /\
  (exists c1 c2 draft,
     FreehandTool.handleMouseDown blank {| x := 100; y := 100 |} "1" = Some c1 /\
     FreehandTool.handleMouseUp c1 = Some c2 /\
     currentElement c2 = Some draft /\
     points draft = [ {| x := 100; y := 100 |} ] /\
     isDrawing c2 = true /\
     elements (doc c2) = []).
Proof.
  split; [ | split ].
  - intros c el Hd He Hn. unfold FreehandTool.handleMouseUp, dispatch.
    rewrite Hd, He.
    destruct (Nat.ltb_spec 1 (List.length (points el))); [ | lia ].
    eexists. simpl. repeat split.
  - intros c el Hd He Hn. unfold FreehandTool.handleMouseUp.
    rewrite Hd, He, Hn. reflexivity.
  - assert (Hon : getPageAtPoint initialState {| x := 100; y := 100 |} = Some 1%Z).
    { rewrite initial_page. cbn [x y]. decide_R. reflexivity. }
    unfold FreehandTool.handleMouseDown. cbn [doc blank]. rewrite Hon.
    cbn [noPage Z.eqb]. rewrite clipToPageBounds_id.
    do 3 eexists. split; [ reflexivity | ].
    repeat split; reflexivity.
Qed.

(** ** Eraser *)

(** After SAVE_STATE the snapshot before the cursor is the current element
    list: the next UNDO changes no element. *)
Lemma save_then_undo (s : DrawingState) :
  cursor_in_range s -> cursor_is_current s ->
  exists s1 s2,
    drawingReducer s SAVE_STATE = Some s1 /\
    drawingReducer s1 UNDO = Some s2 /\
    elements s1 = elements s /\
    elements s2 = elements s.
Proof.
  unfold cursor_in_range, cursor_is_current. intros Hin Hcur.
  eexists. eexists. split; [ reflexivity | ].
  unfold drawingReducer.
  cbn [historyIndex history set_history set_historyIndex elements].
  destruct (Nat.ltb_spec 0 (historyIndex s + 1)); [ | lia ].
  replace (historyIndex s + 1 - 1)%nat with (historyIndex s) by lia.
  rewrite kept_truncated by (lia || assumption).
  rewrite Hcur.
  split; [ reflexivity | ]. split; reflexivity.
Qed.

(** Whatever an eraser gesture in progress has deleted, the UNDO that
    follows its pointer-up brings none of it back. *)
Lemma eraser_up_then_undo (c : Canvas) :
  isDrawing c = true ->
  cursor_in_range (doc c) -> cursor_is_current (doc c) ->
  exists c' s,
    EraserTool.handleMouseUp c = Some c' /\
    drawingReducer (doc c') UNDO = Some s /\
    elements s = elements (doc c).
Proof.
  intros Hd Hin Hcur.
  destruct (save_then_undo (doc c) Hin Hcur) as (s1 & s2 & Hs & Hu & _ & He).
  unfold EraserTool.handleMouseUp, dispatch. rewrite Hd, Hs.
  eexists. exists s2. split; [ reflexivity | ]. simpl. split; assumption.
Qed.

Lemma one_line_canvas_reached :
  run initialState [ADD_ELEMENT horizontal_line] = Some (doc one_line_canvas).
Proof. reflexivity. Qed.

Lemma near_the_middle :
  EraserTool.isPointNearLine {| x := 150; y := 100 |}
    {| x := 100; y := 100 |} {| x := 200; y := 100 |} (10 / 2) = true.
Proof.
  unfold EraserTool.isPointNearLine. cbn [x y].
  assert (Hlen : Reqb ((200 - 100) * (200 - 100) + (100 - 100) * (100 - 100)) 0
                 = false) by (apply Reqb_neq; lra).
  rewrite Hlen.
  replace (((150 - 100) * (200 - 100) + (100 - 100) * (100 - 100))
           / ((200 - 100) * (200 - 100) + (100 - 100) * (100 - 100)))
    with (1 / 2) by lra.
  decide_R.
  replace ((150 - (100 + 1 / 2 * (200 - 100)))
           * (150 - (100 + 1 / 2 * (200 - 100)))
           + (100 - (100 + 1 / 2 * (100 - 100)))
             * (100 - (100 + 1 / 2 * (100 - 100)))) with 0 by lra.
  rewrite sqrt_0. decide_R. reflexivity.
Qed.

Lemma eraser_hits_horizontal_line :
  EraserTool.findElementsToErase (doc one_line_canvas) {| x := 150; y := 100 |}
  = ["line-1"].
Proof.
  unfold EraserTool.findElementsToErase, one_line_canvas, horizontal_line,
    sample_line, EraserTool.shouldErase.
  cbn -[EraserTool.isPointNearLine Rdiv].
  rewrite near_the_middle. reflexivity.
Qed.

(** C4, the code at the failing input.  One line on the page; the eraser
    goes down on it and up again.  The gesture deletes the line and records
    two snapshots, one by DELETE_ELEMENTS and one by the SAVE_STATE of
    pointer-up.  A single UNDO then steps from the second to the first:
    the element list stays empty.  It takes a second UNDO to bring the line
    back. *)
Theorem eraser_undo_restores_nothing :
  exists c s1 s2,
    elements (doc one_line_canvas) = [horizontal_line] /\
    EraserTool.gesture one_line_canvas {| x := 150; y := 100 |} [] = Some c /\
    elements (doc c) = [] /\
    List.length (history (doc c)) = 4%nat /\
    historyIndex (doc c) = 3%nat /\
    drawingReducer (doc c) UNDO = Some s1 /\
    elements s1 = [] /\
    drawingReducer s1 UNDO = Some s2 /\
    elements s2 = [horizontal_line].
Proof.
  assert (Hon : getPageAtPoint (doc one_line_canvas) {| x := 150; y := 100 |}
                = Some 1%Z).
  { change (getPageAtPoint (doc one_line_canvas) {| x := 150; y := 100 |})
      with (getPageAtPoint initialState {| x := 150; y := 100 |}).
    rewrite initial_page. cbn [x y]. decide_R. reflexivity. }
  unfold EraserTool.gesture, EraserTool.handleMouseDown, EraserTool.eraseAt.
  rewrite Hon, eraser_hits_horizontal_line.
  cbn [noPage Z.eqb List.length Nat.ltb Nat.leb].
  do 3 eexists. split; [ reflexivity | ].
  split; [ reflexivity | ].
  repeat split; reflexivity.
Qed.

(** ** Angles *)

Lemma atan_pos (r : R) : 0 < r -> 0 < atan r.
Proof. intros H. rewrite <- atan_0. apply atan_increasing. assumption. Qed.

Lemma atan_neg (r : R) : r < 0 -> atan r < 0.
Proof. intros H. rewrite <- atan_0. apply atan_increasing. assumption. Qed.

Lemma div_neg_pos (a b : R) : a < 0 -> b < 0 -> 0 < a / b.
Proof.
  intros Ha Hb. unfold Rdiv.
  assert (H := Rinv_lt_0_compat b Hb). nra.
Qed.

Lemma div_nonneg_neg (a b : R) : 0 <= a -> b < 0 -> a / b <= 0.
Proof.
  intros Ha Hb. unfold Rdiv.
  assert (H := Rinv_lt_0_compat b Hb). nra.
Qed.

(** [Math.atan2] ranges over [(-PI, PI]]. *)
Lemma atan2_range (y0 x0 : R) : - PI < Math_atan2 y0 x0 <= PI.
Proof.
  assert (Hpi := PI_RGT_0).
  assert (Hb := atan_bound (y0 / x0)).
  unfold Math_atan2.
  destruct (Rltb 0 x0) eqn:H1; [ lra | ].
  destruct (Rltb x0 0) eqn:H2.
  - apply Rltb_lt in H2.
    destruct (Rleb 0 y0) eqn:H3.
    + apply Rleb_le in H3.
      assert (Hq := div_nonneg_neg y0 x0 H3 H2).
      destruct (Rle_lt_or_eq_dec _ _ Hq) as [Hlt | Heq].
      * assert (Ha := atan_neg _ Hlt). lra.
      * rewrite Heq, atan_0. lra.
    + apply Rleb_gt in H3.
      assert (Ha := atan_pos _ (div_neg_pos y0 x0 H3 H2)). lra.
  - destruct (Rltb 0 y0); [ lra | ].
    destruct (Rltb y0 0); lra.
Qed.

(** The sweep lies in [[0, 2 PI)]. *)
Lemma sweep_range (baseline center endpoint : Point) :
  0 <= sweep baseline center endpoint < 2 * PI.
Proof.
  unfold sweep.
  assert (H1 := atan2_range (y baseline - y center) (x baseline - x center)).
  assert (H2 := atan2_range (y endpoint - y center) (x endpoint - x center)).
  destruct (Rltb _ 0) eqn:Hd.
  - apply Rltb_lt in Hd. lra.
  - apply Rltb_ge in Hd. lra.
Qed.

(** Opposite vectors are half a turn apart. *)
Lemma atan2_opposite (vx vy t : R) :
  vx <> 0 \/ vy <> 0 -> 0 < t ->
  Math_atan2 vy vx - Math_atan2 (- t * vy) (- t * vx) = PI \/
  Math_atan2 vy vx - Math_atan2 (- t * vy) (- t * vx) = - PI.
Proof.
  intros Hv Ht.
  assert (Hratio : vx <> 0 -> - t * vy / (- t * vx) = vy / vx)
    by (intros; field; lra).
  unfold Math_atan2.
  destruct (Rtotal_order vx 0) as [Hx | [Hx | Hx]].
  - (* pointing left *)
    rewrite (proj2 (Rltb_ge 0 vx)) by lra.
    rewrite (proj2 (Rltb_lt vx 0)) by lra.
    rewrite (proj2 (Rltb_lt 0 (- t * vx))) by nra.
    rewrite Hratio by lra.
    destruct (Rleb 0 vy); lra.
  - (* vertical *)
    subst vx. replace (- t * 0) with 0 by lra.
    rewrite !(proj2 (Rltb_ge 0 0)) by lra.
    destruct (Rtotal_order vy 0) as [Hy | [Hy | Hy]].
    + rewrite (proj2 (Rltb_ge 0 vy)) by lra.
      rewrite (proj2 (Rltb_lt vy 0)) by lra.
      rewrite (proj2 (Rltb_lt 0 (- t * vy))) by nra.
      right. lra.
    + lra.
    + rewrite (proj2 (Rltb_lt 0 vy)) by lra.
      rewrite (proj2 (Rltb_ge 0 (- t * vy))) by nra.
      rewrite (proj2 (Rltb_lt (- t * vy) 0)) by nra.
      left. lra.
  - (* pointing right *)
    rewrite (proj2 (Rltb_lt 0 vx)) by lra.
    rewrite (proj2 (Rltb_ge 0 (- t * vx))) by nra.
    rewrite (proj2 (Rltb_lt (- t * vx) 0)) by nra.
    rewrite Hratio by lra.
    destruct (Rtotal_order vy 0) as [Hy | [Hy | Hy]].
    + rewrite (proj2 (Rleb_le 0 (- t * vy))) by nra. right. lra.
    + subst vy. replace (- t * 0) with 0 by lra.
      rewrite (proj2 (Rleb_le 0 0)) by lra. right. lra.
    + rewrite (proj2 (Rleb_gt 0 (- t * vy))) by nra. left. lra.
Qed.

Lemma sweep_straight (baseline center endpoint : Point) :
  straight baseline center endpoint -> sweep baseline center endpoint = PI.
Proof.
  intros [Hv (t & Ht & Hx & Hy)].
  assert (Hpi := PI_RGT_0).
  unfold sweep. rewrite Hx, Hy.
  destruct (atan2_opposite (x endpoint - x center) (y endpoint - y center) t)
    as [Hd | Hd]; [ lra | assumption | | ]; rewrite Hd.
  - rewrite (proj2 (Rltb_ge PI 0)) by lra. reflexivity.
  - rewrite (proj2 (Rltb_lt (- PI) 0)) by lra. lra.
Qed.

(** C6.  The third click of the angle tool, on a page, with a draft that
    holds the baseline point and the vertex: the element it commits ends
    at the clicked point and carries as [measurements.angle] the [atan2]
    angle of that point around the vertex minus that of the baseline point,
    plus [2 PI] when that difference is negative.  The stored angle lies in
    [[0, 2 PI)], and it is [PI] when the three points form a straight
    angle. *)
Theorem angle_third_click (c : Canvas) (draft : DrawingElement)
  (baseline center point : Point) (rest : list Point) (now : string) :
  clickCount c = 2%nat ->
  currentElement c = Some draft ->
  points draft = baseline :: center :: rest ->
  onSomePage (doc c) point ->
  exists c' final stored,
    AngleTool.handleMouseDown c point now = Some c' /\
    elements (doc c') = elements (doc c) ++ [final] /\
    points final = baseline :: center :: rest ++ [point] /\
    measurements final =
      Some {| length := None; radius := None; angle := Some stored |} /\
    (let diff :=
       Math_atan2 (y point - y center) (x point - x center)
       - Math_atan2 (y baseline - y center) (x baseline - x center) in
     (diff < 0 -> stored = diff + 2 * PI) /\
     (0 <= diff -> stored = diff)) /\
    0 <= stored < 2 * PI /\
    (straight baseline center point -> stored = PI).
Proof.
  intros Hcount Hdraft Hpoints Hon.
  apply noPage_false in Hon.
  unfold AngleTool.handleMouseDown, dispatch.
  rewrite Hon, Hcount, Hdraft, Hpoints.
  cbn [Nat.eqb nth_error drawingReducer].
  rewrite clipToPageBounds_id.
  eexists. eexists. exists (sweep baseline center point).
  split; [ reflexivity | ].
  split; [ reflexivity | ].
  split; [ reflexivity | ].
  split; [ reflexivity | ].
  split; [ | split ].
  - unfold sweep. cbv zeta. split; intros Hd.
    + rewrite (proj2 (Rltb_lt _ 0) Hd). reflexivity.
    + rewrite (proj2 (Rltb_ge _ 0) Hd). reflexivity.
  - apply sweep_range.
  - apply sweep_straight.
Qed.

Lemma on_first_page (point : Point) :
  50 <= x point <= 844 -> 50 <= y point <= 1173 ->
  onSomePage initialState point.
Proof.
  intros Hx Hy. apply noPage_false. rewrite initial_page.
  decide_R. reflexivity.
Qed.

Lemma angle_third_click_witness :
  exists c' final stored,
    AngleTool.handleMouseDown awaiting_third_click {| x := 300; y := 100 |} "2"
      = Some c' /\
    elements (doc c') = elements (doc awaiting_third_click) ++ [final] /\
    points final =
      {| x := 100; y := 100 |} :: {| x := 200; y := 100 |}
        :: [] ++ [ {| x := 300; y := 100 |} ] /\
    measurements final =
      Some {| length := None; radius := None; angle := Some stored |} /\
    (let diff :=
       Math_atan2 (100 - 100) (300 - 200) - Math_atan2 (100 - 100) (100 - 200) in
     (diff < 0 -> stored = diff + 2 * PI) /\
     (0 <= diff -> stored = diff)) /\
    0 <= stored < 2 * PI /\
    (straight {| x := 100; y := 100 |} {| x := 200; y := 100 |}
       {| x := 300; y := 100 |} -> stored = PI).
Proof.
  apply (angle_third_click awaiting_third_click angle_draft
           {| x := 100; y := 100 |} {| x := 200; y := 100 |}
           {| x := 300; y := 100 |} [] "2").
  - reflexivity.
  - reflexivity.
  - reflexivity.
  - apply on_first_page; simpl; lra.
Defined.

(** Baseline point, vertex and end point in a row: the angle is [PI]. *)
Example three_in_a_row :
  sweep {| x := 100; y := 100 |} {| x := 200; y := 100 |}
    {| x := 300; y := 100 |} = PI.
Proof.
  apply sweep_straight. split; [ left; simpl; lra | ].
  exists 1. simpl. repeat split; lra.
Qed.

(** ** Serialization *)

Lemma badPoint_schema (p : JSValue) : badPoint p = false <-> schema_point p.
Proof.
  unfold badPoint, schema_point, schema_object. split.
  - intros H. repeat (apply orb_false_elim in H; destruct H as [H ?]).
    destruct p; try discriminate.
    split; [ eexists; reflexivity | ].
    split.
    + destruct (get (JObject props) "x") as [[]|]; try discriminate.
      eexists; reflexivity.
    + destruct (get (JObject props) "y") as [[]|]; try discriminate.
      eexists; reflexivity.
  - intros [[props ->] [[rx Hx] [ry Hy]]]. rewrite Hx, Hy. reflexivity.
Qed.

Lemma checkPoints_schema (idx : nat) (ps : list JSValue) :
  forall pIdx, checkPoints idx pIdx ps = None <-> Forall schema_point ps.
Proof.
  induction ps as [| p ps IH]; intros pIdx; simpl.
  - split; [ constructor | reflexivity ].
  - destruct (badPoint p) eqn:Hb.
    + split; [ discriminate | ].
      intros H. inversion H as [| ? ? Hp _]; subst.
      apply badPoint_schema in Hp. congruence.
    + rewrite IH. apply badPoint_schema in Hb. split.
      * intros H. constructor; assumption.
      * intros H. inversion H; assumption.
Qed.

Lemma includesValue_schema (v : option JSValue) :
  includesValue elementTypes v = true <->
  exists t, In t elementTypes /\ v = Some (JString t).
Proof.
  unfold includesValue, includes. split.
  - destruct v as [[]|]; try discriminate.
    intros H. apply existsb_exists in H. destruct H as (t & Hin & Heq).
    apply String.eqb_eq in Heq. subst. eexists; split; [ eassumption | reflexivity ].
  - intros (t & Hin & ->). apply existsb_exists.
    exists t. split; [ assumption | apply String.eqb_refl ].
Qed.

(** The validator accepts an entry exactly when it has the shape the
    specification words. *)
Lemma checkElement_schema (idx : nat) (el : JSValue) :
  checkElement idx el = None <-> schema_element el.
Proof.
  unfold checkElement, schema_element, schema_object. split.
  - intros H.
    destruct (negb (typeof_object el) || is_null el) eqn:Hobj; [ discriminate | ].
    destruct (typeof_string (get el "id")) eqn:Hid; [ | discriminate ].
    destruct (includesValue elementTypes (get el "type")) eqn:Hty;
      [ | discriminate ].
    simpl in H.
    destruct (get el "points") as [[| | | | ps |]|] eqn:Hps; try discriminate.
    destruct (checkPoints idx 0 ps) eqn:Hcp; [ discriminate | ].
    destruct (get el "style") as [st |] eqn:Hst; [ | discriminate ].
    destruct (truthy (Some st)) eqn:Htr; [ | discriminate ].
    destruct (typeof_string (get st "strokeColor")) eqn:Hsc; [ | discriminate ].
    destruct (typeof_number (get st "strokeWidth")) eqn:Hsw; [ | discriminate ].
    destruct (typeof_string (get el "layerId")) eqn:Hl; [ | discriminate ].
    destruct el as [| | | | | props]; try discriminate.
    split; [ eexists; reflexivity | ].
    split.
    { destruct (get (JObject props) "id") as [[]|]; try discriminate.
      eexists; reflexivity. }
    split; [ apply includesValue_schema; assumption | ].
    split.
    { exists ps. split; [ reflexivity | ].
      apply (checkPoints_schema idx ps 0). assumption. }
    split.
    { exists st.
      destruct st as [| | | | | sprops]; try discriminate.
      split; [ reflexivity | ].
      split; [ eexists; reflexivity | ].
      split.
      - destruct (get (JObject sprops) "strokeColor") as [[]|]; try discriminate.
        eexists; reflexivity.
      - destruct (get (JObject sprops) "strokeWidth") as [[]|]; try discriminate.
        eexists; reflexivity. }
    destruct (get (JObject props) "layerId") as [[]|]; try discriminate.
    eexists; reflexivity.
  - intros ([props ->] & [s Hid] & Hty & (ps & Hps & Hpts)
            & (st & Hst & [sprops ->] & [color Hc] & [w Hw]) & [l Hl]).
    apply includesValue_schema in Hty.
    apply (checkPoints_schema idx ps 0) in Hpts.
    cbn [typeof_object is_null negb orb].
    rewrite Hid, Hty, Hps, Hpts, Hst, Hc, Hw, Hl. reflexivity.
Qed.

Lemma checkElements_schema (els : list JSValue) :
  forall idx, checkElements idx els = None <-> Forall schema_element els.
Proof.
  induction els as [| el els IH]; intros idx; simpl.
  - split; [ constructor | reflexivity ].
  - destruct (checkElement idx el) eqn:Hc.
    + split; [ discriminate | ].
      intros H. inversion H as [| ? ? Hel _]; subst.
      apply (checkElement_schema idx) in Hel. congruence.
    + rewrite IH. apply checkElement_schema in Hc. split.
      * intros H. constructor; assumption.
      * intros H. inversion H; assumption.
Qed.

(** What the error of the validator tells: the entry and the defect. *)
Lemma checkPoints_index (ps : list JSValue) :
  forall idx pIdx e,
    checkPoints idx pIdx ps = Some e -> error_index e = Some idx.
Proof.
  induction ps as [| p ps IH]; intros idx pIdx e; simpl; [ discriminate | ].
  destruct (badPoint p).
  - intros H. injection H as <-. reflexivity.
  - apply IH.
Qed.

Lemma checkPoints_first (idx : nat) (ps : list JSValue) :
  forall pIdx e,
    checkPoints idx pIdx ps = Some e ->
    exists k p,
      e = Invalid_point idx (pIdx + k) /\
      nth_error ps k = Some p /\
      ~ schema_point p /\
      Forall schema_point (firstn k ps).
Proof.
  induction ps as [| p ps IH]; intros pIdx e; simpl; [ discriminate | ].
  destruct (badPoint p) eqn:Hb.
  - intros H. injection H as <-. exists 0%nat, p.
    rewrite Nat.add_0_r. split; [ reflexivity | ].
    split; [ reflexivity | ]. split; [ | constructor ].
    intros Hs. apply badPoint_schema in Hs. congruence.
  - intros H. destruct (IH _ _ H) as (k & q & -> & Hn & Hq & Hf).
    exists (S k), q. split; [ f_equal; lia | ].
    split; [ exact Hn | ]. split; [ exact Hq | ].
    cbn [firstn]. constructor; [ | exact Hf ].
    apply badPoint_schema. exact Hb.
Qed.

Lemma typeof_string_schema (v : option JSValue) :
  typeof_string v = true <-> exists s, v = Some (JString s).
Proof.
  split.
  - destruct v as [[]|]; try discriminate. intros _. eexists; reflexivity.
  - intros [s ->]. reflexivity.
Qed.

Lemma checkElement_index (idx : nat) (el : JSValue) (e : Error) :
  checkElement idx el = Some e -> error_index e = Some idx.
Proof.
  unfold checkElement.
  destruct (negb (typeof_object el) || is_null el);
    [ intros H; injection H as <-; reflexivity | ].
  destruct (negb (typeof_string (get el "id")));
    [ intros H; injection H as <-; reflexivity | ].
  destruct (negb (includesValue elementTypes (get el "type")));
    [ intros H; injection H as <-; reflexivity | ].
  destruct (get el "points") as [[| | | | ps |] |];
    try (intros H; injection H as <-; reflexivity).
  destruct (checkPoints idx 0 ps) eqn:Hp.
  - intros H. injection H as <-. exact (checkPoints_index _ _ _ _ Hp).
  - match goal with
    | |- context [if ?b then _ else _] => destruct b
    end; [ intros H; injection H as <-; reflexivity | ].
    destruct (negb (typeof_string (get el "layerId")));
      [ intros H; injection H as <-; reflexivity | discriminate ].
Qed.

(** The error names a part of the format that the entry departs from. *)
Lemma checkElement_defect (idx : nat) (el : JSValue) (e : Error) :
  checkElement idx el = Some e -> names_defect e el.
Proof.
  unfold checkElement.
  destruct (negb (typeof_object el) || is_null el) eqn:Hobj.
  { intros H. injection H as <-. cbn [names_defect].
    intros [props ->]. discriminate Hobj. }
  destruct (typeof_string (get el "id")) eqn:Hid; cbn [negb].
  2:{ intros H. injection H as <-. cbn [names_defect].
      intros Hs. apply typeof_string_schema in Hs. congruence. }
  destruct (includesValue elementTypes (get el "type")) eqn:Hty; cbn [negb].
  2:{ intros H. injection H as <-. cbn [names_defect].
      intros Hs. apply includesValue_schema in Hs. congruence. }
  destruct (get el "points") as [pts |] eqn:Hps.
  2:{ intros H. injection H as <-. cbn [names_defect].
      intros [ps H]. rewrite Hps in H. discriminate H. }
  destruct pts as [| | | | ps |];
    try (intros H; injection H as <-; cbn [names_defect];
         intros [ps H]; rewrite Hps in H; discriminate H).
  destruct (checkPoints idx 0 ps) as [e0 |] eqn:Hcp.
  { intros H. injection H as <-.
    destruct (checkPoints_first idx ps 0 e0 Hcp) as (k & p & -> & Hn & Hp & Hf).
    cbn [names_defect Nat.add]. exists ps, p. repeat split; assumption. }
  match goal with
  | |- context [if ?b then _ else _] => destruct b eqn:Hst
  end.
  { intros H. injection H as <-. cbn [names_defect].
    intros (st & Hs & [sprops ->] & [color Hc] & [w Hw]).
    rewrite Hs, Hc, Hw in Hst. discriminate Hst. }
  destruct (typeof_string (get el "layerId")) eqn:Hl; cbn [negb];
    [ discriminate | ].
  intros H. injection H as <-. cbn [names_defect].
  intros Hs. apply typeof_string_schema in Hs. congruence.
Qed.

Lemma checkElements_first (els : list JSValue) :
  forall idx0 e,
    checkElements idx0 els = Some e ->
    exists k bad,
      error_index e = Some (idx0 + k)%nat /\
      nth_error els k = Some bad /\
      ~ schema_element bad /\
      Forall schema_element (firstn k els).
Proof.
  induction els as [| el els IH]; intros idx0 e; simpl; [ discriminate | ].
  destruct (checkElement idx0 el) as [e0 |] eqn:Hc.
  - intros H. injection H as <-. exists 0%nat, el.
    rewrite Nat.add_0_r.
    split; [ exact (checkElement_index _ _ _ Hc) | ].
    split; [ reflexivity | ]. split; [ | constructor ].
    intros Hs. apply (checkElement_schema idx0) in Hs. congruence.
  - intros H. destruct (IH _ _ H) as (k & bad & Hi & Hn & Hb & Hf).
    exists (S k), bad.
    split; [ rewrite Hi; f_equal; lia | ].
    split; [ exact Hn | ]. split; [ exact Hb | ].
    cbn [firstn]. constructor; [ | exact Hf ].
    apply (checkElement_schema idx0). exact Hc.
Qed.

Lemma checkElements_defect (els : list JSValue) :
  forall idx0 e,
    checkElements idx0 els = Some e ->
    exists k bad,
      error_index e = Some (idx0 + k)%nat /\
      nth_error els k = Some bad /\
      names_defect e bad /\
      Forall schema_element (firstn k els).
Proof.
  induction els as [| el els IH]; intros idx0 e; simpl; [ discriminate | ].
  destruct (checkElement idx0 el) as [e0 |] eqn:Hc.
  - intros H. injection H as <-. exists 0%nat, el.
    rewrite Nat.add_0_r.
    split; [ exact (checkElement_index _ _ _ Hc) | ].
    split; [ reflexivity | ].
    split; [ exact (checkElement_defect _ _ _ Hc) | constructor ].
  - intros H. destruct (IH _ _ H) as (k & bad & Hi & Hn & Hb & Hf).
    exists (S k), bad.
    split; [ rewrite Hi; f_equal; lia | ].
    split; [ exact Hn | ]. split; [ exact Hb | ].
    cbn [firstn]. constructor; [ | exact Hf ].
    apply (checkElement_schema idx0). exact Hc.
Qed.

(** The text of an error tells which error it is. *)
Lemma append_inv_head (p a b : string) :
  (p ++ a)%string = (p ++ b)%string -> a = b.
Proof.
  induction p as [| c p IH]; simpl; intros H; [ exact H | ].
  injection H as H. apply IH. exact H.
Qed.

Lemma to_uint_nonnil (n : nat) : Nat.to_uint n <> Decimal.Nil.
Proof.
  rewrite <- (DecimalNat.Unsigned.of_to n), DecimalNat.Unsigned.to_of.
  apply DecimalFacts.unorm_nonnil.
Qed.

Lemma show_injective (n m : nat) : show n = show m -> n = m.
Proof.
  unfold show. intros H.
  apply (f_equal NilZero.uint_of_string) in H.
  rewrite !NilZero.usu in H by apply to_uint_nonnil.
  injection H as H. apply DecimalNat.Unsigned.to_uint_inj. exact H.
Qed.

Lemma show_no_comma (n : nat) (c : Ascii.ascii) :
  In c (list_ascii_of_string (show n)) -> c <> ","%char.
Proof.
  unfold show, NilZero.string_of_uint.
  assert (Hd : forall d, In c (list_ascii_of_string (NilEmpty.string_of_uint d))
                         -> c <> ","%char).
  { induction d; simpl; try tauto;
      (intros [<- | H]; [ discriminate | exact (IHd H) ]). }
  destruct (Nat.to_uint n); try apply Hd.
  simpl. intros [<- | []]. discriminate.
Qed.

(** Two texts that start with digits and a comma agree on both sides of
    the comma. *)
Lemma split_at_comma (d1 : string) :
  forall d2 r1 r2 : string,
    (forall c, In c (list_ascii_of_string d1) -> c <> ","%char) ->
    (forall c, In c (list_ascii_of_string d2) -> c <> ","%char) ->
    (d1 ++ String "," r1)%string = (d2 ++ String "," r2)%string ->
    d1 = d2 /\ r1 = r2.
Proof.
  induction d1 as [| c d1 IH]; intros [| c2 d2] r1 r2 H1 H2 H; simpl in H.
  - injection H as H. split; [ reflexivity | exact H ].
  - injection H as Hc _. exfalso. apply (H2 c2); [ left; reflexivity | ].
    symmetry. exact Hc.
  - injection H as Hc _. exfalso. apply (H1 c); [ left; reflexivity | exact Hc ].
  - injection H as Hc H.
    destruct (IH d2 r1 r2) as [-> ->].
    + intros a Ha. apply H1. right. exact Ha.
    + intros a Ha. apply H2. right. exact Ha.
    + exact H.
    + subst. split; reflexivity.
Qed.

Lemma message_injective (e e' : Error) :
  e <> SyntaxError -> e' <> SyntaxError ->
  message e = message e' -> e = e'.
Proof.
  intros He He' H.
  destruct e as [| | i | i | i | i | i p | i | i],
           e' as [| | j | j | j | j | j q | j | j];
    try contradiction; try reflexivity;
    cbn [message] in H;
    try (apply append_inv_head, show_injective in H; subst; reflexivity);
    try (cbn in H; discriminate H).
  apply append_inv_head in H.
  apply split_at_comma in H; try apply show_no_comma.
  destruct H as [Hi Hp].
  apply show_injective in Hi. apply (append_inv_head " point ") in Hp.
  apply show_injective in Hp. subst. reflexivity.
Qed.

(** ** What [JSON.stringify] keeps *)

Lemma JSValue_nested_ind (P : JSValue -> Prop) :
  P JNull ->
  (forall b, P (JBool b)) ->
  (forall n, P (JNumber n)) ->
  (forall s, P (JString s)) ->
  (forall items, Forall P items -> P (JArray items)) ->
  (forall props, Forall (fun kv => P (snd kv)) props -> P (JObject props)) ->
  forall v, P v.
Proof.
  intros Hnull Hbool Hnum Hstr Harr Hobj.
  fix IH 1. intros [| b | n | s | items | props].
  - exact Hnull.
  - apply Hbool.
  - apply Hnum.
  - apply Hstr.
  - apply Harr. induction items as [| v items IHitems]; constructor;
      [ apply IH | exact IHitems ].
  - apply Hobj. induction props as [| [k v] props IHprops]; constructor;
      [ apply IH | exact IHprops ].
Qed.

(** A value whose numbers are all ones a JSON text can denote is written
    and read back as it is, and no other value is. *)
Lemma jsonify_fixed (v : JSValue) : json_value v = true <-> jsonify v = v.
Proof.
  induction v as [| b | n | s | items IH | props IH] using JSValue_nested_ind;
    cbn [json_value jsonify]; try (split; reflexivity).
  - destruct (json_number n) eqn:Hn; [ split; reflexivity | ].
    split; [ discriminate | ].
    destruct (PrimFloat.is_finite n); [ | discriminate ].
    intros H. injection H as <-. discriminate Hn.
  - split.
    + intros H. f_equal. induction IH as [| v items Hv _ IHitems];
        [ reflexivity | ].
      cbn [forallb] in H. apply andb_prop in H. destruct H as [H1 H2].
      cbn [map]. f_equal; [ apply Hv; exact H1 | apply IHitems; exact H2 ].
    + intros H. injection H as H. induction IH as [| v items Hv _ IHitems];
        [ reflexivity | ].
      cbn [map] in H. injection H as H1 H2. cbn [forallb].
      apply andb_true_intro. split; [ apply Hv; exact H1 | apply IHitems; exact H2 ].
  - split.
    + intros H. f_equal. induction IH as [| [k v] props Hv _ IHprops];
        [ reflexivity | ].
      cbn [forallb snd] in H. apply andb_prop in H. destruct H as [H1 H2].
      cbn [map fst snd]. cbn [snd] in Hv.
      f_equal; [ f_equal; apply Hv; exact H1 | apply IHprops; exact H2 ].
    + intros H. injection H as H. induction IH as [| [k v] props Hv _ IHprops];
        [ reflexivity | ].
      cbn [map fst snd] in H. injection H as H1 H2. cbn [forallb snd].
      cbn [snd] in Hv.
      apply andb_true_intro. split; [ apply Hv; exact H1 | apply IHprops; exact H2 ].
Qed.

Section Codec.

Context {text : Type} (codec : JSON text).

(** [deserializeDrawing] returns exactly the documents of the format. *)
Lemma deserialize_returns (json : text) (data : JSValue) :
  deserializeDrawing codec json = Returns data <->
  parse codec json = Some data /\ schema_document data.
Proof.
  unfold deserializeDrawing, schema_document. split.
  - destruct (parse codec json) as [[| | | | els |] |]; try discriminate.
    destruct (checkElements 0 els) eqn:Hc; [ discriminate | ].
    intros H. injection H as <-. split; [ reflexivity | ].
    exists els. split; [ reflexivity | ].
    apply (checkElements_schema els 0). assumption.
  - intros [Hp (els & -> & Hels)]. rewrite Hp.
    apply (checkElements_schema els 0) in Hels. rewrite Hels. reflexivity.
Qed.

Lemma deserialize_total (json : text) :
  (exists data, deserializeDrawing codec json = Returns data) \/
  (exists e, deserializeDrawing codec json = Throws e).
Proof.
  destruct (deserializeDrawing codec json); [ left | right ]; eexists; reflexivity.
Qed.

(** On a text that is not JSON, or whose value departs from the format,
    [deserializeDrawing] throws, and the error tells what is wrong: a
    SyntaxError, a root that is no array, or the first entry off the format
    with the part of the format it departs from. *)
Lemma deserialize_throws (json : text) :
  parse codec json = None \/
    (exists data, parse codec json = Some data /\ ~ schema_document data) ->
  exists e,
    deserializeDrawing codec json = Throws e /\
    (parse codec json = None -> e = SyntaxError) /\
    (forall data, parse codec json = Some data ->
                  (forall els, data <> JArray els) -> e = Invalid_root) /\
    (forall els, parse codec json = Some (JArray els) ->
       exists idx bad,
         error_index e = Some idx /\
         nth_error els idx = Some bad /\
         Forall schema_element (firstn idx els) /\
         names_defect e bad).
Proof.
  unfold deserializeDrawing. intros Hbad.
  destruct (parse codec json) as [data |] eqn:Hp.
  - destruct Hbad as [Hnone | (data' & Hp' & Hno)]; [ discriminate | ].
    injection Hp' as <-.
    destruct data as [| b | n | s | els | props];
      try (exists Invalid_root; split; [ reflexivity | ];
           split; [ discriminate | ];
           split; [ reflexivity | intros els H; discriminate H ]).
    destruct (checkElements 0 els) as [e |] eqn:Hc.
    + exists e. split; [ reflexivity | ]. split; [ discriminate | ].
      split.
      * intros data H Hroot. injection H as <-.
        exfalso. exact (Hroot els eq_refl).
      * intros els' H. injection H as <-.
        destruct (checkElements_defect els 0 e Hc) as (k & bad & Hi & Hn & Hd & Hf).
        exists k, bad. repeat split; assumption.
    + exfalso. apply Hno. exists els. split; [ reflexivity | ].
      apply (checkElements_schema els 0). exact Hc.
  - exists SyntaxError. split; [ reflexivity | ]. split; [ reflexivity | ].
    split; [ intros data H; discriminate H | intros els H; discriminate H ].
Qed.

(** What comes back of any array that the codec reads back. *)
Lemma round_trip_reads (elements : list JSValue) :
  reads_back codec (JArray elements) ->
  deserializeDrawing codec (serializeDrawing codec elements) =
  match checkElements 0 (map jsonify elements) with
  | Some e => Throws e
  | None => Returns (JArray (map jsonify elements))
  end.
Proof.
  unfold reads_back, deserializeDrawing, serializeDrawing.
  intros ->. reflexivity.
Qed.

(** The infinite coordinate is written as [null], which the validator
    refuses when the text is read. *)
Lemma infinity_is_not_read_back :
  reads_back codec (JArray [line_to_infinity]) ->
  deserializeDrawing codec (serializeDrawing codec [line_to_infinity])
  = Throws (Invalid_point 0 1).
Proof. intros H. rewrite (round_trip_reads _ H). reflexivity. Qed.

(** C9, amended.  Serialization round trip: for every element list whose
    entries have the shape of the document format and whose numbers are
    all finite and not the negative zero,
    [deserializeDrawing (serializeDrawing elements)] returns the array of
    exactly these elements, and for no other list does it, the codec
    reading back what it wrote of the list as ECMAScript specifies.
    [deserializeDrawing] returns every document of the format as it is.
    On a text that is not JSON, or whose value departs from the format, it
    returns nothing and throws an error that tells what is wrong: a
    SyntaxError, a root that is no array, or the index of the first entry
    off the format together with the field that departs from it; the
    message of a validation error tells which error it is. *)
Theorem serialization_round_trip :
  (forall elements : list JSValue,
     reads_back codec (JArray elements) ->
     Forall schema_element elements ->
     json_value (JArray elements) = true ->
     deserializeDrawing codec (serializeDrawing codec elements)
       = Returns (JArray elements)) /\
  (forall elements : list JSValue,
     reads_back codec (JArray elements) ->
     deserializeDrawing codec (serializeDrawing codec elements)
       = Returns (JArray elements) ->
     Forall schema_element elements /\ json_value (JArray elements) = true) /\
  (forall (json : text) (data : JSValue),
     parse codec json = Some data -> schema_document data ->
     deserializeDrawing codec json = Returns data) /\
  (forall json : text,
     parse codec json = None \/
       (exists data, parse codec json = Some data /\ ~ schema_document data) ->
     exists e,
       deserializeDrawing codec json = Throws e /\
       (parse codec json = None -> e = SyntaxError) /\
       (forall data, parse codec json = Some data ->
                     (forall els, data <> JArray els) -> e = Invalid_root) /\
       (forall els, parse codec json = Some (JArray els) ->
          exists idx bad,
            error_index e = Some idx /\
            nth_error els idx = Some bad /\
            Forall schema_element (firstn idx els) /\
            names_defect e bad)) /\
  (forall e e' : Error,
     e <> SyntaxError -> e' <> SyntaxError ->
     message e = message e' -> e = e').
Proof.
  split; [ | split; [ | split; [ | split ] ] ].
  - intros elements Hread Hschema Hjson.
    rewrite (round_trip_reads _ Hread).
    apply jsonify_fixed in Hjson. cbn [jsonify] in Hjson.
    injection Hjson as Hjson. rewrite Hjson.
    apply (checkElements_schema elements 0) in Hschema. rewrite Hschema.
    reflexivity.
  - intros elements Hread H. rewrite (round_trip_reads _ Hread) in H.
    destruct (checkElements 0 (map jsonify elements)) eqn:Hc;
      [ discriminate | ].
    injection H as H. rewrite H in Hc. split.
    + apply (checkElements_schema elements 0). exact Hc.
    + apply jsonify_fixed. cbn [jsonify]. rewrite H. reflexivity.
  - intros json data Hp Hs. apply deserialize_returns. split; assumption.
  - exact deserialize_throws.
  - exact message_injective.
Qed.

End Codec.

(** The codec of the concrete runs reads back whatever it wrote. *)
Lemma transparent_reads_back (v : JSValue) : reads_back transparent_codec v.
Proof. reflexivity. Qed.

Lemma serialization_round_trip_witness :
  deserializeDrawing transparent_codec
    (serializeDrawing transparent_codec [stored_line])
  = Returns (JArray [stored_line]).
Proof.
  apply (proj1 (serialization_round_trip transparent_codec)).
  - apply transparent_reads_back.
  - apply (checkElements_schema [stored_line] 0). reflexivity.
  - reflexivity.
Defined.

(** C9 as stated fails.  A line whose end point has the coordinate
    [Infinity] has the shape of the document format, [typeof] calling the
    infinity a number; [JSON.stringify] writes the coordinate as [null], and
    [deserializeDrawing] of the text written throws on the second point of
    the first entry instead of returning the list. *)
Lemma serialization_round_trip_counterexample :
  Forall schema_element [line_to_infinity] /\
  reads_back transparent_codec (JArray [line_to_infinity]) /\
  jsonify line_to_infinity
    = line_object "line-2" (point_object 100 100)
        (JObject [("x", JNull); ("y", JNumber 100)]) /\
  deserializeDrawing transparent_codec
    (serializeDrawing transparent_codec [line_to_infinity])
    = Throws (Invalid_point 0 1) /\
  message (Invalid_point 0 1) = "Invalid point at element 0, point 1".
Proof.
  split; [ | split; [ | split; [ | split ] ] ].
  - apply (checkElements_schema [line_to_infinity] 0). reflexivity.
  - apply transparent_reads_back.
  - reflexivity.
  - apply infinity_is_not_read_back. apply transparent_reads_back.
  - reflexivity.
Qed.

(** A malformed text, a root that is no array and an entry without [id];
    a line of finite numbers comes back as it was written. *)
Example deserialize_rejects :
  deserializeDrawing transparent_codec None = Throws SyntaxError /\
  deserializeDrawing transparent_codec (Some (JObject [])) = Throws Invalid_root /\
  deserializeDrawing transparent_codec
    (Some (JArray [stored_line; JObject [("type", JString "line")]]))
    = Throws (Missing_id 1) /\
  message (Missing_id 1) = "Missing id at index 1" /\
  deserializeDrawing transparent_codec
    (serializeDrawing transparent_codec [stored_line])
    = Returns (JArray [stored_line]).
Proof. repeat split. Qed.

(** ** What every reachable state satisfies *)

Lemma run_invariant (P : DrawingState -> Prop) :
  (forall s a s', P s -> drawingReducer s a = Some s' -> P s') ->
  forall acts s s', P s -> run s acts = Some s' -> P s'.
Proof.
  intros Hstep. induction acts as [| a acts IH]; intros s s' Hs Hrun; simpl in Hrun.
  - injection Hrun as <-. assumption.
  - destruct (drawingReducer s a) as [s1 |] eqn:Ha; [ | discriminate ].
    apply (IH s1); [ apply (Hstep s a); assumption | assumption ].
Qed.

Lemma step_cursor_in_range (s : DrawingState) (a : DrawingAction)
  (s' : DrawingState) :
  cursor_in_range s -> drawingReducer s a = Some s' -> cursor_in_range s'.
Proof.
  intros Hin Hstep.
  destruct (history_significant a) eqn:Hsig.
  - destruct (significant_step s a Hsig Hin) as (s1 & H1 & Hi & Hl & _).
    rewrite H1 in Hstep. injection Hstep as <-.
    unfold cursor_in_range. lia.
  - unfold cursor_in_range in *.
    destruct a; try discriminate Hsig; simpl in Hstep;
      try (injection Hstep as <-; simpl; assumption).
    + (* DELETE_LAYER *)
      destruct (List.length (layers s) <=? 1)%nat;
        [ injection Hstep as <-; assumption | ].
      destruct (String.eqb (currentLayerId s) _);
        [ destruct (filter _ (layers s)); [ discriminate | ] | ];
        injection Hstep as <-; simpl; assumption.
    + (* UNDO *)
      destruct (0 <? historyIndex s)%nat;
        [ | injection Hstep as <-; assumption ].
      destruct (nth_error (history s) (historyIndex s - 1)); [ | discriminate ].
      injection Hstep as <-. simpl. lia.
    + (* REDO *)
      destruct (Nat.ltb_spec (historyIndex s) (List.length (history s) - 1));
        [ | injection Hstep as <-; assumption ].
      destruct (nth_error (history s) (historyIndex s + 1)); [ | discriminate ].
      injection Hstep as <-. simpl. lia.
    + (* DELETE_PAGE *)
      destruct (totalPages s <=? 1)%Z; injection Hstep as <-; simpl; assumption.
Qed.

(** X1.  Whatever actions are dispatched from the initial state, the
    history cursor of the state reached points into the history:
    [0 <= historyIndex < history.length]. *)
Theorem reachable_cursor_in_range (acts : list DrawingAction)
  (s : DrawingState) :
  run initialState acts = Some s ->
  (historyIndex s < List.length (history s))%nat.
Proof.
  intros Hrun.
  apply (run_invariant cursor_in_range step_cursor_in_range acts initialState s);
    [ apply initial_cursor | assumption ].
Qed.

Lemma reachable_cursor_in_range_witness :
  exists s,
    run initialState sample_actions = Some s /\
    (historyIndex s < List.length (history s))%nat.
Proof.
  eexists. split.
  - lazy -[Math_max Math_min Math_round]. reflexivity.
  - apply (reachable_cursor_in_range sample_actions).
    lazy -[Math_max Math_min Math_round]. reflexivity.
Defined.

(** X2.  The reducer throws on DELETE_LAYER only: a sequence of actions
    without DELETE_LAYER, dispatched from the initial state, always reaches
    a state.  In particular UNDO never reads beyond the history. *)
Theorem throws_only_on_delete_layer (acts : list DrawingAction) :
  forallb (fun a => negb (is_delete_layer a)) acts = true ->
  exists s, run initialState acts = Some s.
Proof.
  intros Hacts.
  assert (Hgen : forall s0, cursor_in_range s0 -> exists s, run s0 acts = Some s).
  { induction acts as [| a acts IH]; intros s0 Hin; simpl.
    - eexists; reflexivity.
    - simpl in Hacts. apply andb_prop in Hacts. destruct Hacts as [Ha Hacts].
      destruct (drawingReducer s0 a) as [s1 |] eqn:Hstep.
      + apply (IH Hacts). apply (step_cursor_in_range s0 a); assumption.
      + exfalso. unfold cursor_in_range in Hin.
        destruct a; try discriminate Hstep; try discriminate Ha;
          unfold drawingReducer in Hstep.
        * destruct (Nat.ltb_spec 0 (historyIndex s0)); [ | discriminate ].
          destruct (nth_error (history s0) (historyIndex s0 - 1)) eqn:Hn;
            [ discriminate | ].
          apply nth_error_None in Hn. lia.
        * destruct (Nat.ltb_spec (historyIndex s0) (List.length (history s0) - 1));
            [ | discriminate ].
          destruct (nth_error (history s0) (historyIndex s0 + 1)) eqn:Hn;
            [ discriminate | ].
          apply nth_error_None in Hn. lia.
        * destruct (totalPages s0 <=? 1)%Z; discriminate. }
  apply Hgen. apply initial_cursor.
Qed.

Lemma throws_only_on_delete_layer_witness :
  exists s, run initialState sample_actions = Some s.
Proof. apply (throws_only_on_delete_layer sample_actions). reflexivity. Defined.

Lemma step_page_in_range (s : DrawingState) (a : DrawingAction)
  (s' : DrawingState) :
  page_in_range s -> drawingReducer s a = Some s' -> page_in_range s'.
Proof.
  unfold page_in_range. intros Hin Hstep.
  destruct a; unfold drawingReducer in Hstep;
    try (injection Hstep as <-; simpl; lia).
  - destruct (List.length (layers s) <=? 1)%nat;
      [ injection Hstep as <-; assumption | ].
    destruct (String.eqb (currentLayerId s) _);
      [ destruct (filter _ (layers s)); [ discriminate | ] | ];
      injection Hstep as <-; assumption.
  - destruct (0 <? historyIndex s)%nat;
      [ | injection Hstep as <-; assumption ].
    destruct (nth_error (history s) (historyIndex s - 1)); [ | discriminate ].
    injection Hstep as <-. assumption.
  - destruct (historyIndex s <? List.length (history s) - 1)%nat;
      [ | injection Hstep as <-; assumption ].
    destruct (nth_error (history s) (historyIndex s + 1)); [ | discriminate ].
    injection Hstep as <-. assumption.
  - destruct (Z.leb_spec (totalPages s) 1);
      [ injection Hstep as <-; assumption | ].
    injection Hstep as <-. simpl.
    destruct (Z.leb_spec page (currentPage s));
      destruct (Z.ltb_spec 1 (currentPage s));
      destruct (Z.ltb_spec (totalPages s - 1) (currentPage s));
      cbn [andb]; lia.
Qed.

(** X3.  Whatever actions are dispatched from the initial state, the
    current page of the state reached is one of its pages:
    [1 <= currentPage <= totalPages]. *)
Theorem reachable_page_in_range (acts : list DrawingAction) (s : DrawingState) :
  run initialState acts = Some s ->
  (1 <= currentPage s <= totalPages s)%Z.
Proof.
  intros Hrun.
  apply (run_invariant page_in_range step_page_in_range acts initialState s);
    [ unfold page_in_range; simpl; lia | assumption ].
Qed.

Lemma reachable_page_in_range_witness :
  exists s,
    run initialState sample_actions = Some s /\
    (1 <= currentPage s <= totalPages s)%Z.
Proof.
  eexists. split.
  - lazy -[Math_max Math_min Math_round]. reflexivity.
  - apply (reachable_page_in_range sample_actions).
    lazy -[Math_max Math_min Math_round]. reflexivity.
Defined.

Lemma step_zoom_in_range (s : DrawingState) (a : DrawingAction)
  (s' : DrawingState) :
  zoom_in_range s -> drawingReducer s a = Some s' -> zoom_in_range s'.
Proof.
  unfold zoom_in_range. intros Hin Hstep.
  destruct a; unfold drawingReducer in Hstep;
    try (injection Hstep as <-; simpl; assumption).
  - injection Hstep as <-. simpl.
    split; [ tauto | ].
    unfold Math_max, Math_min, Rmax, Rmin.
    repeat (destruct (Rle_dec _ _)); lra.
  - destruct (List.length (layers s) <=? 1)%nat;
      [ injection Hstep as <-; assumption | ].
    destruct (String.eqb (currentLayerId s) _);
      [ destruct (filter _ (layers s)); [ discriminate | ] | ];
      injection Hstep as <-; assumption.
  - destruct (0 <? historyIndex s)%nat;
      [ | injection Hstep as <-; assumption ].
    destruct (nth_error (history s) (historyIndex s - 1)); [ | discriminate ].
    injection Hstep as <-. assumption.
  - destruct (historyIndex s <? List.length (history s) - 1)%nat;
      [ | injection Hstep as <-; assumption ].
    destruct (nth_error (history s) (historyIndex s + 1)); [ | discriminate ].
    injection Hstep as <-. assumption.
  - destruct (totalPages s <=? 1)%Z; injection Hstep as <-; assumption.
  - injection Hstep as <-. simpl.
    split; [ | tauto ].
    unfold Math_max, Math_min, Rmax, Rmin.
    repeat (destruct (Rle_dec _ _)); lra.
Qed.

(** X4.  Whatever actions are dispatched from the initial state, the zoom
    floor of the state reached lies in [[0.1, 1]] and its zoom in
    [[0.1, 3]]: the zoom the viewport divides by is never zero. *)
Theorem reachable_zoom_in_range (acts : list DrawingAction) (s : DrawingState) :
  run initialState acts = Some s ->
  1 / 10 <= minZoom s <= 1 /\ 1 / 10 <= zoom s <= 3 /\ zoom s <> 0.
Proof.
  intros Hrun.
  assert (H : zoom_in_range s).
  { apply (run_invariant zoom_in_range step_zoom_in_range acts initialState s);
      [ unfold zoom_in_range; simpl; lra | assumption ]. }
  destruct H as [Hmin Hzoom]. repeat split; lra.
Qed.

Lemma reachable_zoom_in_range_witness :
  exists s,
    run initialState sample_actions = Some s /\
    (1 / 10 <= minZoom s <= 1 /\ 1 / 10 <= zoom s <= 3 /\ zoom s <> 0).
Proof.
  eexists. split.
  - lazy -[Math_max Math_min Math_round]. reflexivity.
  - apply (reachable_zoom_in_range sample_actions).
    lazy -[Math_max Math_min Math_round]. reflexivity.
Defined.

(** ** Actions and the history *)

(** X5.  An action that is neither history-significant nor UNDO or REDO
    leaves the history and its cursor as they are. *)
Theorem non_significant_keeps_history (s : DrawingState) (a : DrawingAction)
  (s' : DrawingState) :
  history_significant a = false ->
  is_undo_redo a = false ->
  drawingReducer s a = Some s' ->
  history s' = history s /\ historyIndex s' = historyIndex s.
Proof.
  intros Hsig Hur Hstep.
  destruct a; try discriminate Hsig; try discriminate Hur;
    unfold drawingReducer in Hstep;
    try (injection Hstep as <-; simpl; split; reflexivity).
  - destruct (List.length (layers s) <=? 1)%nat;
      [ injection Hstep as <-; split; reflexivity | ].
    destruct (String.eqb (currentLayerId s) _);
      [ destruct (filter _ (layers s)); [ discriminate | ] | ];
      injection Hstep as <-; split; reflexivity.
  - destruct (totalPages s <=? 1)%Z; injection Hstep as <-; split; reflexivity.
Qed.

Lemma non_significant_keeps_history_witness :
  history dragged_line_doc = history (doc one_line_canvas) /\
  historyIndex dragged_line_doc = historyIndex (doc one_line_canvas).
Proof.
  apply (non_significant_keeps_history (doc one_line_canvas)
           (UPDATE_ELEMENT "line-1" line_moved) dragged_line_doc);
    reflexivity.
Defined.

(** X6.  A new edit discards the redo tail: right after a
    history-significant action REDO changes nothing, whatever had been
    undone before. *)
Theorem edit_discards_redo (s : DrawingState) (a : DrawingAction) :
  history_significant a = true ->
  (historyIndex s < List.length (history s))%nat ->
  exists s',
    drawingReducer s a = Some s' /\
    drawingReducer s' REDO = Some s'.
Proof.
  intros Hsig Hin.
  destruct (significant_step s a Hsig Hin) as (s' & Hstep & Hi & Hl & _).
  exists s'. split; [ assumption | ].
  unfold drawingReducer. rewrite Hi, Hl.
  destruct (Nat.ltb_spec (historyIndex s + 1) (historyIndex s + 2 - 1));
    [ lia | reflexivity ].
Qed.

Lemma edit_discards_redo_witness :
  exists s',
    drawingReducer (doc one_line_canvas) SAVE_STATE = Some s' /\
    drawingReducer s' REDO = Some s'.
Proof.
  apply (edit_discards_redo (doc one_line_canvas) SAVE_STATE).
  - reflexivity.
  - simpl. lia.
Defined.

(** X7.  UNDO followed by REDO returns to the same place in the same
    history and shows the snapshot recorded there: element changes made
    since that checkpoint (a drag not yet saved, a deleted layer) are
    gone, and the selection is empty. *)
Theorem undo_redo_shows_snapshot (s : DrawingState) :
  (0 < historyIndex s < List.length (history s))%nat ->
  exists s1 s2,
    drawingReducer s UNDO = Some s1 /\
    drawingReducer s1 REDO = Some s2 /\
    history s2 = history s /\
    historyIndex s2 = historyIndex s /\
    nth_error (history s) (historyIndex s) = Some (elements s2) /\
    selectedElementIds s2 = [].
Proof.
  intros [Hpos Hin].
  destruct (nth_error (history s) (historyIndex s - 1)) as [before |] eqn:Hb.
  2:{ apply nth_error_None in Hb. lia. }
  destruct (nth_error (history s) (historyIndex s)) as [snap |] eqn:Hs.
  2:{ apply nth_error_None in Hs. lia. }
  pose (s1 := set_elements before
                (set_historyIndex (historyIndex s - 1)
                   (set_selectedElementIds [] s))).
  assert (H1 : drawingReducer s UNDO = Some s1).
  { unfold drawingReducer.
    destruct (Nat.ltb_spec 0 (historyIndex s)); [ | lia ].
    rewrite Hb. reflexivity. }
  pose (s2 := set_elements snap
                (set_historyIndex (historyIndex s)
                   (set_selectedElementIds [] s1))).
  assert (H2 : drawingReducer s1 REDO = Some s2).
  { unfold drawingReducer. subst s1. simpl.
    destruct (Nat.ltb_spec (historyIndex s - 1) (List.length (history s) - 1));
      [ | lia ].
    replace (historyIndex s - 1 + 1)%nat with (historyIndex s) by lia.
    rewrite Hs. reflexivity. }
  exists s1, s2. subst s1 s2. simpl.
  repeat split; assumption.
Qed.

Lemma undo_redo_shows_snapshot_witness :
  exists s1 s2,
    drawingReducer dragged_line_doc UNDO = Some s1 /\
    drawingReducer s1 REDO = Some s2 /\
    history s2 = history dragged_line_doc /\
    historyIndex s2 = historyIndex dragged_line_doc /\
    nth_error (history dragged_line_doc) (historyIndex dragged_line_doc)
      = Some (elements s2) /\
    selectedElementIds s2 = [].
Proof.
  apply (undo_redo_shows_snapshot dragged_line_doc). simpl. lia.
Defined.


Lemma includes_In (ids : list string) (i : string) :
  includes ids i = true <-> In i ids.
Proof.
  unfold includes. rewrite existsb_exists. split.
  - intros (j & Hj & He). apply String.eqb_eq in He. subst. assumption.
  - intros Hi. exists i. split; [ assumption | apply String.eqb_refl ].
Qed.

Lemma filter_again {A} (f : A -> bool) (l : list A) :
  filter f (filter f l) = filter f l.
Proof.
  induction l as [| a l IH]; simpl; [ reflexivity | ].
  destruct (f a) eqn:Ha; simpl; [ rewrite Ha, IH; reflexivity | assumption ].
Qed.

(** X8.  DELETE_ELEMENTS removes exactly the elements whose id is listed
    and clears the selection.  Dispatched again with the same ids it
    removes nothing more, and still records a second checkpoint. *)
Theorem delete_elements_twice (s : DrawingState) (ids : list string) :
  exists s1 s2,
    drawingReducer s (DELETE_ELEMENTS ids) = Some s1 /\
    (forall el, In el (elements s1) <->
                In el (elements s) /\ ~ In (id el) ids) /\
    selectedElementIds s1 = [] /\
    drawingReducer s1 (DELETE_ELEMENTS ids) = Some s2 /\
    elements s2 = elements s1 /\
    historyIndex s2 = (historyIndex s + 2)%nat.
Proof.
  eexists. eexists. split; [ reflexivity | ].
  split.
  { intros el. simpl. rewrite filter_In, negb_true_iff.
    rewrite <- includes_In. destruct (includes ids (id el)); intuition congruence. }
  split; [ reflexivity | ].
  split; [ reflexivity | ].
  split.
  - simpl. apply filter_again.
  - simpl. lia.
Qed.

(** X9.  UPDATE_ELEMENT keeps the number of elements and the history; an
    id that no element carries changes nothing; every element with another
    id stays; and unless the partial itself carries an [id], the ids stay
    the same, in order. *)
Theorem update_element_frame (s : DrawingState) (i : string)
  (p : PartialElement) :
  exists s',
    drawingReducer s (UPDATE_ELEMENT i p) = Some s' /\
    List.length (elements s') = List.length (elements s) /\
    history s' = history s /\ historyIndex s' = historyIndex s /\
    (~ In i (map id (elements s)) -> elements s' = elements s) /\
    (forall el, In el (elements s) -> id el <> i -> In el (elements s')) /\
    (p_id p = None -> map id (elements s') = map id (elements s)).
Proof.
  eexists. split; [ reflexivity | ]. simpl.
  split; [ apply length_map | ].
  split; [ reflexivity | ].
  split; [ reflexivity | ].
  split; [ | split ].
  - intros Hno. induction (elements s) as [| el l IH]; simpl; [ reflexivity | ].
    simpl in Hno.
    destruct (String.eqb_spec (id el) i) as [He | He]; [ tauto | ].
    f_equal. apply IH. tauto.
  - intros el Hin Hne. apply in_map_iff. exists el.
    split; [ | assumption ].
    destruct (String.eqb_spec (id el) i); [ contradiction | reflexivity ].
  - intros Hp. rewrite map_map. apply map_ext. intros el.
    destruct (String.eqb (id el) i); [ | reflexivity ].
    unfold spread_element. simpl. rewrite Hp. reflexivity.
Qed.

Lemma NoDup_map_filter {A B} (f : A -> B) (g : A -> bool) (l : list A) :
  NoDup (map f l) -> NoDup (map f (filter g l)).
Proof.
  induction l as [| a l IH]; simpl; intros H; [ constructor | ].
  inversion H as [| ? ? Hnot Hnd]; subst.
  destruct (g a); simpl; [ | apply IH; assumption ].
  constructor; [ | apply IH; assumption ].
  intros Hin. apply Hnot. apply in_map_iff in Hin.
  destruct Hin as (b & Hb & Hf). apply filter_In in Hf.
  apply in_map_iff. exists b. tauto.
Qed.

Lemma filter_other_ids (ls : list Layer) (id0 : string) :
  NoDup (map layer_id ls) ->
  List.length (filter (fun l => negb (String.eqb (layer_id l) id0)) ls)
  = if in_dec string_dec id0 (map layer_id ls)
    then (List.length ls - 1)%nat else List.length ls.
Proof.
  induction ls as [| l ls IH]; simpl; intros H; [ reflexivity | ].
  inversion H as [| ? ? Hnot Hnd]; subst. specialize (IH Hnd).
  destruct (String.eqb_spec (layer_id l) id0) as [He | He]; simpl.
  - destruct (string_dec (layer_id l) id0); [ | contradiction ].
    rewrite IH. subst id0.
    destruct (in_dec string_dec (layer_id l) (map layer_id ls));
      [ contradiction | lia ].
  - destruct (string_dec (layer_id l) id0); [ contradiction | ].
    rewrite IH.
    destruct (in_dec string_dec id0 (map layer_id ls)) as [Hin | Hin];
      [ | reflexivity ].
    destruct ls; [ destruct Hin | simpl; lia ].
Qed.

(** X10.  While no two layers share an id and the current layer is one of
    them, DELETE_LAYER on a document with more than one layer returns a
    state, removes the layer of that id and no other, leaves at least one
    layer, and keeps the ids distinct and the current layer among them;
    the current layer changes only if it was the one deleted. *)
Theorem delete_layer_keeps_layers_well_formed (s : DrawingState)
  (id0 : string) :
  NoDup (map layer_id (layers s)) ->
  In (currentLayerId s) (map layer_id (layers s)) ->
  (1 < List.length (layers s))%nat ->
  exists s',
    drawingReducer s (DELETE_LAYER id0) = Some s' /\
    (forall l, In l (layers s') <-> In l (layers s) /\ layer_id l <> id0) /\
    (1 <= List.length (layers s'))%nat /\
    (In id0 (map layer_id (layers s)) ->
     List.length (layers s') = (List.length (layers s) - 1)%nat) /\
    NoDup (map layer_id (layers s')) /\
    In (currentLayerId s') (map layer_id (layers s')) /\
    (currentLayerId s <> id0 -> currentLayerId s' = currentLayerId s).
Proof.
  intros Hnd Hcur Hlen.
  set (keep := fun l : Layer => negb (String.eqb (layer_id l) id0)).
  assert (Hkeep : forall l, In l (filter keep (layers s)) <->
                            In l (layers s) /\ layer_id l <> id0).
  { intros l. rewrite filter_In. unfold keep. rewrite negb_true_iff.
    destruct (String.eqb_spec (layer_id l) id0); intuition congruence. }
  assert (Hcount := filter_other_ids (layers s) id0 Hnd). fold keep in Hcount.
  assert (Hnd' := NoDup_map_filter layer_id keep (layers s) Hnd).
  unfold drawingReducer.
  destruct (Nat.leb_spec (List.length (layers s)) 1) as [Hle | _]; [ lia | ].
  fold keep.
  destruct (String.eqb_spec (currentLayerId s) id0) as [He | He].
  - destruct (filter keep (layers s)) as [| first rest] eqn:Hf.
    + simpl in Hcount.
      destruct (in_dec string_dec id0 (map layer_id (layers s))); lia.
    + eexists. split; [ reflexivity | ]. simpl.
      split; [ exact Hkeep | ].
      split; [ simpl; lia | ].
      split.
      { intros Hin.
        destruct (in_dec string_dec id0 (map layer_id (layers s)));
          [ exact Hcount | contradiction ]. }
      split; [ assumption | ].
      split; [ simpl; left; reflexivity | ].
      intros Hne. contradiction.
  - eexists. split; [ reflexivity | ]. simpl.
    split; [ exact Hkeep | ].
    split.
    { rewrite Hcount.
      destruct (in_dec string_dec id0 (map layer_id (layers s))); lia. }
    split.
    { intros Hin. rewrite Hcount.
      destruct (in_dec string_dec id0 (map layer_id (layers s)));
        [ reflexivity | contradiction ]. }
    split; [ assumption | ].
    split; [ | reflexivity ].
    apply in_map_iff in Hcur. destruct Hcur as (l & Hl & Hin).
    apply in_map_iff. exists l. split; [ assumption | ].
    apply Hkeep. split; [ assumption | congruence ].
Qed.

Lemma delete_layer_keeps_layers_well_formed_witness :
  exists s',
    drawingReducer initialState (DELETE_LAYER "layer-1") = Some s' /\
    (forall l, In l (layers s') <->
               In l (layers initialState) /\ layer_id l <> "layer-1") /\
    (1 <= List.length (layers s'))%nat /\
    (In "layer-1" (map layer_id (layers initialState)) ->
     List.length (layers s') = (List.length (layers initialState) - 1)%nat) /\
    NoDup (map layer_id (layers s')) /\
    In (currentLayerId s') (map layer_id (layers s')) /\
    (currentLayerId initialState <> "layer-1" ->
     currentLayerId s' = currentLayerId initialState).
Proof.
  apply (delete_layer_keeps_layers_well_formed initialState "layer-1").
  - simpl. repeat constructor; simpl; intuition discriminate.
  - simpl. left. reflexivity.
  - simpl. lia.
Defined.

(** ** Zoom floor, grid and pages *)

(** X11.  With a mounted container [computeAndApplyMinZoom] leaves a zoom
    floor in [[0.6, 1]], the value [min(1, max(0.6, width / totalWidth))],
    and a zoom that is at or above it: the zoom is raised to the floor when
    it was below, and is not touched otherwise. *)
Theorem min_zoom_is_applied (rect : DOMRect) (s : DrawingState) :
  exists s',
    computeAndApplyMinZoom (Some rect) s = Some s' /\
    minZoom s' = Math_min 1 (Math_max (6 / 10) (rect_width rect / totalWidth s)) /\
    6 / 10 <= minZoom s' <= 1 /\
    minZoom s' <= zoom s' /\
    (zoom s < minZoom s' -> zoom s' = minZoom s') /\
    (minZoom s' <= zoom s -> zoom s' = zoom s).
Proof.
  unfold computeAndApplyMinZoom.
  set (m := Math_min 1 (Math_max (6 / 10) (rect_width rect / totalWidth s))).
  assert (Hm : 6 / 10 <= m <= 1).
  { subst m. unfold Math_min, Math_max, Rmin, Rmax.
    repeat (destruct (Rle_dec _ _)); lra. }
  assert (Hfloor : Math_min 1 (Math_max (1 / 10) m) = m).
  { unfold Math_min, Math_max, Rmin, Rmax.
    repeat (destruct (Rle_dec _ _)); lra. }
  assert (Hraise : Math_max m (Math_min 3 m) = m).
  { unfold Math_min, Math_max, Rmin, Rmax.
    repeat (destruct (Rle_dec _ _)); lra. }
  cbn [drawingReducer].
  destruct (Rltb (zoom s) m) eqn:Hz.
  - apply Rltb_lt in Hz. eexists. split; [ reflexivity | ].
    simpl. rewrite Hfloor, Hraise. repeat split; lra.
  - apply Rltb_ge in Hz. eexists. split; [ reflexivity | ].
    simpl. rewrite Hfloor. repeat split; lra.
Qed.

Lemma Math_round_near (a : R) :
  exists n : Z, Math_round a = IZR n /\ a - 1 / 2 < IZR n <= a + 1 / 2.
Proof.
  unfold Math_round. exists (up (a + 1 / 2) - 1)%Z.
  split; [ reflexivity | ].
  destruct (archimed (a + 1 / 2)) as [Hgt Hle].
  rewrite minus_IZR. lra.
Qed.

Lemma Math_round_integer (n : Z) : Math_round (IZR n) = IZR n.
Proof. apply Math_round_between. lra. Qed.

Lemma cell_positive : 0 < cell.
Proof. unfold cell. lra. Qed.

Lemma snap_coordinate (a : R) :
  exists n : Z,
    Math_round (a / cell) * cell = IZR n * cell /\
    - (cell / 2) <= Math_round (a / cell) * cell - a <= cell / 2.
Proof.
  assert (Hc := cell_positive).
  destruct (Math_round_near (a / cell)) as (n & Hn & Hlo & Hhi).
  exists n. rewrite Hn. split; [ reflexivity | ].
  remember (a / cell) as q eqn:Hq.
  assert (Ha : a = q * cell) by (subst q; field; lra).
  split; nra.
Qed.

Lemma snap_coordinate_again (a : R) :
  Math_round (Math_round (a / cell) * cell / cell) * cell
  = Math_round (a / cell) * cell.
Proof.
  assert (Hc := cell_positive).
  destruct (Math_round_near (a / cell)) as (n & Hn & _).
  rewrite Hn.
  replace (IZR n * cell / cell) with (IZR n) by (field; lra).
  rewrite Math_round_integer. reflexivity.
Qed.

Lemma snap_near (point : Point) (gridSize : R) :
  Rabs (x (snapToGrid_point point gridSize) - x point) <= cell / 2 /\
  Rabs (y (snapToGrid_point point gridSize) - y point) <= cell / 2.
Proof.
  unfold snapToGrid_point. cbn [x y]. fold cell.
  destruct (snap_coordinate (x point)) as (kx & Hkx & Hdx).
  destruct (snap_coordinate (y point)) as (ky & Hky & Hdy).
  split; apply Rabs_le; lra.
Qed.

(** X12.  [snapToGrid] lands on the 1 mm grid whatever [gridSize] it is
    given: each coordinate of the result is a whole number of cells, lies
    within half a cell of the coordinate it came from, and snapping the
    result again, with any grid size, leaves it where it is. *)
Theorem snapToGrid_lands_on_grid (point : Point) (gridSize gridSize' : R) :
  (exists kx ky : Z,
     x (snapToGrid_point point gridSize) = IZR kx * cell /\
     y (snapToGrid_point point gridSize) = IZR ky * cell) /\
  Rabs (x (snapToGrid_point point gridSize) - x point) <= cell / 2 /\
  Rabs (y (snapToGrid_point point gridSize) - y point) <= cell / 2 /\
  snapToGrid_point (snapToGrid_point point gridSize) gridSize'
    = snapToGrid_point point gridSize.
Proof.
  destruct (snap_near point gridSize) as [Hx Hy].
  split; [ | split; [ exact Hx | split; [ exact Hy | ] ] ].
  - unfold snapToGrid_point. cbn [x y]. fold cell.
    destruct (snap_coordinate (x point)) as (kx & Hkx & _).
    destruct (snap_coordinate (y point)) as (ky & Hky & _).
    exists kx, ky. split; assumption.
  - unfold snapToGrid_point. cbn [x y]. fold cell.
    rewrite !snap_coordinate_again. reflexivity.
Qed.

(** X13.  Without snapping (snap off, or the freehand tool) the point
    [getCanvasPoint] returns is drawn by the renderer, which scales by the
    zoom and translates by the pan, exactly under the pointer; with
    snapping it is within half a grid cell of that point in each
    coordinate. *)
Theorem canvas_point_under_pointer (rect : CanvasRect) (s : DrawingState)
  (e : MouseEvent) :
  zoom s <> 0 ->
  (snapToGrid s && negb (is_freehand (currentTool s)) = false ->
   (x (getCanvasPoint (Some rect) s e) + x (panOffset s)) * zoom s
     = clientX e - canvas_left rect /\
   (y (getCanvasPoint (Some rect) s e) + y (panOffset s)) * zoom s
     = clientY e - canvas_top rect) /\
  Rabs (x (getCanvasPoint (Some rect) s e) - x (rawPoint rect s e)) <= cell / 2 /\
  Rabs (y (getCanvasPoint (Some rect) s e) - y (rawPoint rect s e)) <= cell / 2.
Proof.
  intros Hz. assert (Hc := cell_positive).
  assert (Hzero : Rabs 0 <= cell / 2) by (rewrite Rabs_R0; lra).
  split.
  - intros Hoff. unfold getCanvasPoint. rewrite Hoff.
    unfold rawPoint. cbn [x y]. split; field; assumption.
  - unfold getCanvasPoint.
    destruct (snapToGrid s && negb (is_freehand (currentTool s)));
      [ destruct (noPage (getPageAtPoint s (rawPoint rect s e))) | ];
      try (rewrite !Rminus_diag; split; assumption).
    exact (snap_near (rawPoint rect s e) (gridSize s)).
Qed.

Lemma canvas_point_under_pointer_witness :
  (snapToGrid initialState && negb (is_freehand (currentTool initialState)) = false ->
   (x (getCanvasPoint (Some canvas_at_origin) initialState near_left_edge)
    + x (panOffset initialState)) * zoom initialState
     = clientX near_left_edge - canvas_left canvas_at_origin /\
   (y (getCanvasPoint (Some canvas_at_origin) initialState near_left_edge)
    + y (panOffset initialState)) * zoom initialState
     = clientY near_left_edge - canvas_top canvas_at_origin) /\
  Rabs (x (getCanvasPoint (Some canvas_at_origin) initialState near_left_edge)
        - x (rawPoint canvas_at_origin initialState near_left_edge)) <= cell / 2 /\
  Rabs (y (getCanvasPoint (Some canvas_at_origin) initialState near_left_edge)
        - y (rawPoint canvas_at_origin initialState near_left_edge)) <= cell / 2.
Proof.
  apply (canvas_point_under_pointer canvas_at_origin initialState near_left_edge).
  simpl. lra.
Defined.

Lemma off_page_left (s : DrawingState) (point : Point) :
  x point < CANVAS_PADDING -> ~ onSomePage s point.
Proof.
  intros Hx (page & _ & Hin). apply inBounds_iff in Hin.
  unfold getPageBounds in Hin. cbn [b_x] in Hin. lra.
Qed.

Lemma on_page_right_of_padding (s : DrawingState) (point : Point) :
  onSomePage s point -> CANVAS_PADDING <= x point.
Proof.
  intros (page & _ & Hin). apply inBounds_iff in Hin.
  unfold getPageBounds in Hin. cbn [b_x] in Hin. lra.
Qed.

(** X14.  With snapping on and a tool other than freehand, a pointer over a
    page but within one pixel of its left edge ([x] at most 51) is snapped
    to the grid line at 13 cells, left of the page: the point
    [getCanvasPoint] returns lies on no page, and the pointer-down of the
    line tool there starts nothing. *)
Theorem left_edge_strip_is_dead (rect : CanvasRect) (c : Canvas)
  (e : MouseEvent) (now : string) :
  snapToGrid (doc c) = true ->
  is_freehand (currentTool (doc c)) = false ->
  onSomePage (doc c) (rawPoint rect (doc c) e) ->
  x (rawPoint rect (doc c) e) <= 51 ->
  x (getCanvasPoint (Some rect) (doc c) e) = 13 * cell /\
  ~ onSomePage (doc c) (getCanvasPoint (Some rect) (doc c) e) /\
  LineTool.handleMouseDown c (getCanvasPoint (Some rect) (doc c) e) now = Some c.
Proof.
  intros Hsnap Hfree Hon Hx.
  assert (Hlo := on_page_right_of_padding _ _ Hon). unfold CANVAS_PADDING in Hlo.
  assert (Hp : getCanvasPoint (Some rect) (doc c) e
               = snapToGrid_point (rawPoint rect (doc c) e) (gridSize (doc c))).
  { unfold getCanvasPoint. rewrite Hsnap, Hfree.
    rewrite (proj2 (noPage_false _ _) Hon). reflexivity. }
  rewrite Hp.
  assert (Hxs : x (snapToGrid_point (rawPoint rect (doc c) e) (gridSize (doc c)))
                = 13 * cell).
  { unfold snapToGrid_point. cbn [x]. fold cell.
    rewrite (Math_round_between _ 13); [ reflexivity | ].
    remember (x (rawPoint rect (doc c) e) / cell) as q eqn:Hq.
    assert (Hc : x (rawPoint rect (doc c) e) = q * cell)
      by (subst q; unfold cell; field).
    unfold cell in Hc. lra. }
  assert (Hoff : ~ onSomePage (doc c)
                   (snapToGrid_point (rawPoint rect (doc c) e) (gridSize (doc c)))).
  { apply off_page_left. rewrite Hxs. unfold CANVAS_PADDING, cell. lra. }
  split; [ exact Hxs | ].
  split; [ exact Hoff | ].
  unfold LineTool.handleMouseDown.
  apply getPageAtPoint_none in Hoff. rewrite Hoff. reflexivity.
Qed.

Lemma left_edge_strip_is_dead_witness :
  x (getCanvasPoint (Some canvas_at_origin) (doc blank) near_left_edge)
    = 13 * cell /\
  ~ onSomePage (doc blank)
      (getCanvasPoint (Some canvas_at_origin) (doc blank) near_left_edge) /\
  LineTool.handleMouseDown blank
    (getCanvasPoint (Some canvas_at_origin) (doc blank) near_left_edge) "1"
    = Some blank.
Proof.
  apply (left_edge_strip_is_dead canvas_at_origin blank near_left_edge "1").
  - reflexivity.
  - reflexivity.
  - apply on_first_page; simpl; lra.
  - simpl. lra.
Defined.

Lemma pages_apart (s : DrawingState) (point : Point) (n m : Z) :
  0 <= pageHeight s ->
  inBounds point (getPageBounds s n) = true ->
  inBounds point (getPageBounds s m) = true ->
  n = m.
Proof.
  intros Hh Hn Hm. apply inBounds_iff in Hn, Hm.
  unfold getPageBounds in Hn, Hm. cbn [b_y b_height] in Hn, Hm.
  unfold PAGE_MARGIN in *.
  destruct Hn as [_ [Hn1 Hn2]]. destruct Hm as [_ [Hm1 Hm2]].
  destruct (Z.lt_trichotomy n m) as [Hlt | [Heq | Hgt]]; [ | assumption | ];
    exfalso.
  - assert (H : IZR n + 1 <= IZR m) by (rewrite <- plus_IZR; apply IZR_le; lia).
    nra.
  - assert (H : IZR m + 1 <= IZR n) by (rewrite <- plus_IZR; apply IZR_le; lia).
    nra.
Qed.

(** X15.  Pages do not overlap, so [getPageAtPoint] answers with the one
    page whose rectangle holds the point: it returns page [n] exactly when
    [n] is a page of the document and the point lies in its rectangle. *)
Theorem page_at_point_is_the_page (s : DrawingState) (point : Point) (n : Z) :
  0 <= pageHeight s ->
  (getPageAtPoint s point = Some n <->
   (1 <= n <= totalPages s)%Z /\ inBounds point (getPageBounds s n) = true).
Proof.
  intros Hh. split; [ apply getPageAtPoint_some | ].
  intros [Hn Hin].
  destruct (getPageAtPoint s point) as [m |] eqn:Hm.
  - apply getPageAtPoint_some in Hm. destruct Hm as [_ Hm].
    f_equal. apply (pages_apart s point m n); assumption.
  - apply getPageAtPoint_none in Hm. exfalso. apply Hm.
    exists n. split; assumption.
Qed.

Lemma page_at_point_is_the_page_witness :
  getPageAtPoint initialState {| x := 100; y := 100 |} = Some 1%Z <->
  (1 <= 1 <= totalPages initialState)%Z /\
  inBounds {| x := 100; y := 100 |} (getPageBounds initialState 1) = true.
Proof.
  apply (page_at_point_is_the_page initialState {| x := 100; y := 100 |} 1).
  rewrite initial_pageHeight. lra.
Defined.

(** X16.  Every page of the document lies inside the content area with the
    canvas padding to spare on each side: pages start at the padding, are
    as wide as the content less the padding on both sides, follow one
    another a page margin apart, and the last one ends a padding above the
    bottom of the content. *)
Theorem pages_inside_content (s : DrawingState) (n : Z) :
  0 <= pageHeight s ->
  (1 <= n <= totalPages s)%Z ->
  b_x (getPageBounds s n) = CANVAS_PADDING /\
  b_x (getPageBounds s n) + b_width (getPageBounds s n) + CANVAS_PADDING
    = totalWidth s /\
  CANVAS_PADDING <= b_y (getPageBounds s n) /\
  b_y (getPageBounds s n) + b_height (getPageBounds s n) + CANVAS_PADDING
    <= totalHeight s /\
  b_y (getPageBounds s (n + 1))
    = b_y (getPageBounds s n) + b_height (getPageBounds s n) + PAGE_MARGIN /\
  b_y (getPageBounds s (totalPages s))
  + b_height (getPageBounds s (totalPages s)) + CANVAS_PADDING
    = totalHeight s.
Proof.
  intros Hh [Hn1 Hn2].
  apply IZR_le in Hn1, Hn2.
  unfold getPageBounds, totalWidth, totalHeight, CANVAS_PADDING, PAGE_MARGIN.
  cbn [b_x b_y b_width b_height]. rewrite plus_IZR.
  repeat split; nra.
Qed.

Lemma pages_inside_content_witness :
  b_x (getPageBounds initialState 1) = CANVAS_PADDING /\
  b_x (getPageBounds initialState 1) + b_width (getPageBounds initialState 1)
  + CANVAS_PADDING = totalWidth initialState /\
  CANVAS_PADDING <= b_y (getPageBounds initialState 1) /\
  b_y (getPageBounds initialState 1) + b_height (getPageBounds initialState 1)
  + CANVAS_PADDING <= totalHeight initialState /\
  b_y (getPageBounds initialState (1 + 1))
    = b_y (getPageBounds initialState 1)
      + b_height (getPageBounds initialState 1) + PAGE_MARGIN /\
  b_y (getPageBounds initialState (totalPages initialState))
  + b_height (getPageBounds initialState (totalPages initialState))
  + CANVAS_PADDING = totalHeight initialState.
Proof.
  apply (pages_inside_content initialState 1).
  - rewrite initial_pageHeight. lra.
  - simpl. lia.
Defined.

(** X17.  [clipToPageBounds] moves no point: whatever the document and the
    point, it returns the point it was given, on a page or not. *)
Theorem clipToPageBounds_moves_nothing (s : DrawingState) (point : Point) :
  clipToPageBounds s point = point /\
  (onSomePage s (clipToPageBounds s point) <-> onSomePage s point).
Proof.
  rewrite clipToPageBounds_id. split; [ reflexivity | tauto ].
Qed.

Lemma clampPan_again (container : option DOMRect) (s : DrawingState)
  (pan : Point) :
  clampPan container s (clampPan container s pan) = clampPan container s pan.
Proof.
  destruct container as [r |]; [ | reflexivity ].
  unfold clampPan, getContentSize. cbn [x y].
  destruct (Rleb (totalWidth s) (viewW r s)) eqn:Hw;
    destruct (Rleb (totalHeight s) (viewH r s)) eqn:Hh;
    try reflexivity;
    repeat match goal with
      | H : Rleb _ _ = false |- _ => apply Rleb_gt in H
      end;
    f_equal; apply clamp_idempotent; lra.
Qed.

Lemma clampPan_set_pan (container : option DOMRect) (s : DrawingState)
  (stored pan : Point) :
  clampPan container (set_panOffset stored s) pan = clampPan container s pan.
Proof. destruct container; reflexivity. Qed.

(** X18.  A wheel event without Ctrl or Cmd never changes the zoom or the
    elements.  When the content fits the viewport it changes nothing at
    all; otherwise the pan offset it stores is one [clampPan] accepts as it
    is, so the view never scrolls past the content. *)
Theorem wheel_scroll_is_clamped (rect : DOMRect) (s : DrawingState)
  (e : WheelEvent) :
  ctrlKey e = false -> metaKey e = false ->
  exists s',
    handleWheel (Some rect) s e = Some s' /\
    zoom s' = zoom s /\ elements s' = elements s /\ history s' = history s /\
    (canPan (Some rect) s = false -> s' = s) /\
    (canPan (Some rect) s = true ->
     clampPan (Some rect) s' (panOffset s') = panOffset s' /\
     (viewH rect s < totalHeight s ->
      - (totalHeight s - viewH rect s) <= y (panOffset s') <= 0)).
Proof.
  intros Hc Hm. unfold handleWheel. rewrite Hc, Hm. cbn [orb].
  destruct (canPan (Some rect) s) eqn:Hpan; cbn [negb].
  - exists (set_panOffset
              (clampPan (Some rect) s
                 {| x := x (panOffset s);
                    y := y (panOffset s) - deltaY e / zoom s |}) s).
    split; [ reflexivity | ].
    split; [ reflexivity | ]. split; [ reflexivity | ].
    split; [ reflexivity | ].
    split; [ intros H; discriminate H | ].
    intros _. cbn [panOffset set_panOffset]. split.
    + rewrite clampPan_set_pan. apply clampPan_again.
    + intros Hover. unfold clampPan, getContentSize. cbn [y].
      rewrite (proj2 (Rleb_gt _ _) Hover). apply clamp_range. lra.
  - exists s. repeat split; intros; discriminate.
Qed.

Lemma wheel_scroll_is_clamped_witness :
  exists s',
    handleWheel (Some full_hd) initialState plain_wheel = Some s' /\
    zoom s' = zoom initialState /\ elements s' = elements initialState /\
    history s' = history initialState /\
    (canPan (Some full_hd) initialState = false -> s' = initialState) /\
    (canPan (Some full_hd) initialState = true ->
     clampPan (Some full_hd) s' (panOffset s') = panOffset s' /\
     (viewH full_hd initialState < totalHeight initialState ->
      - (totalHeight initialState - viewH full_hd initialState)
        <= y (panOffset s') <= 0)).
Proof.
  apply (wheel_scroll_is_clamped full_hd initialState plain_wheel); reflexivity.
Defined.

(** ** Gestures of the drawing tools *)

Lemma last_after {A} (l : list A) :
  forall a d : A, last (a :: l) d = last l a.
Proof.
  induction l as [| b l IH]; intros a d; [ reflexivity | ].
  change (last (a :: b :: l) d) with (last (b :: l) d).
  rewrite (IH b d), (IH b a). reflexivity.
Qed.

Lemma line_moves_draft (path : list Point) :
  forall (c : Canvas) (draft : DrawingElement) (p0 q : Point),
    isDrawing c = true ->
    currentElement c = Some draft ->
    points draft = [p0; q] ->
    exists c' draft',
      line_moves c path = Some c' /\
      doc c' = doc c /\ isDrawing c' = true /\ clickCount c' = clickCount c /\
      currentElement c' = Some draft' /\
      points draft' = [p0; last path q] /\
      id draft' = id draft /\ type draft' = type draft /\
      style draft' = style draft /\ layerId draft' = layerId draft /\
      (path = [] -> draft' = draft) /\
      (path <> [] ->
       measurements draft' =
         Some {| length := Some (distance p0 (last path q));
                 radius := None; angle := None |}).
Proof.
  induction path as [| m path IH]; intros c draft p0 q Hd Hc Hp.
  - exists c, draft. simpl. repeat split; try assumption; try reflexivity.
    intros H. contradiction.
  - cbn [line_moves]. unfold LineTool.handleMouseMove. rewrite Hd, Hc, Hp.
    cbn [nth_error]. rewrite clipToPageBounds_id.
    match goal with
    | |- context [line_moves ?c1 path] =>
        destruct (IH c1 _ p0 m Hd eq_refl eq_refl)
          as (c' & draft' & Hrun & Hdoc & Hdr & Hcc & Hcur & Hpts & Hid & Hty
              & Hst & Hl & Hnil & Hcons)
    end.
    exists c', draft'. split; [ exact Hrun | ].
    rewrite last_after.
    repeat split; try assumption.
    + intros H. discriminate H.
    + intros _. destruct path as [| m' path'].
      * rewrite (Hnil eq_refl). reflexivity.
      * apply Hcons. discriminate.
Qed.

(** X19.  A line gesture that starts on a page commits exactly one line:
    it runs from the pointer-down to the last pointer position, wherever
    that is, on the current layer; it carries the distance between the two
    as [measurements.length], unless the pointer never moved, in which
    case a line of no length and no measurement is committed.  The draft
    is gone afterwards. *)
Theorem line_gesture_commits_one_line (c : Canvas) (down : Point)
  (path : list Point) (now : string) :
  onSomePage (doc c) down ->
  exists c' el,
    line_gesture c down path now = Some c' /\
    elements (doc c') = elements (doc c) ++ [el] /\
    type el = type_line /\
    points el = [down; last path down] /\
    layerId el = currentLayerId (doc c) /\
    (path = [] -> measurements el = None) /\
    (path <> [] ->
     measurements el =
       Some {| length := Some (distance down (last path down));
               radius := None; angle := None |}) /\
    currentElement c' = None /\ isDrawing c' = false.
Proof.
  intros Hon. unfold line_gesture, LineTool.handleMouseDown.
  rewrite (proj2 (noPage_false _ _) Hon), clipToPageBounds_id.
  match goal with
  | |- context [line_moves ?c1 path] =>
      destruct (line_moves_draft path c1 _ down down eq_refl eq_refl eq_refl)
        as (c2 & draft & Hrun & Hdoc & Hdr & _ & Hcur & Hpts & _ & Hty & _ & Hl
            & Hnil & Hcons)
  end.
  rewrite Hrun. unfold LineTool.handleMouseUp, dispatch. rewrite Hdr, Hcur.
  cbn [drawingReducer]. eexists. exists draft.
  split; [ reflexivity | ]. cbn [doc setIsDrawing setCurrentElement elements
                                  set_elements currentElement isDrawing].
  rewrite Hdoc. cbn [doc setIsDrawing setCurrentElement].
  repeat split; try assumption.
  intros H. rewrite (Hnil H). reflexivity.
Qed.

Lemma line_gesture_commits_one_line_witness :
  exists c' el,
    line_gesture blank {| x := 100; y := 100 |}
      [ {| x := 150; y := 100 |}; {| x := 10; y := 10 |} ] "1" = Some c' /\
    elements (doc c') = elements (doc blank) ++ [el] /\
    type el = type_line /\
    points el =
      [ {| x := 100; y := 100 |};
        last [ {| x := 150; y := 100 |}; {| x := 10; y := 10 |} ]
          {| x := 100; y := 100 |} ] /\
    layerId el = currentLayerId (doc blank) /\
    ([ {| x := 150; y := 100 |}; {| x := 10; y := 10 |} ] = [] ->
     measurements el = None) /\
    ([ {| x := 150; y := 100 |}; {| x := 10; y := 10 |} ] <> [] ->
     measurements el =
       Some {| length :=
                 Some (distance {| x := 100; y := 100 |}
                         (last [ {| x := 150; y := 100 |}; {| x := 10; y := 10 |} ]
                            {| x := 100; y := 100 |}));
               radius := None; angle := None |}) /\
    currentElement c' = None /\ isDrawing c' = false.
Proof.
  apply (line_gesture_commits_one_line blank {| x := 100; y := 100 |}
           [ {| x := 150; y := 100 |}; {| x := 10; y := 10 |} ] "1").
  apply on_first_page; simpl; lra.
Defined.

Lemma nth_error_last {A} (l : list A) (a d : A) :
  nth_error (a :: l) (List.length (a :: l) - 1) = Some (last (a :: l) d).
Proof.
  revert a. induction l as [| b l IH]; intros a; [ reflexivity | ].
  change (last (a :: b :: l) d) with (last (b :: l) d).
  rewrite <- (IH b). simpl. rewrite Nat.sub_0_r. reflexivity.
Qed.

Lemma spaced_snoc (pts : list Point) (a d m : Point) :
  spaced (a :: pts) ->
  2 < distance (last (a :: pts) d) m ->
  spaced ((a :: pts) ++ [m]).
Proof.
  revert a. induction pts as [| b pts IH]; intros a Hs Hm.
  - simpl in *. tauto.
  - destruct Hs as [Hab Hs].
    change (last (a :: b :: pts) d) with (last (b :: pts) d) in Hm.
    split; [ assumption | ]. apply IH; assumption.
Qed.

Lemma freehand_moves_draft (path : list Point) :
  forall (c : Canvas) (draft : DrawingElement) (p0 : Point) (rest0 : list Point),
    isDrawing c = true ->
    currentElement c = Some draft ->
    points draft = p0 :: rest0 ->
    spaced (points draft) ->
    exists c' draft' ext,
      freehand_moves c path = Some c' /\
      doc c' = doc c /\ isDrawing c' = true /\
      currentElement c' = Some draft' /\
      points draft' = points draft ++ ext /\
      incl ext path /\
      spaced (points draft') /\
      type draft' = type draft /\
      (ext = [] ->
       forall m, In m path -> distance (last (points draft) p0) m <= 2).
Proof.
  induction path as [| m path IH]; intros c draft p0 rest0 Hd Hc Hp Hs.
  - exists c, draft, []. cbn [freehand_moves]. rewrite app_nil_r.
    repeat split; try assumption; try reflexivity.
    + apply incl_refl.
    + intros _ m [].
  - cbn [freehand_moves]. unfold FreehandTool.handleMouseMove.
    rewrite Hd, Hc. cbv beta iota zeta. rewrite clipToPageBounds_id, Hp.
    rewrite (nth_error_last rest0 p0 p0).
    fold (distance (last (p0 :: rest0) p0) m).
    destruct (Rltb 2 (distance (last (p0 :: rest0) p0) m)) eqn:Hfar.
    + apply Rltb_lt in Hfar.
      match goal with
      | |- context [freehand_moves ?c1 path] =>
          destruct (IH c1 (with_points draft ((p0 :: rest0) ++ [m])) p0
                      (rest0 ++ [m]) Hd eq_refl eq_refl)
            as (c' & draft' & ext & Hrun & Hdoc & Hdr & Hcur & Hpts & Hincl
                & Hsp & Hty & _)
      end.
      { cbn [points with_points]. apply (spaced_snoc rest0 p0 p0 m).
        - rewrite <- Hp. assumption.
        - assumption. }
      exists c', draft', (m :: ext).
      cbn [points with_points] in Hpts.
      repeat split; try assumption.
      * rewrite Hpts, <- app_assoc. reflexivity.
      * intros q [<- | Hq]; [ left; reflexivity | right; apply Hincl; assumption ].
      * intros H. discriminate H.
    + apply Rltb_ge in Hfar.
      destruct (IH c draft p0 rest0 Hd Hc Hp Hs)
        as (c' & draft' & ext & Hrun & Hdoc & Hdr & Hcur & Hpts & Hincl
            & Hsp & Hty & Hnear).
      exists c', draft', ext. rewrite Hp in *.
      repeat split; try assumption.
      * intros q Hq. right. apply Hincl. assumption.
      * intros He q [<- | Hq]; [ assumption | apply Hnear; assumption ].
Qed.

(** X20.  A freehand gesture that starts on a page either commits one
    stroke or commits nothing.  A committed stroke starts at the
    pointer-down, continues with pointer positions of the gesture, and any
    two consecutive points of it are more than two pixels apart.  Nothing
    is committed only when every pointer position stayed within two pixels
    of the pointer-down, and then the tool is left drawing. *)
Theorem freehand_stroke_is_decimated (c : Canvas) (down : Point)
  (path : list Point) (now : string) :
  onSomePage (doc c) down ->
  exists c',
    freehand_gesture c down path now = Some c' /\
    ((exists el rest,
        elements (doc c') = elements (doc c) ++ [el] /\
        type el = type_freehand /\
        points el = down :: rest /\ rest <> [] /\ incl rest path /\
        spaced (points el) /\
        currentElement c' = None /\ isDrawing c' = false)
     \/
     (elements (doc c') = elements (doc c) /\
      (forall m, In m path -> distance down m <= 2) /\
      isDrawing c' = true)).
Proof.
  intros Hon. unfold freehand_gesture, FreehandTool.handleMouseDown.
  rewrite (proj2 (noPage_false _ _) Hon), clipToPageBounds_id.
  match goal with
  | |- context [freehand_moves ?c1 path] =>
      destruct (freehand_moves_draft path c1 _ down [] eq_refl eq_refl eq_refl I)
        as (c2 & draft & ext & Hrun & Hdoc & Hdr & Hcur & Hpts & Hincl & Hsp
            & Hty & Hnear)
  end.
  rewrite Hrun. unfold FreehandTool.handleMouseUp, dispatch.
  rewrite Hdr, Hcur, Hpts. cbn [points app List.length].
  destruct ext as [| m ext].
  - exists c2. split; [ reflexivity | ]. right.
    rewrite Hdoc. split; [ reflexivity | ].
    split; [ | assumption ].
    intros m Hm. apply (Hnear eq_refl m Hm).
  - cbn [List.length Nat.ltb Nat.leb drawingReducer].
    eexists. split; [ reflexivity | ]. left.
    exists draft, (m :: ext).
    cbn [doc setIsDrawing setCurrentElement elements set_elements
         currentElement isDrawing].
    rewrite Hdoc. cbn [doc setIsDrawing setCurrentElement].
    repeat split; try assumption.
    intros H. discriminate H.
Qed.

Lemma freehand_stroke_is_decimated_witness :
  exists c',
    freehand_gesture blank {| x := 100; y := 100 |}
      [ {| x := 101; y := 100 |}; {| x := 110; y := 100 |} ] "1" = Some c' /\
    ((exists el rest,
        elements (doc c') = elements (doc blank) ++ [el] /\
        type el = type_freehand /\
        points el = {| x := 100; y := 100 |} :: rest /\ rest <> [] /\
        incl rest [ {| x := 101; y := 100 |}; {| x := 110; y := 100 |} ] /\
        spaced (points el) /\
        currentElement c' = None /\ isDrawing c' = false)
     \/
     (elements (doc c') = elements (doc blank) /\
      (forall m,
         In m [ {| x := 101; y := 100 |}; {| x := 110; y := 100 |} ] ->
         distance {| x := 100; y := 100 |} m <= 2) /\
      isDrawing c' = true)).
Proof.
  apply (freehand_stroke_is_decimated blank {| x := 100; y := 100 |}
           [ {| x := 101; y := 100 |}; {| x := 110; y := 100 |} ] "1").
  apply on_first_page; simpl; lra.
Defined.

Lemma angle_events_app (es1 es2 : list PointerEvent) :
  forall c,
    angle_events c (es1 ++ es2) =
    match angle_events c es1 with
    | Some c' => angle_events c' es2
    | None => None
    end.
Proof.
  induction es1 as [| e es1 IH]; intros c; simpl; [ reflexivity | ].
  destruct (angle_event c e); [ apply IH | reflexivity ].
Qed.

(** Pointer-moves between the first and the second click: the draft keeps
    the first point and follows the pointer with a second one. *)
Lemma angle_preview_baseline (moves : list Point) :
  forall (c : Canvas) (draft : DrawingElement) (a : Point) (rest : list Point),
    clickCount c = 1%nat ->
    currentElement c = Some draft ->
    points draft = a :: rest ->
    exists c' draft',
      angle_events c (map Move moves) = Some c' /\
      doc c' = doc c /\ clickCount c' = 1%nat /\
      currentElement c' = Some draft' /\
      type draft' = type draft /\
      (moves = [] -> draft' = draft) /\
      (moves <> [] -> points draft' = [a; last moves a]).
Proof.
  induction moves as [| m moves IH]; intros c draft a rest Hn Hc Hp.
  - exists c, draft. simpl. repeat split; try assumption; try reflexivity.
    intros H. contradiction.
  - cbn [map angle_events angle_event]. unfold AngleTool.handleMouseMove.
    rewrite Hc, Hn, Hp. cbn [Nat.eqb nth_error]. rewrite clipToPageBounds_id.
    match goal with
    | |- context [angle_events ?c1 (map Move moves)] =>
        destruct (IH c1 _ a [m] Hn eq_refl eq_refl)
          as (c' & draft' & Hrun & Hdoc & Hcc & Hcur & Hty & Hnil & Hcons)
    end.
    exists c', draft'. rewrite last_after.
    repeat split; try assumption.
    + intros H. discriminate H.
    + intros _. destruct moves as [| m' moves'].
      * rewrite (Hnil eq_refl). reflexivity.
      * rewrite Hcons by discriminate.
        rewrite (last_after moves' m' a), (last_after moves' m' m). reflexivity.
Qed.

(** Pointer-moves between the second and the third click: the draft keeps
    its first two points and follows the pointer with a third one. *)
Lemma angle_preview_sweep (moves : list Point) :
  forall (c : Canvas) (draft : DrawingElement) (a v : Point) (rest : list Point),
    clickCount c = 2%nat -> isDrawing c = true ->
    currentElement c = Some draft ->
    points draft = a :: v :: rest ->
    exists c' draft',
      angle_events c (map Move moves) = Some c' /\
      doc c' = doc c /\ clickCount c' = 2%nat /\
      currentElement c' = Some draft' /\
      type draft' = type draft /\
      (moves = [] -> draft' = draft) /\
      (moves <> [] -> points draft' = [a; v; last moves a]).
Proof.
  induction moves as [| m moves IH]; intros c draft a v rest Hn Hd Hc Hp.
  - exists c, draft. simpl. repeat split; try assumption; try reflexivity.
    intros H. contradiction.
  - cbn [map angle_events angle_event]. unfold AngleTool.handleMouseMove.
    rewrite Hc, Hn, Hd, Hp. cbn [Nat.eqb nth_error andb].
    rewrite clipToPageBounds_id.
    match goal with
    | |- context [angle_events ?c1 (map Move moves)] =>
        destruct (IH c1 _ a v [m] Hn Hd eq_refl eq_refl)
          as (c' & draft' & Hrun & Hdoc & Hcc & Hcur & Hty & Hnil & Hcons)
    end.
    exists c', draft'. rewrite last_after.
    repeat split; try assumption.
    + intros H. discriminate H.
    + intros _. destruct moves as [| m' moves'].
      * rewrite (Hnil eq_refl). reflexivity.
      * rewrite Hcons by discriminate.
        rewrite (last_after moves' m' a), (last_after moves' m' m). reflexivity.
Qed.

(** X21.  Three clicks on pages with no pointer-move between them commit an
    angle of three points, the clicked ones.  With pointer-moves before the
    second and before the third click the committed angle has four points:
    the first click, the last pointer position before the second click
    (the vertex the angle is measured around), the last pointer position
    before the third click, and the third click.  The position of the
    second click is not stored. *)
Theorem angle_drawn_with_pointer_moves (c : Canvas) (a b d m1 m2 : Point)
  (r1 r2 : list Point) (n1 n2 n3 : string) :
  clickCount c = 0%nat ->
  onSomePage (doc c) a -> onSomePage (doc c) b -> onSomePage (doc c) d ->
  (exists c' el,
     angle_events c [Click a n1; Click b n2; Click d n3] = Some c' /\
     elements (doc c') = elements (doc c) ++ [el] /\
     points el = [a; b; d] /\
     measurements el =
       Some {| length := None; radius := None;
               angle := Some (sweep a b d) |}) /\
  (exists c' el,
     angle_events c
       ([Click a n1] ++ map Move (m1 :: r1) ++ [Click b n2]
        ++ map Move (m2 :: r2) ++ [Click d n3]) = Some c' /\
     elements (doc c') = elements (doc c) ++ [el] /\
     type el = type_angle /\
     points el = [a; last (m1 :: r1) a; last (m2 :: r2) a; d] /\
     measurements el =
       Some {| length := None; radius := None;
               angle := Some (sweep a (last (m1 :: r1) a) d) |} /\
     currentElement c' = None /\ clickCount c' = 0%nat).
Proof.
  intros Hn Ha Hb Hd.
  apply noPage_false in Ha, Hb, Hd.
  split.
  - cbn [angle_events angle_event]. unfold AngleTool.handleMouseDown at 1.
    rewrite Ha, Hn. cbn [Nat.eqb]. rewrite clipToPageBounds_id.
    unfold AngleTool.handleMouseDown at 1.
    cbn [doc setClickCount setCurrentElement clickCount currentElement].
    rewrite Hb. cbn [Nat.eqb points app]. rewrite clipToPageBounds_id.
    unfold AngleTool.handleMouseDown, dispatch.
    cbn [doc setClickCount setCurrentElement setIsDrawing clickCount
         currentElement].
    rewrite Hd. cbn [Nat.eqb points with_points nth_error drawingReducer].
    rewrite clipToPageBounds_id.
    eexists. eexists. split; [ reflexivity | ].
    repeat split.
  - rewrite angle_events_app. cbn [angle_events angle_event].
    unfold AngleTool.handleMouseDown at 1.
    rewrite Ha, Hn. cbn [Nat.eqb]. rewrite clipToPageBounds_id.
    rewrite angle_events_app.
    match goal with
    | |- context [angle_events ?c1 (map Move (m1 :: r1))] =>
        destruct (angle_preview_baseline (m1 :: r1) c1 _ a [] eq_refl eq_refl
                    eq_refl)
          as (c2 & draft2 & Hrun2 & Hdoc2 & Hcc2 & Hcur2 & Hty2 & _ & Hpts2)
    end.
    rewrite Hrun2. specialize (Hpts2 ltac:(discriminate)).
    rewrite angle_events_app. cbn [angle_events angle_event].
    unfold AngleTool.handleMouseDown at 1.
    rewrite Hdoc2. cbn [doc setClickCount setCurrentElement].
    rewrite Hb, Hcc2, Hcur2. cbn [Nat.eqb]. rewrite clipToPageBounds_id.
    rewrite angle_events_app.
    match goal with
    | |- context [angle_events ?c3 (map Move (m2 :: r2))] =>
        destruct (angle_preview_sweep (m2 :: r2) c3 _ a (last (m1 :: r1) a) [b]
                    eq_refl eq_refl eq_refl)
          as (c4 & draft4 & Hrun4 & Hdoc4 & Hcc4 & Hcur4 & Hty4 & _ & Hpts4)
    end.
    { cbn [points with_points]. rewrite Hpts2. reflexivity. }
    rewrite Hrun4. specialize (Hpts4 ltac:(discriminate)).
    cbn [angle_events angle_event].
    unfold AngleTool.handleMouseDown, dispatch.
    rewrite Hdoc4. cbn [doc setClickCount setCurrentElement setIsDrawing].
    rewrite Hdoc2. cbn [doc setClickCount setCurrentElement].
    rewrite Hd, Hcc4, Hcur4, Hpts4.
    cbn [Nat.eqb nth_error drawingReducer]. rewrite clipToPageBounds_id.
    eexists. eexists. split; [ reflexivity | ].
    cbn [doc setClickCount setCurrentElement setIsDrawing elements set_elements
         currentElement clickCount points with_points_measurements type
         measurements app].
    repeat split.
    transitivity (type draft4); [ reflexivity | ].
    rewrite Hty4. transitivity (type draft2); [ reflexivity | exact Hty2 ].
Qed.

Lemma angle_drawn_with_pointer_moves_witness :
  (exists c' el,
     angle_events blank
       [Click {| x := 100; y := 100 |} "1"; Click {| x := 200; y := 100 |} "2";
        Click {| x := 200; y := 200 |} "3"] = Some c' /\
     elements (doc c') = elements (doc blank) ++ [el] /\
     points el =
       [ {| x := 100; y := 100 |}; {| x := 200; y := 100 |};
         {| x := 200; y := 200 |} ] /\
     measurements el =
       Some {| length := None; radius := None;
               angle := Some (sweep {| x := 100; y := 100 |}
                                {| x := 200; y := 100 |}
                                {| x := 200; y := 200 |}) |}) /\
  (exists c' el,
     angle_events blank
       ([Click {| x := 100; y := 100 |} "1"]
        ++ map Move ({| x := 150; y := 100 |} :: [ {| x := 190; y := 101 |} ])
        ++ [Click {| x := 200; y := 100 |} "2"]
        ++ map Move ({| x := 200; y := 150 |} :: [ {| x := 201; y := 190 |} ])
        ++ [Click {| x := 200; y := 200 |} "3"]) = Some c' /\
     elements (doc c') = elements (doc blank) ++ [el] /\
     type el = type_angle /\
     points el =
       [ {| x := 100; y := 100 |};
         last ({| x := 150; y := 100 |} :: [ {| x := 190; y := 101 |} ])
           {| x := 100; y := 100 |};
         last ({| x := 200; y := 150 |} :: [ {| x := 201; y := 190 |} ])
           {| x := 100; y := 100 |};
         {| x := 200; y := 200 |} ] /\
     measurements el =
       Some {| length := None; radius := None;
               angle :=
                 Some (sweep {| x := 100; y := 100 |}
                         (last ({| x := 150; y := 100 |}
                                  :: [ {| x := 190; y := 101 |} ])
                            {| x := 100; y := 100 |})
                         {| x := 200; y := 200 |}) |} /\
     currentElement c' = None /\ clickCount c' = 0%nat).
Proof.
  apply (angle_drawn_with_pointer_moves blank
           {| x := 100; y := 100 |} {| x := 200; y := 100 |}
           {| x := 200; y := 200 |}).
  - reflexivity.
  - apply on_first_page; simpl; lra.
  - apply on_first_page; simpl; lra.
  - apply on_first_page; simpl; lra.
Defined.

(** *** The eraser and the layers *)

Lemma filter_filter_and {A} (f g : A -> bool) (l : list A) :
  filter g (filter f l) = filter (fun a => f a && g a) l.
Proof.
  induction l as [| a l IH]; simpl; [ reflexivity | ].
  destruct (f a); simpl; [ | exact IH ].
  destruct (g a); [ rewrite IH; reflexivity | exact IH ].
Qed.

Lemma filter_all {A} (l : list A) : filter (fun _ => true) l = l.
Proof.
  induction l as [| a l IH]; simpl; [ | rewrite IH ]; reflexivity.
Qed.

(** Whatever the eraser picks is an element on a visible, unlocked layer. *)
Lemma erased_unprotected (s : DrawingState) (point : Point) (i : string) :
  In i (EraserTool.findElementsToErase s point) ->
  exists el, In el (elements s) /\ id el = i /\ ~ protected s el.
Proof.
  unfold EraserTool.findElementsToErase. rewrite in_map_iff.
  intros (el & Hid & Hin). apply filter_In in Hin. destruct Hin as [Hin Hpick].
  exists el. split; [ assumption | ]. split; [ assumption | ].
  unfold protected.
  destruct (find (fun l => String.eqb (layer_id l) (layerId el)) (layers s))
    as [layer |]; [ | discriminate ].
  destruct (visible layer), (locked layer); simpl in Hpick; try discriminate.
  intros [H | H]; discriminate.
Qed.

Lemma protected_layers (s s' : DrawingState) (el : DrawingElement) :
  layers s' = layers s -> protected s' el <-> protected s el.
Proof. unfold protected. intros ->. reflexivity. Qed.

Lemma spared_refl (c0 : Canvas) : spared c0 c0.
Proof.
  split; [ reflexivity | ]. split.
  - exists (fun _ => true). symmetry. apply filter_all.
  - intros _ el H _. exact H.
Qed.

Lemma spared_setIsDrawing (c0 : Canvas) (b : bool) (c : Canvas) :
  spared c0 c -> spared c0 (setIsDrawing b c).
Proof. intros H. exact H. Qed.

Lemma eraseAt_spared (c0 c : Canvas) (point : Point) :
  spared c0 c ->
  exists c', EraserTool.eraseAt c point = Some c' /\
             isDrawing c' = isDrawing c /\ spared c0 c'.
Proof.
  intros (Hl & (keep & He) & Hp).
  unfold EraserTool.eraseAt.
  destruct (0 <? List.length (EraserTool.findElementsToErase (doc c) point))%nat.
  - unfold dispatch. cbn [drawingReducer]. eexists. split; [ reflexivity | ].
    split; [ reflexivity | ]. cbn [doc].
    split; [ exact Hl | ]. split.
    + eexists. cbn [elements set_elements]. rewrite He. apply filter_filter_and.
    + intros distinct_ids el Hin Hprot. cbn [elements set_elements].
      apply filter_In. split; [ apply Hp; assumption | ].
      apply negb_true_iff.
      destruct (includes (EraserTool.findElementsToErase (doc c) point) (id el))
        eqn:Hinc; [ exfalso | reflexivity ].
      apply includes_In, erased_unprotected in Hinc.
      destruct Hinc as (el' & Hin' & Hid & Hnot).
      assert (el' = el) as ->.
      { rewrite He in Hin'. apply filter_In in Hin'. destruct Hin' as [Hin' _].
        clear - distinct_ids Hin Hin' Hid.
        induction (elements (doc c0)) as [| e l IH]; [ contradiction | ].
        simpl in distinct_ids. inversion distinct_ids as [| ? ? Hfresh Hrest]; subst.
        destruct Hin as [-> | Hin], Hin' as [-> | Hin'].
        - reflexivity.
        - exfalso. apply Hfresh. rewrite <- Hid. apply in_map. assumption.
        - exfalso. apply Hfresh. rewrite Hid. apply in_map. assumption.
        - apply IH; assumption. }
      apply Hnot. apply (protected_layers (doc c0) (doc c)); assumption.
  - exists c. split; [ reflexivity | ]. split; [ reflexivity | ].
    split; [ exact Hl | ]. split; [ exists keep; exact He | exact Hp ].
Qed.

Lemma eraser_moves_spared (c0 : Canvas) (path : list Point) :
  forall c, spared c0 c ->
    exists c', EraserTool.moves c path = Some c' /\
               isDrawing c' = isDrawing c /\ spared c0 c'.
Proof.
  induction path as [| p path IH]; intros c Hs.
  - exists c. split; [ reflexivity | ]. split; [ reflexivity | exact Hs ].
  - cbn [EraserTool.moves]. unfold EraserTool.handleMouseMove.
    destruct (negb (isDrawing c)); [ apply IH; exact Hs | ].
    destruct (noPage (getPageAtPoint (doc c) p)); [ apply IH; exact Hs | ].
    destruct (eraseAt_spared c0 c p Hs) as (c1 & -> & Hd & Hs1).
    destruct (IH c1 Hs1) as (c' & Hrun & Hd' & Hs').
    exists c'. split; [ exact Hrun | ]. split; [ congruence | exact Hs' ].
Qed.

Lemma eraser_up_spared (c0 c : Canvas) :
  spared c0 c ->
  exists c', EraserTool.handleMouseUp c = Some c' /\ spared c0 c'.
Proof.
  intros Hs. unfold EraserTool.handleMouseUp.
  destruct (isDrawing c).
  - unfold dispatch. cbn [drawingReducer]. eexists. split; [ reflexivity | ].
    exact Hs.
  - eexists. split; [ reflexivity | ]. exact Hs.
Qed.

Lemma eraser_gesture_spared (c0 : Canvas) (down : Point) (path : list Point) :
  exists c', EraserTool.gesture c0 down path = Some c' /\ spared c0 c'.
Proof.
  unfold EraserTool.gesture, EraserTool.handleMouseDown.
  destruct (noPage (getPageAtPoint (doc c0) down)).
  - destruct (eraser_moves_spared c0 path c0 (spared_refl c0))
      as (c2 & -> & _ & Hs2).
    apply eraser_up_spared. exact Hs2.
  - destruct (eraseAt_spared c0 c0 down (spared_refl c0)) as (c1 & -> & _ & Hs1).
    destruct (eraser_moves_spared c0 path (setIsDrawing true c1)
                (spared_setIsDrawing c0 true c1 Hs1)) as (c2 & -> & _ & Hs2).
    apply eraser_up_spared. exact Hs2.
Qed.

(** X22.  An eraser gesture never throws, leaves the layers alone and only
    removes elements: what is left is the old element list, in order,
    with some elements dropped.  When the element ids are distinct, every
    element whose layer is hidden, locked or missing survives the gesture,
    wherever the pointer went. *)
Theorem eraser_spares_protected_layers (c : Canvas) (down : Point)
  (path : list Point) :
  exists c',
    EraserTool.gesture c down path = Some c' /\
    layers (doc c') = layers (doc c) /\
    (exists keep, elements (doc c') = filter keep (elements (doc c))) /\
    (NoDup (map id (elements (doc c))) ->
     forall el, In el (elements (doc c)) -> protected (doc c) el ->
                In el (elements (doc c'))).
Proof.
  destruct (eraser_gesture_spared c down path) as (c' & Hrun & Hs).
  exists c'. split; [ exact Hrun | exact Hs ].
Qed.

(** *** The selection tool *)

Lemma same_id_same_element (l : list DrawingElement) (a b : DrawingElement) :
  NoDup (map id l) -> In a l -> In b l -> id a = id b -> a = b.
Proof.
  induction l as [| e l IH]; intros Hnd Ha Hb Hid; [ contradiction | ].
  simpl in Hnd. inversion Hnd as [| ? ? Hfresh Hrest]; subst.
  destruct Ha as [-> | Ha], Hb as [-> | Hb].
  - reflexivity.
  - exfalso. apply Hfresh. rewrite Hid. apply in_map. assumption.
  - exfalso. apply Hfresh. rewrite <- Hid. apply in_map. assumption.
  - apply IH; assumption.
Qed.

Lemma translate_zero (p : Point) : translate 0 0 p = p.
Proof. destruct p as [px py]. unfold translate. simpl. f_equal; lra. Qed.

Lemma translate_translate (a b a' b' : R) (p : Point) :
  translate a' b' (translate a b p) = translate (a + a') (b + b') p.
Proof. unfold translate. simpl. f_equal; lra. Qed.

Lemma with_points_same (e : DrawingElement) : with_points e (points e) = e.
Proof. destruct e. reflexivity. Qed.

Lemma dragged_nowhere (el : DrawingElement) (els : list DrawingElement) :
  dragged el 0 0 els = els.
Proof.
  unfold dragged. induction els as [| e l IH]; simpl; [ reflexivity | ].
  rewrite IH. destruct (String.eqb (id e) (id el)); [ | reflexivity ].
  rewrite (map_ext _ (fun p => p) translate_zero), map_id, with_points_same.
  reflexivity.
Qed.

(** Looking the dragged element up by its id finds it, moved. *)
Lemma find_dragged (el : DrawingElement) (dx dy : R)
  (els : list DrawingElement) :
  NoDup (map id els) -> In el els ->
  find (fun e => String.eqb (id e) (id el)) (dragged el dx dy els)
  = Some (with_points el (map (translate dx dy) (points el))).
Proof.
  unfold dragged. induction els as [| e l IH]; intros Hnd Hin; [ contradiction | ].
  cbn [map find].
  destruct (String.eqb_spec (id e) (id el)) as [He | He].
  - cbn [id with_points]. rewrite He, String.eqb_refl.
    rewrite (same_id_same_element (e :: l) e el Hnd (or_introl eq_refl) Hin He).
    reflexivity.
  - destruct (String.eqb_spec (id e) (id el)); [ contradiction | ].
    inversion Hnd; subst. destruct Hin as [-> | Hin]; [ contradiction | ].
    apply IH; assumption.
Qed.

(** Moving the dragged element once more adds the two displacements. *)
Lemma dragged_again (el : DrawingElement) (dx dy dx' dy' : R)
  (els : list DrawingElement) :
  NoDup (map id els) -> In el els ->
  map (fun e => if String.eqb (id e) (id el)
                then spread_element e
                       (points_only
                          (map (translate dx' dy')
                             (map (translate dx dy) (points el))))
                else e)
    (dragged el dx dy els)
  = dragged el (dx + dx') (dy + dy') els.
Proof.
  intros Hnd Hin. unfold dragged. rewrite map_map. apply map_ext_in.
  intros e He.
  destruct (String.eqb_spec (id e) (id el)) as [Hid | Hid].
  - cbn [id with_points]. destruct (String.eqb_spec (id e) (id el));
      [ | contradiction ].
    rewrite (same_id_same_element els e el Hnd He Hin Hid).
    unfold spread_element, points_only, with_points, merge. cbn.
    f_equal. rewrite map_map. apply map_ext. intros p.
    apply translate_translate.
  - destruct (String.eqb_spec (id e) (id el)); [ contradiction | reflexivity ].
Qed.

Lemma select_moves_drag (el : DrawingElement) (down : Point)
  (els : list DrawingElement) (path : list Point) :
  NoDup (map id els) -> In el els ->
  forall (t : SelectTool.State) (cur : Point),
    elements (SelectTool.doc t)
      = dragged el (x cur - x down) (y cur - y down) els ->
    selectedElementIds (SelectTool.doc t) = [id el] ->
    SelectTool.dragStart t = Some cur ->
    SelectTool.isDragging t = true ->
    exists t',
      SelectTool.moves t path = Some t' /\
      elements (SelectTool.doc t')
        = dragged el (x (last path cur) - x down) (y (last path cur) - y down)
            els /\
      selectedElementIds (SelectTool.doc t') = [id el] /\
      SelectTool.isDragging t' = true /\
      history (SelectTool.doc t') = history (SelectTool.doc t) /\
      historyIndex (SelectTool.doc t') = historyIndex (SelectTool.doc t) /\
      layers (SelectTool.doc t') = layers (SelectTool.doc t).
Proof.
  intros Hnd Hin. induction path as [| m path IH]; intros t cur He Hs Hd Hg.
  - exists t. simpl. repeat split; assumption.
  - cbn [SelectTool.moves]. unfold SelectTool.handleMouseMove.
    rewrite Hd, Hg, Hs. cbn [negb List.length Nat.eqb orb].
    unfold SelectTool.moveSelected. rewrite Hs. cbn [fold_left].
    rewrite He, find_dragged by assumption.
    cbn [points with_points drawingReducer]. rewrite He.
    rewrite dragged_again by assumption.
    replace (x cur - x down + (x m - x cur)) with (x m - x down) by lra.
    replace (y cur - y down + (y m - y cur)) with (y m - y down) by lra.
    match goal with
    | |- context [SelectTool.moves ?t1 path] =>
        destruct (IH t1 m) as (t' & Hrun & He' & Hs' & Hg' & Hh' & Hi' & Hl')
    end; try reflexivity; try assumption.
    exists t'. rewrite last_after.
    repeat split; assumption.
Qed.

(** X23.  A drag with the selection tool that starts on an element moves
    that element by the displacement from the pointer-down position to the
    last pointer position, wherever the pointer went in between and without
    keeping it on a page; every other element stays as it is.  The element
    remains the only selected one, the drag records one checkpoint (also
    when the pointer did not move), and when the history cursor was on the
    current elements, one UNDO puts the element back. *)
Theorem drag_moves_the_clicked_element (t : SelectTool.State)
  (el : DrawingElement) (down : Point) (path : list Point) :
  NoDup (map id (elements (SelectTool.doc t))) ->
  SelectTool.findElementAtPoint (SelectTool.doc t) down = Some el ->
  exists t',
    SelectTool.gesture t down path = Some t' /\
    elements (SelectTool.doc t')
      = dragged el (x (last path down) - x down) (y (last path down) - y down)
          (elements (SelectTool.doc t)) /\
    selectedElementIds (SelectTool.doc t') = [id el] /\
    historyIndex (SelectTool.doc t')
      = (historyIndex (SelectTool.doc t) + 1)%nat /\
    SelectTool.isDragging t' = false /\ SelectTool.dragStart t' = None /\
    (cursor_in_range (SelectTool.doc t) ->
     cursor_is_current (SelectTool.doc t) ->
     exists s, drawingReducer (SelectTool.doc t') UNDO = Some s /\
               elements s = elements (SelectTool.doc t)).
Proof.
  intros Hnd Hfind.
  assert (Hin : In el (elements (SelectTool.doc t))).
  { unfold SelectTool.findElementAtPoint in Hfind.
    apply find_some in Hfind. apply in_rev. tauto. }
  unfold SelectTool.gesture, SelectTool.handleMouseDown.
  rewrite Hfind. cbn [drawingReducer].
  match goal with
  | |- context [SelectTool.moves ?t1 path] =>
      destruct (select_moves_drag el down (elements (SelectTool.doc t)) path
                  Hnd Hin t1 down)
        as (t2 & Hrun & He & Hs & Hg & Hh & Hi & _)
  end; try reflexivity.
  { cbn [SelectTool.doc elements set_selectedElementIds].
    rewrite !Rminus_diag. symmetry. apply dragged_nowhere. }
  rewrite Hrun. unfold SelectTool.handleMouseUp.
  rewrite Hg, Hs. cbn [List.length]. change (0 <? 1)%nat with true.
  cbn [andb drawingReducer].
  eexists. split; [ reflexivity | ].
  cbn [SelectTool.doc SelectTool.isDragging SelectTool.dragStart elements
       set_history set_historyIndex selectedElementIds historyIndex history].
  cbn [SelectTool.doc history historyIndex set_selectedElementIds] in Hh, Hi.
  split; [ exact He | ]. split; [ exact Hs | ].
  split; [ rewrite Hi; reflexivity | ].
  split; [ reflexivity | ]. split; [ reflexivity | ].
  intros Hrange Hcur. unfold cursor_in_range, cursor_is_current in *.
  rewrite Hi, Hh.
  destruct (Nat.ltb_spec 0 (historyIndex (SelectTool.doc t) + 1)); [ | lia ].
  replace (historyIndex (SelectTool.doc t) + 1 - 1)%nat
    with (historyIndex (SelectTool.doc t)) by lia.
  rewrite kept_truncated by (lia || assumption).
  rewrite Hcur. eexists. split; reflexivity.
Qed.

(** *** The hit test *)

(** The squared distance from the point at [A], [B] to the point of the
    segment along [C], [D] at the fraction [t]. *)
Lemma squared_distance_along (A B C D s t : R) :
  (A - t * C) * (A - t * C) + (B - t * D) * (B - t * D)
  = (A - s * C) * (A - s * C) + (B - s * D) * (B - s * D)
    + (t - s) * ((t + s) * (C * C + D * D) - 2 * (A * C + B * D)).
Proof. ring. Qed.

Lemma nearest_on_segment (A B C D t : R) :
  0 <= t <= 1 ->
  let lenSq := C * C + D * D in
  let param := (A * C + B * D) / lenSq in
  lenSq <> 0 ->
  let s := if Rltb param 0 then 0 else if Rltb 1 param then 1 else param in
  0 <= s <= 1 /\
  (A - s * C) * (A - s * C) + (B - s * D) * (B - s * D)
  <= (A - t * C) * (A - t * C) + (B - t * D) * (B - t * D).
Proof.
  intros Ht lenSq param Hlen s.
  assert (Hpos : 0 < lenSq).
  { unfold lenSq in *. assert (0 <= C * C) by nra. assert (0 <= D * D) by nra.
    lra. }
  assert (Hdot : A * C + B * D = param * lenSq).
  { unfold param. field. exact Hlen. }
  rewrite (squared_distance_along A B C D s t).
  fold lenSq. rewrite Hdot. unfold s.
  destruct (Rltb param 0) eqn:Hlo.
  - apply Rltb_lt in Hlo. split; [ lra | ].
    assert (0 <= (t - 0) * ((t + 0) * lenSq - 2 * (param * lenSq))); [ | lra ].
    replace ((t - 0) * ((t + 0) * lenSq - 2 * (param * lenSq)))
      with (t * lenSq * (t - 2 * param)) by ring.
    apply Rmult_le_pos; [ apply Rmult_le_pos | ]; lra.
  - apply Rltb_ge in Hlo. destruct (Rltb 1 param) eqn:Hhi.
    + apply Rltb_lt in Hhi. split; [ lra | ].
      assert (0 <= (t - 1) * ((t + 1) * lenSq - 2 * (param * lenSq))); [ | lra ].
      replace ((t - 1) * ((t + 1) * lenSq - 2 * (param * lenSq)))
        with ((1 - t) * lenSq * (2 * param - t - 1)) by ring.
      apply Rmult_le_pos; [ apply Rmult_le_pos | ]; lra.
    + apply Rltb_ge in Hhi. split; [ lra | ].
      assert (0 <= (t - param) * ((t + param) * lenSq - 2 * (param * lenSq)));
        [ | lra ].
      replace ((t - param) * ((t + param) * lenSq - 2 * (param * lenSq)))
        with (lenSq * ((t - param) * (t - param))) by ring.
      apply Rmult_le_pos; [ lra | apply Rle_0_sqr ].
Qed.

Lemma distance_along (p a b : Point) (t : R) :
  distance p (along a b t)
  = sqrt ((x p - x a - t * (x b - x a)) * (x p - x a - t * (x b - x a))
          + (y p - y a - t * (y b - y a)) * (y p - y a - t * (y b - y a))).
Proof.
  unfold distance, along, Math_pow2. cbn [x y]. f_equal. ring.
Qed.

Lemma select_near_spec (p a b : Point) (threshold : R) :
  SelectTool.isPointNearLine p a b threshold = true <->
  exists t, 0 <= t <= 1 /\ distance p (along a b t) <= threshold.
Proof.
  unfold SelectTool.isPointNearLine.
  set (A := x p - x a). set (B := y p - y a).
  set (C := x b - x a). set (D := y b - y a).
  assert (Hd : forall t, distance p (along a b t)
                         = sqrt ((A - t * C) * (A - t * C)
                                 + (B - t * D) * (B - t * D))).
  { intros t. apply distance_along. }
  destruct (Reqb (C * C + D * D) 0) eqn:Hz.
  - apply Reqb_eq in Hz.
    assert (HC : C = 0) by nra. assert (HD : D = 0) by nra.
    rewrite Rleb_le. split.
    + intros H. exists 0. split; [ lra | ]. rewrite Hd.
      replace ((A - 0 * C) * (A - 0 * C) + (B - 0 * D) * (B - 0 * D))
        with (A * A + B * B) by ring.
      exact H.
    + intros (t & _ & H). rewrite Hd, HC, HD in H.
      replace ((A - t * 0) * (A - t * 0) + (B - t * 0) * (B - t * 0))
        with (A * A + B * B) in H by ring.
      exact H.
  - apply Reqb_neq in Hz.
    set (param := (A * C + B * D) / (C * C + D * D)).
    set (s := if Rltb param 0 then 0 else if Rltb 1 param then 1 else param).
    assert (Hown :
      (let (xx, yy) :=
         if Rltb param 0 then (x a, y a)
         else if Rltb 1 param then (x b, y b)
         else (x a + param * C, y a + param * D) in
       Rleb (sqrt ((x p - xx) * (x p - xx) + (y p - yy) * (y p - yy)))
         threshold)
      = Rleb (sqrt ((A - s * C) * (A - s * C) + (B - s * D) * (B - s * D)))
          threshold).
    { unfold s. destruct (Rltb param 0); [ | destruct (Rltb 1 param) ];
        f_equal; f_equal; unfold A, B, C, D; ring. }
    rewrite Hown, Rleb_le. split.
    + intros H. exists s. split.
      * apply (nearest_on_segment A B C D 0); [ lra | exact Hz ].
      * rewrite Hd. exact H.
    + intros (t & Ht & H). rewrite Hd in H.
      apply Rle_trans with (2 := H). apply sqrt_le_1_alt.
      apply (nearest_on_segment A B C D t Ht Hz).
Qed.

(** X24.  The hit test of the selection tool and of the eraser is the
    distance to the segment: a point is near a line exactly when some point
    of the segment between the two ends lies within the threshold of it.
    The two tools use the same test. *)
Theorem hit_test_is_distance_to_segment (p a b : Point) (threshold : R) :
  (SelectTool.isPointNearLine p a b threshold = true <->
   exists t, 0 <= t <= 1 /\ distance p (along a b t) <= threshold) /\
  EraserTool.isPointNearLine p a b threshold
  = SelectTool.isPointNearLine p a b threshold.
Proof.
  split; [ apply select_near_spec | reflexivity ].
Qed.

Lemma select_hits_horizontal_line :
  SelectTool.findElementAtPoint (doc one_line_canvas) {| x := 150; y := 100 |}
  = Some horizontal_line.
Proof.
  assert (Hnear :
    SelectTool.isPointNearLine {| x := 150; y := 100 |}
      {| x := 100; y := 100 |} {| x := 200; y := 100 |} 7 = true).
  { apply select_near_spec. exists (1 / 2). split; [ lra | ].
    rewrite distance_along. cbn [x y].
    replace ((150 - 100 - 1 / 2 * (200 - 100))
             * (150 - 100 - 1 / 2 * (200 - 100))
             + (100 - 100 - 1 / 2 * (100 - 100))
               * (100 - 100 - 1 / 2 * (100 - 100))) with 0 by lra.
    rewrite sqrt_0. lra. }
  unfold SelectTool.findElementAtPoint, SelectTool.hit, one_line_canvas,
    horizontal_line, sample_line.
  cbn -[SelectTool.isPointNearLine].
  rewrite Hnear. reflexivity.
Qed.

Lemma drag_moves_the_clicked_element_witness :
  exists t',
    SelectTool.gesture one_line_selection {| x := 150; y := 100 |}
      [ {| x := 155; y := 110 |}; {| x := 160; y := 120 |} ] = Some t' /\
    elements (SelectTool.doc t')
      = dragged horizontal_line
          (x (last [ {| x := 155; y := 110 |}; {| x := 160; y := 120 |} ]
                {| x := 150; y := 100 |}) - x {| x := 150; y := 100 |})
          (y (last [ {| x := 155; y := 110 |}; {| x := 160; y := 120 |} ]
                {| x := 150; y := 100 |}) - y {| x := 150; y := 100 |})
          (elements (SelectTool.doc one_line_selection)) /\
    selectedElementIds (SelectTool.doc t') = [id horizontal_line] /\
    historyIndex (SelectTool.doc t')
      = (historyIndex (SelectTool.doc one_line_selection) + 1)%nat /\
    SelectTool.isDragging t' = false /\ SelectTool.dragStart t' = None /\
    (cursor_in_range (SelectTool.doc one_line_selection) ->
     cursor_is_current (SelectTool.doc one_line_selection) ->
     exists s, drawingReducer (SelectTool.doc t') UNDO = Some s /\
               elements s = elements (SelectTool.doc one_line_selection)).
Proof.
  apply (drag_moves_the_clicked_element one_line_selection horizontal_line).
  - simpl. constructor; [ intros [] | constructor ].
  - exact select_hits_horizontal_line.
Defined.

Lemma find_app {A} (f : A -> bool) (l1 l2 : list A) :
  find f (l1 ++ l2) =
  match find f l1 with Some a => Some a | None => find f l2 end.
Proof.
  induction l1 as [| a l1 IH]; simpl; [ reflexivity | ].
  destruct (f a); [ reflexivity | exact IH ].
Qed.

(** Searching the reversed list finds the last match of the list. *)
Lemma find_rev_last {A} (f : A -> bool) (l : list A) (a : A) :
  find f (rev l) = Some a ->
  exists before after,
    l = before ++ a :: after /\ f a = true /\
    forall e, In e after -> f e = false.
Proof.
  induction l as [| e l IH]; [ discriminate | ].
  cbn [rev]. rewrite find_app.
  destruct (find f (rev l)) as [a' |] eqn:Hfind.
  - intros H. injection H as ->.
    destruct (IH eq_refl) as (before & after & -> & Ha & Hafter).
    exists (e :: before), after. repeat split; assumption.
  - cbn [find]. destruct (f e) eqn:He; [ | discriminate ].
    intros H. injection H as ->.
    exists [], l. repeat split; [ assumption | ].
    intros e Hin. apply (find_none f (rev l) Hfind). apply in_rev in Hin.
    exact Hin.
Qed.

Lemma hit_unprotected (s : DrawingState) (point : Point) (el : DrawingElement) :
  SelectTool.hit s point el = true -> ~ protected s el.
Proof.
  unfold SelectTool.hit, protected.
  destruct (find (fun l => String.eqb (layer_id l) (layerId el)) (layers s))
    as [layer |]; [ | discriminate ].
  destruct (visible layer), (locked layer); simpl; try discriminate.
  intros _ [H | H]; discriminate.
Qed.

(** X25.  A pointer-down of the selection tool without the shift key
    changes only the selection: the document after it is the document
    before it with [selectedElementIds] replaced.  It selects the topmost
    element under the pointer, the last one in the element list that the
    hit test accepts, never one on a hidden, locked or missing layer, and
    starts a drag there; with nothing under the pointer it clears the
    selection.  With the shift key it does nothing. *)
Theorem click_selects_topmost (t : SelectTool.State) (point : Point) :
  SelectTool.handleMouseDown t true point = Some t /\
  exists t',
    SelectTool.handleMouseDown t false point = Some t' /\
    SelectTool.doc t'
      = set_selectedElementIds (selectedElementIds (SelectTool.doc t'))
          (SelectTool.doc t) /\
    elements (SelectTool.doc t') = elements (SelectTool.doc t) /\
    history (SelectTool.doc t') = history (SelectTool.doc t) /\
    ((exists before el after,
        elements (SelectTool.doc t) = before ++ el :: after /\
        SelectTool.hit (SelectTool.doc t) point el = true /\
        (forall e, In e after ->
                   SelectTool.hit (SelectTool.doc t) point e = false) /\
        ~ protected (SelectTool.doc t) el /\
        selectedElementIds (SelectTool.doc t') = [id el] /\
        SelectTool.dragStart t' = Some point /\
        SelectTool.isDragging t' = true)
     \/
     ((forall e, In e (elements (SelectTool.doc t)) ->
                 SelectTool.hit (SelectTool.doc t) point e = false) /\
      selectedElementIds (SelectTool.doc t') = [] /\
      SelectTool.dragStart t' = SelectTool.dragStart t /\
      SelectTool.isDragging t' = SelectTool.isDragging t)).
Proof.
  split; [ reflexivity | ].
  unfold SelectTool.handleMouseDown. cbn [drawingReducer].
  destruct (SelectTool.findElementAtPoint (SelectTool.doc t) point)
    as [el |] eqn:Hfind.
  - eexists. split; [ reflexivity | ]. split; [ reflexivity | ].
    split; [ reflexivity | ]. split; [ reflexivity | ].
    left. unfold SelectTool.findElementAtPoint in Hfind.
    destruct (find_rev_last _ _ _ Hfind) as (before & after & Hl & Hhit & Hafter).
    exists before, el, after.
    split; [ exact Hl | ]. split; [ exact Hhit | ]. split; [ exact Hafter | ].
    split; [ exact (hit_unprotected _ _ _ Hhit) | ].
    repeat split.
  - eexists. split; [ reflexivity | ]. split; [ reflexivity | ].
    split; [ reflexivity | ]. split; [ reflexivity | ].
    right. split; [ | repeat split ].
    intros e Hin. unfold SelectTool.findElementAtPoint in Hfind.
    apply (find_none _ _ Hfind). apply in_rev in Hin. exact Hin.
Qed.

(** The state a drag that starts on an element ends in. *)
Lemma select_gesture_drag (t : SelectTool.State) (el : DrawingElement)
  (down : Point) (path : list Point) :
  NoDup (map id (elements (SelectTool.doc t))) ->
  SelectTool.findElementAtPoint (SelectTool.doc t) down = Some el ->
  exists t',
    SelectTool.gesture t down path = Some t' /\
    elements (SelectTool.doc t')
      = dragged el (x (last path down) - x down) (y (last path down) - y down)
          (elements (SelectTool.doc t)) /\
    selectedElementIds (SelectTool.doc t') = [id el] /\
    historyIndex (SelectTool.doc t')
      = (historyIndex (SelectTool.doc t) + 1)%nat.
Proof.
  intros Hnd Hfind.
  assert (Hin : In el (elements (SelectTool.doc t))).
  { unfold SelectTool.findElementAtPoint in Hfind.
    apply find_some in Hfind. apply in_rev. tauto. }
  unfold SelectTool.gesture, SelectTool.handleMouseDown.
  rewrite Hfind. cbn [drawingReducer].
  match goal with
  | |- context [SelectTool.moves ?t1 path] =>
      destruct (select_moves_drag el down (elements (SelectTool.doc t)) path
                  Hnd Hin t1 down)
        as (t2 & Hrun & He & Hs & Hg & Hh & Hi & _)
  end; try reflexivity.
  { cbn [SelectTool.doc elements set_selectedElementIds].
    rewrite !Rminus_diag. symmetry. apply dragged_nowhere. }
  rewrite Hrun. unfold SelectTool.handleMouseUp.
  rewrite Hg, Hs. cbn [List.length]. change (0 <? 1)%nat with true.
  cbn [andb drawingReducer].
  eexists. split; [ reflexivity | ].
  cbn [SelectTool.doc elements set_history set_historyIndex selectedElementIds
       historyIndex].
  cbn [SelectTool.doc historyIndex set_selectedElementIds] in Hi.
  split; [ exact He | ]. split; [ exact Hs | ]. rewrite Hi. reflexivity.
Qed.

(** What is left of the elements once the dragged one is removed. *)
Lemma dragged_others (el : DrawingElement) (dx dy : R)
  (els : list DrawingElement) (e : DrawingElement) :
  NoDup (map id els) -> In el els ->
  (In e (dragged el dx dy els) /\ id e <> id el <-> In e els /\ e <> el).
Proof.
  intros Hnd Hin. unfold dragged. rewrite in_map_iff. split.
  - intros [(e0 & He0 & Hin0) Hid].
    destruct (String.eqb_spec (id e0) (id el)) as [Heq | Hne].
    + exfalso. apply Hid. rewrite <- He0. exact Heq.
    + subst e0. split; [ exact Hin0 | ]. intros ->. apply Hid. reflexivity.
  - intros [He Hne].
    assert (Hid : id e <> id el).
    { intros Hid. apply Hne.
      exact (same_id_same_element els e el Hnd He Hin Hid). }
    split; [ | exact Hid ].
    exists e. split; [ | exact He ].
    destruct (String.eqb_spec (id e) (id el)); [ contradiction | reflexivity ].
Qed.

(** X26.  With distinct element ids, a click of the selection tool on an
    element (pointer-down and pointer-up, with or without a drag in
    between) followed by the Delete or the Backspace key removes that
    element and no other and clears the selection.  The history advances
    by two: one checkpoint for the pointer-up, one for the deletion.  Any
    other key changes nothing. *)
Theorem delete_key_removes_the_clicked_element (t : SelectTool.State)
  (el : DrawingElement) (point : Point) (path : list Point) :
  NoDup (map id (elements (SelectTool.doc t))) ->
  SelectTool.findElementAtPoint (SelectTool.doc t) point = Some el ->
  exists t1 t2,
    SelectTool.gesture t point path = Some t1 /\
    SelectTool.handleKeyDown t1 "Delete" = Some t2 /\
    SelectTool.handleKeyDown t1 "Backspace" = Some t2 /\
    (forall e, In e (elements (SelectTool.doc t2)) <->
               In e (elements (SelectTool.doc t)) /\ e <> el) /\
    selectedElementIds (SelectTool.doc t2) = [] /\
    historyIndex (SelectTool.doc t2)
      = (historyIndex (SelectTool.doc t) + 2)%nat /\
    (forall key, key <> "Delete" -> key <> "Backspace" ->
                 SelectTool.handleKeyDown t1 key = Some t1).
Proof.
  intros Hnd Hfind.
  assert (Hin : In el (elements (SelectTool.doc t))).
  { unfold SelectTool.findElementAtPoint in Hfind.
    apply find_some in Hfind. apply in_rev. tauto. }
  destruct (select_gesture_drag t el point path Hnd Hfind)
    as (t1 & Hrun & He & Hs & Hi).
  exists t1.
  assert (Hkey : forall key,
            (String.eqb key "Delete" || String.eqb key "Backspace") = true ->
            SelectTool.handleKeyDown t1 key
            = Some {| SelectTool.doc :=
                        set_elements
                          (filter (fun e => negb (includes [id el] (id e)))
                             (elements (SelectTool.doc t1)))
                          (set_selectedElementIds []
                             (set_history
                                (slice0 (historyIndex (SelectTool.doc t1) + 1)
                                   (history (SelectTool.doc t1))
                                 ++ [filter
                                       (fun e => negb (includes [id el] (id e)))
                                       (elements (SelectTool.doc t1))])
                                (set_historyIndex
                                   (historyIndex (SelectTool.doc t1) + 1)
                                   (SelectTool.doc t1))));
                      SelectTool.dragStart := SelectTool.dragStart t1;
                      SelectTool.isDragging := SelectTool.isDragging t1 |}).
  { intros key Hk. unfold SelectTool.handleKeyDown. rewrite Hk, Hs.
    reflexivity. }
  eexists. split; [ exact Hrun | ].
  split; [ apply Hkey; reflexivity | ].
  split; [ apply Hkey; reflexivity | ].
  cbn [SelectTool.doc elements selectedElementIds historyIndex
       set_selectedElementIds set_elements set_history set_historyIndex].
  split; [ | split; [ reflexivity | split; [ rewrite Hi; lia | ] ] ].
  - intros e. rewrite filter_In, negb_true_iff, He. unfold includes.
    cbn [existsb]. rewrite orb_false_r.
    rewrite <- (dragged_others el (x (last path point) - x point)
                  (y (last path point) - y point)
                  (elements (SelectTool.doc t)) e Hnd Hin).
    rewrite String.eqb_neq. reflexivity.
  - intros key Hd Hb. unfold SelectTool.handleKeyDown.
    apply String.eqb_neq in Hd, Hb. rewrite Hd, Hb. reflexivity.
Qed.

Lemma delete_key_removes_the_clicked_element_witness :
  exists t1 t2,
    SelectTool.gesture one_line_selection {| x := 150; y := 100 |} []
      = Some t1 /\
    SelectTool.handleKeyDown t1 "Delete" = Some t2 /\
    SelectTool.handleKeyDown t1 "Backspace" = Some t2 /\
    (forall e, In e (elements (SelectTool.doc t2)) <->
               In e (elements (SelectTool.doc one_line_selection))
               /\ e <> horizontal_line) /\
    selectedElementIds (SelectTool.doc t2) = [] /\
    historyIndex (SelectTool.doc t2)
      = (historyIndex (SelectTool.doc one_line_selection) + 2)%nat /\
    (forall key, key <> "Delete" -> key <> "Backspace" ->
                 SelectTool.handleKeyDown t1 key = Some t1).
Proof.
  apply (delete_key_removes_the_clicked_element one_line_selection
           horizontal_line {| x := 150; y := 100 |} []).
  - simpl. constructor; [ intros [] | constructor ].
  - exact select_hits_horizontal_line.
Defined.

(** *** The text tool *)




(** *** Loading a drawing *)

Lemma with_layerId_same (el : DrawingElement) : with_layerId el (layerId el) = el.
Proof. destruct el. reflexivity. Qed.

(** X28.  Loading a parsed drawing into a document whose current layer
    exists leaves every loaded element on an existing layer: an element
    whose layer exists is taken as it is, any other is moved to the
    current layer with nothing else changed.  Number and order of the
    elements are those of the file, the selection is cleared, and the load
    is one step of the history. *)
Theorem loaded_elements_are_on_layers (s : DrawingState)
  (parsed : list DrawingElement) :
  In (currentLayerId s) (map layer_id (layers s)) ->
  exists s',
    loadParsed s parsed = Some s' /\
    layers s' = layers s /\
    Forall (on_a_layer s') (elements s') /\
    Forall2 (fun el el' =>
               (on_a_layer s el -> el' = el) /\
               (~ on_a_layer s el -> el' = with_layerId el (currentLayerId s)))
      parsed (elements s') /\
    selectedElementIds s' = [] /\
    historyIndex s' = (historyIndex s + 1)%nat.
Proof.
  intros Hcur.
  unfold loadParsed. cbn [drawingReducer]. eexists. split; [ reflexivity | ].
  cbn [layers elements set_elements set_selectedElementIds set_history
       set_historyIndex selectedElementIds historyIndex].
  split; [ reflexivity | ]. split; [ | split; [ | split ] ].
  - unfold normalized, on_a_layer. apply Forall_forall. intros el' Hin.
    apply in_map_iff in Hin. destruct Hin as (el & <- & _).
    cbn [layerId with_layerId].
    destruct (includes (map layer_id (layers s)) (layerId el)) eqn:Hinc.
    + apply includes_In. exact Hinc.
    + exact Hcur.
  - unfold normalized, on_a_layer.
    induction parsed as [| el parsed IH]; [ constructor | ].
    cbn [map]. constructor; [ | exact IH ].
    destruct (includes (map layer_id (layers s)) (layerId el)) eqn:Hinc.
    + split; [ intros _; apply with_layerId_same | ].
      intros Hno. exfalso. apply Hno. apply includes_In. exact Hinc.
    + split; [ | reflexivity ].
      intros Hyes. apply includes_In in Hyes. congruence.
  - reflexivity.
  - reflexivity.
Qed.

Lemma loaded_elements_are_on_layers_witness :
  exists s',
    loadParsed initialState [sample_line "a" origin origin] = Some s' /\
    layers s' = layers initialState /\
    Forall (on_a_layer s') (elements s') /\
    Forall2 (fun el el' =>
               (on_a_layer initialState el -> el' = el) /\
               (~ on_a_layer initialState el ->
                el' = with_layerId el (currentLayerId initialState)))
      [sample_line "a" origin origin] (elements s') /\
    selectedElementIds s' = [] /\
    historyIndex s' = (historyIndex initialState + 1)%nat.
Proof.
  apply (loaded_elements_are_on_layers initialState).
  simpl. left. reflexivity.
Defined.

(** *** The error of [deserializeDrawing] *)

Section First_error.

Context {text : Type} (codec : JSON text).

(** X29.  When the text parses to an array and [deserializeDrawing]
    throws, the error names the first entry that departs from the format:
    every entry before the index it gives has the shape of an element, the
    entry at that index has not. *)
Theorem error_names_first_bad_entry (json : text) (els : list JSValue)
  (e : Error) :
  parse codec json = Some (JArray els) ->
  deserializeDrawing codec json = Throws e ->
  exists idx bad,
    error_index e = Some idx /\
    nth_error els idx = Some bad /\
    ~ schema_element bad /\
    Forall schema_element (firstn idx els).
Proof.
  unfold deserializeDrawing. intros ->.
  destruct (checkElements 0 els) as [e0 |] eqn:Hc; [ | discriminate ].
  intros H. injection H as <-.
  exact (checkElements_first els 0 e0 Hc).
Qed.

End First_error.

Lemma error_names_first_bad_entry_witness :
  exists idx bad,
    error_index (Missing_id 1) = Some idx /\
    nth_error [stored_line; JObject [("type", JString "line")]] idx
      = Some bad /\
    ~ schema_element bad /\
    Forall schema_element
      (firstn idx [stored_line; JObject [("type", JString "line")]]).
Proof.
  apply (error_names_first_bad_entry transparent_codec
           (Some (JArray [stored_line;
                          JObject [("type", JString "line")]]))).
  - reflexivity.
  - reflexivity.
Defined.

(** *** The layer panel *)

Lemma update_layer_ids (ls : list Layer) (id0 : string) (p : PartialLayer) :
  p_layer_id p = None ->
  map layer_id
    (map (fun l => if String.eqb (layer_id l) id0 then spread_layer l p else l)
       ls)
  = map layer_id ls.
Proof.
  intros Hp. rewrite map_map. apply map_ext. intros l.
  destruct (String.eqb (layer_id l) id0); [ | reflexivity ].
  unfold spread_layer. cbn [layer_id]. rewrite Hp. reflexivity.
Qed.

Lemma delete_layer_well_formed (s : DrawingState) (id0 : string) :
  layers_well_formed s -> (1 < List.length (layers s))%nat ->
  exists s',
    drawingReducer s (DELETE_LAYER id0) = Some s' /\ layers_well_formed s'.
Proof.
  intros [Hnd Hcur] Hlen.
  set (keep := fun l : Layer => negb (String.eqb (layer_id l) id0)).
  assert (Hkeep : forall l, In l (filter keep (layers s)) <->
                            In l (layers s) /\ layer_id l <> id0).
  { intros l. rewrite filter_In. unfold keep. rewrite negb_true_iff.
    destruct (String.eqb_spec (layer_id l) id0); intuition congruence. }
  assert (Hcount := filter_other_ids (layers s) id0 Hnd). fold keep in Hcount.
  assert (Hnd' := NoDup_map_filter layer_id keep (layers s) Hnd).
  unfold drawingReducer, layers_well_formed.
  destruct (Nat.leb_spec (List.length (layers s)) 1) as [Hle | _]; [ lia | ].
  fold keep.
  destruct (String.eqb_spec (currentLayerId s) id0) as [He | He].
  - destruct (filter keep (layers s)) as [| first rest] eqn:Hf.
    + simpl in Hcount.
      destruct (in_dec string_dec id0 (map layer_id (layers s))); lia.
    + eexists. split; [ reflexivity | ]. simpl.
      split; [ assumption | left; reflexivity ].
  - eexists. split; [ reflexivity | ]. simpl.
    split; [ assumption | ].
    apply in_map_iff in Hcur. destruct Hcur as (l & Hl & Hin).
    apply in_map_iff. exists l. split; [ assumption | ].
    apply Hkeep. split; [ assumption | congruence ].
Qed.

(** X30.  While no two layers share an id and the current layer is one of
    them, no command of the layer panel throws, and each keeps it so,
    provided a new layer gets an id that is not in use.  Only deleting a
    layer changes the elements, and selecting a layer makes it current
    only if it exists and is not locked. *)
Theorem layer_panel_keeps_layers_well_formed (trim : string -> string)
  (t : LayerPanel.State) (c : LayerPanel.Command) :
  layers_well_formed (LayerPanel.doc t) ->
  LayerPanel.fresh t c ->
  exists t',
    LayerPanel.step trim t c = Some t' /\
    layers_well_formed (LayerPanel.doc t') /\
    ((forall layerId, c <> LayerPanel.DeleteLayer layerId) ->
     elements (LayerPanel.doc t') = elements (LayerPanel.doc t)) /\
    (forall layerId, c = LayerPanel.SetCurrent layerId ->
       currentLayerId (LayerPanel.doc t') = currentLayerId (LayerPanel.doc t)
       \/ exists layer,
            LayerPanel.findLayer t layerId = Some layer /\
            locked layer = false /\
            currentLayerId (LayerPanel.doc t') = layerId).
Proof.
  intros Hwf Hfresh. destruct c as [value | now | id0 | id0 | id0 | id0];
    cbn [LayerPanel.step].
  - eexists. split; [ reflexivity | ]. split; [ exact Hwf | ].
    split; [ reflexivity | ]. intros ? H. discriminate H.
  - unfold LayerPanel.handleAddLayer, LayerPanel.dispatch.
    destruct (String.eqb (trim (LayerPanel.newLayerName t)) "").
    + eexists. split; [ reflexivity | ]. split; [ exact Hwf | ].
      split; [ reflexivity | ]. intros ? H. discriminate H.
    + cbn [drawingReducer]. eexists. split; [ reflexivity | ].
      cbn [LayerPanel.doc LayerPanel.setNewLayerName layers set_layers
           currentLayerId elements].
      split; [ | split; [ reflexivity | intros ? H; discriminate H ] ].
      destruct Hwf as [Hnd Hcur]. unfold layers_well_formed.
      cbn [layers set_layers currentLayerId].
      rewrite map_app. cbn [map layer_id]. split.
      * apply NoDup_app.
        { exact Hnd. }
        { constructor; [ intros [] | constructor ]. }
        { intros a Ha [<- | []]. exact (Hfresh Ha). }
      * apply in_or_app. left. exact Hcur.
  - unfold LayerPanel.handleDeleteLayer, LayerPanel.dispatch.
    destruct (Nat.leb_spec (List.length (layers (LayerPanel.doc t))) 1)
      as [Hle | Hlt].
    + eexists. split; [ reflexivity | ]. split; [ exact Hwf | ].
      split; [ reflexivity | ]. intros ? H. discriminate H.
    + destruct (delete_layer_well_formed _ id0 Hwf Hlt) as (s' & -> & Hwf').
      eexists. split; [ reflexivity | ]. split; [ exact Hwf' | ].
      split; [ | intros ? H; discriminate H ].
      intros Hno. exfalso. exact (Hno id0 eq_refl).
  - unfold LayerPanel.toggleLayerVisibility, LayerPanel.dispatch.
    destruct (LayerPanel.findLayer t id0) as [layer |].
    + cbn [drawingReducer]. eexists. split; [ reflexivity | ].
      split; [ | split; [ reflexivity | intros ? H; discriminate H ] ].
      unfold layers_well_formed.
      cbn [LayerPanel.doc layers set_layers currentLayerId].
      rewrite update_layer_ids by reflexivity. exact Hwf.
    + eexists. split; [ reflexivity | ]. split; [ exact Hwf | ].
      split; [ reflexivity | ]. intros ? H. discriminate H.
  - unfold LayerPanel.toggleLayerLock, LayerPanel.dispatch.
    destruct (LayerPanel.findLayer t id0) as [layer |].
    + cbn [drawingReducer]. eexists. split; [ reflexivity | ].
      split; [ | split; [ reflexivity | intros ? H; discriminate H ] ].
      unfold layers_well_formed.
      cbn [LayerPanel.doc layers set_layers currentLayerId].
      rewrite update_layer_ids by reflexivity. exact Hwf.
    + eexists. split; [ reflexivity | ]. split; [ exact Hwf | ].
      split; [ reflexivity | ]. intros ? H. discriminate H.
  - unfold LayerPanel.setCurrentLayer, LayerPanel.dispatch.
    destruct (LayerPanel.findLayer t id0) as [layer |] eqn:Hfind.
    + destruct (locked layer) eqn:Hlock; cbn [negb].
      * eexists. split; [ reflexivity | ]. split; [ exact Hwf | ].
        split; [ reflexivity | ]. intros ? _. left. reflexivity.
      * cbn [drawingReducer]. eexists. split; [ reflexivity | ].
        cbn [LayerPanel.doc]. split; [ | split; [ reflexivity | ] ].
        { destruct Hwf as [Hnd Hcur]. unfold layers_well_formed.
          cbn [layers currentLayerId set_currentLayerId].
          split; [ exact Hnd | ].
          unfold LayerPanel.findLayer in Hfind. apply find_some in Hfind.
          destruct Hfind as [Hin He]. apply String.eqb_eq in He. subst id0.
          apply in_map. exact Hin. }
        { intros layerId H. injection H as <-. right. exists layer.
          split; [ exact Hfind | ]. split; [ exact Hlock | reflexivity ]. }
    + eexists. split; [ reflexivity | ]. split; [ exact Hwf | ].
      split; [ reflexivity | ]. intros ? _. left. reflexivity.
Qed.

Lemma layer_panel_keeps_layers_well_formed_witness :
  exists t',
    LayerPanel.step (fun s => s) layer_panel_with_name
      (LayerPanel.AddLayer "7") = Some t' /\
    layers_well_formed (LayerPanel.doc t') /\
    ((forall layerId,
        LayerPanel.AddLayer "7" <> LayerPanel.DeleteLayer layerId) ->
     elements (LayerPanel.doc t')
       = elements (LayerPanel.doc layer_panel_with_name)) /\
    (forall layerId,
       LayerPanel.AddLayer "7" = LayerPanel.SetCurrent layerId ->
       currentLayerId (LayerPanel.doc t')
         = currentLayerId (LayerPanel.doc layer_panel_with_name)
       \/ exists layer,
            LayerPanel.findLayer layer_panel_with_name layerId = Some layer /\
            locked layer = false /\
            currentLayerId (LayerPanel.doc t') = layerId).
Proof.
  apply (layer_panel_keeps_layers_well_formed (fun s => s)
           layer_panel_with_name (LayerPanel.AddLayer "7")).
  - split.
    + simpl. repeat constructor; simpl; intuition discriminate.
    + simpl. left. reflexivity.
  - simpl. intuition discriminate.
Defined.
